(** * BankBackEnd: a shallow embedding of [bank.py]

    The development follows the layout of the Python module:
    constants, the two process-wide generators, the enumerations and the
    error catalogue, the data classes, the card state machine with its
    three variants, and the [Bank] aggregate with its identifier
    generators.  Python [float] is IEEE-754 binary64 and is modelled by
    Rocq's primitive floats; Python [int] is [Z] (or [N] for the
    counters, which only count upwards); Python [str] is the list of its
    Unicode code points. *)

From Stdlib Require Import ZArith NArith Lia Bool String Ascii Floats Sorted.
From stdpp Require Import base tactics option list numbers sets sorting.

Local Open Scope Z_scope.

(** ** Python strings *)

Module PyStr.

(** A [str] is a sequence of code points. *)
Definition pystr : Type := list N.

(** An ASCII literal of the source, as a [str]. *)
Definition lit (s : string) : pystr := N_of_ascii <$> list_ascii_of_string s.

(** The interpreter's Unicode tables outside ASCII: which code points
    [str.isdigit] accepts, which decimal value [int] gives them, and
    what [str.upper] maps them to.  Inside ASCII the three builtins are
    written out below. *)
Class UnicodeDB : Type := {
  nonascii_isdigit : N → bool;
  nonascii_decimal : N → option Z;
  nonascii_upper : N → list N
}.

(** The tables of an interpreter that knows no digit and no case
    mapping outside ASCII. *)
Definition ascii_only : UnicodeDB :=
  {| nonascii_isdigit := λ _, false;
     nonascii_decimal := λ _, None;
     nonascii_upper := λ c, [c] |}.

Definition is_ascii_digit (c : N) : bool := ((48 <=? c) && (c <=? 57))%N.

Section WithUnicode.
Context {U : UnicodeDB}.

(** [c.isdigit()] for one character. *)
Definition isdigit_char (c : N) : bool :=
  if (c <? 128)%N then is_ascii_digit c else nonascii_isdigit c.

(** [s.isdigit()]: every character is a digit and there is at least one. *)
Definition isdigit (s : pystr) : bool :=
  match s with
  | [] => false
  | _ => forallb isdigit_char s
  end.

(** [int(d)] for a one-character string; [None] is [ValueError]. *)
Definition int_char (c : N) : option Z :=
  if (c <? 128)%N then
    if is_ascii_digit c then Some (Z.of_N c - 48) else None
  else nonascii_decimal c.

(** [[int(d) for d in s]]. *)
Fixpoint ints (s : pystr) : option (list Z) :=
  match s with
  | [] => Some []
  | c :: s' =>
      match int_char c, ints s' with
      | Some d, Some ds => Some (d :: ds)
      | _, _ => None
      end
  end.

Definition upper_char (c : N) : list N :=
  if (c <? 128)%N then
    [if ((97 <=? c) && (c <=? 122))%N then (c - 32)%N else c]
  else nonascii_upper c.

(** [s.upper()]. *)
Definition upper (s : pystr) : pystr := concat (upper_char <$> s).
End WithUnicode.

(** The [w] low decimal digits of [n], most significant first. *)
Fixpoint digits_w (w : nat) (n : N) : list N :=
  match w with
  | O => []
  | S w' => digits_w w' (n / 10) ++ [(n mod 10)%N]
  end.

Fixpoint dec_width_from (fuel k : nat) (n : N) : nat :=
  match fuel with
  | O => k
  | S f => if (n <? 10 ^ N.of_nat k)%N then k else dec_width_from f (S k) n
  end.

(** The number of decimal digits of [n] (one for zero). *)
Definition dec_width (n : N) : nat := dec_width_from (N.to_nat (N.size n)) 1 n.

Definition digit_char (d : N) : N := (48 + d)%N.

(** [f"{n:0wd}"] for a non-negative [n]: decimal, padded with zeros on
    the left up to width [w], and longer when [n] needs more digits. *)
Definition format_0d (w : nat) (n : N) : pystr :=
  digit_char <$> digits_w (w `max` dec_width n) n.

(** [str(n)] for a non-negative integer. *)
Definition str_of_int (n : N) : pystr := format_0d 1 n.

(** [s[-k:]]: the last [k] characters, the whole string when shorter. *)
Definition last_chars (k : nat) (s : pystr) : pystr := drop (length s - k) s.

(** [range(start, stop, step)] for a positive step. *)
Fixpoint range_from (fuel start stop step : nat) : list nat :=
  match fuel with
  | O => []
  | S f => if (start <? stop)%nat then start :: range_from f (start + step) stop step else []
  end.
Definition range3 (start stop step : nat) : list nat := range_from stop start stop step.

End PyStr.
Import PyStr.

(** ** Outcomes of a call

    A method body either returns, raises one of the bank's own errors
    (which the [try_except_dec] wrapper catches), or dies of another
    exception that nothing in the module catches. *)

Inductive ErrorClass : Set :=
| ValidationError | NotFoundError | AccessError | BusinessRuleError | InsufficientFundsError.

Inductive Message : Type :=
| PIN_MISMATCH | PIN_INVALID | PIN_FORMAT_INVALID | NAME_INVALID
| AMOUNT_NEGATIVE | DEPOSIT_AMOUNT_NEGATIVE | CASHBACK_NEGATIVE | INTEREST_NEGATIVE
| PAY_AMOUNT_NEGATIVE | INVALID_MCC
| PAYMENT_SYSTEM_NOT_SUPPORTED (payment_system : pystr)
| RECIPIENT_NOT_FOUND
| CARD_CLOSED | ACCOUNT_NOT_LINKED | BANK_NOT_LINKED
| RECIPIENT_ACCOUNT_NOT_LINKED | RECIPIENT_CARD_CLOSED
| DEPOSIT_LIMIT_EXCEEDED | TRANSFER_LIMIT_EXCEEDED | CASHBACK_LIMIT | TRANSFER_TO_SELF
| USER_CONFLICT | TOO_MANY_DEBIT_CARDS
| MCC_FORBIDDEN (mcc : pystr)
| PURCHASE_LIMIT_EXCEEDED | PAYMENT_NOT_ALLOWED_FOR_SAVING | SAVING_RATE_TOO_HIGH
| INSUFFICIENT_FUNDS_FOR_PAYMENT | INSUFFICIENT_FUNDS_FOR_TRANSFER.

Inductive PyException : Set :=
| ValueError | TypeError | AttributeError | KeyError | OverflowError | StopIteration.

Inductive outcome (A : Type) : Type :=
| Return (a : A)
| Raise (cls : ErrorClass) (msg : Message)
| Uncaught (e : PyException).
Arguments Return {A} a.
Arguments Raise {A} cls msg.
Arguments Uncaught {A} e.

(** ** Identifier generation: account numbers and PANs *)

Module Ident.

Definition ACCOUNT_TYPE_CODE : pystr := lit "40817".
Definition ACCOUNT_BRANCH : pystr := lit "0000".
Definition ACCOUNT_CURRENCY : pystr := lit "810".
Definition DEFAULT_PAYMENT_SYSTEM : pystr := lit "MIR".

(** [BIN_BY_SYSTEM], in the order it is written. *)
Definition BIN_BY_SYSTEM : list (pystr * pystr) :=
  [ (lit "MIR", lit "220400"); (lit "VISA", lit "400000"); (lit "MASTERCARD", lit "510000") ].

(** [d.get(key, default)] on a dict literal. *)
Fixpoint dict_get (d : list (pystr * pystr)) (key default : pystr) : pystr :=
  match d with
  | [] => default
  | (k, v) :: d' => if decide (k = key) then v else dict_get d' key default
  end.

Definition sumZ (l : list Z) : Z := foldr Z.add 0 l.

(** [[7, 1, 3] * 8] *)
Definition weights : list Z := concat (replicate 8 [7; 1; 3]).

Section WithUnicode.
Context {U : UnicodeDB}.

(** The body of the [for control_digit] loop up to its test:
    [control_sum] for the string [bic_tail + candidate]. *)
Definition control_sum (s : pystr) : option Z :=
  match ints s with
  | Some digits =>
      let weighted := (λ ab : Z * Z, ab.1 * ab.2) <$> zip digits weights in
      Some (sumZ ((λ x, x mod 10) <$> weighted))
  | None => None
  end.

Definition candidate_account_nuber (serial : pystr) (control_digit : N) : pystr :=
  (ACCOUNT_TYPE_CODE ++ ACCOUNT_CURRENCY) ++ str_of_int control_digit
    ++ ACCOUNT_BRANCH ++ serial.

(** The loop over [range(10)]; falling out of it returns [None]. *)
Fixpoint control_digit_loop (bic_tail serial : pystr) (ds : list N)
  : outcome (option pystr) :=
  match ds with
  | [] => Return None
  | control_digit :: ds' =>
      let cand := candidate_account_nuber serial control_digit in
      match control_sum (bic_tail ++ cand) with
      | None => Uncaught ValueError
      | Some s =>
          if s mod 10 =? 0 then Return (Some cand)
          else control_digit_loop bic_tail serial ds'
      end
  end.

(** [Bank._next_account_number], given the value drawn from
    [_account_seq]. *)
Definition _next_account_number (bic : pystr) (next_seq : N) : outcome (option pystr) :=
  let bic_tail := last_chars 3 bic in
  let serial := format_0d 7 next_seq in
  control_digit_loop bic_tail serial (N.of_nat <$> seq 0 10).

Definition luhn_double (digits : list Z) (i : nat) : list Z :=
  match digits !! i with
  | Some x =>
      let doubled := x * 2 in
      <[i := if 9 <? doubled then doubled - 9 else doubled]> digits
  | None => digits
  end.

(** [Bank._luhn]. *)
Definition _luhn (number15 : pystr) : outcome Z :=
  match ints (reverse number15) with
  | Some digits =>
      let digits := foldl luhn_double digits (range3 1 (length digits) 2) in
      Return ((10 - sumZ digits mod 10) mod 10)
  | None => Uncaught ValueError
  end.

(** [Bank._generate_pan], given the value drawn from [_pan_seq]. *)
Definition _generate_pan (system : pystr) (next_seq : N) : outcome pystr :=
  let bin_code :=
    dict_get BIN_BY_SYSTEM (upper system)
      (dict_get BIN_BY_SYSTEM DEFAULT_PAYMENT_SYSTEM []) in
  let seq := format_0d 9 next_seq in
  let partial := bin_code ++ seq in
  match _luhn partial with
  | Return check => Return (partial ++ str_of_int (Z.to_N check))
  | Raise c m => Raise c m
  | Uncaught e => Uncaught e
  end.
End WithUnicode.

End Ident.
Import Ident.

(** ** Constants *)

Definition DEFAULT_ACCOUNT_BALANCE : float := 0%float.
Definition DEFAULT_CASHBACK_BALANCE : float := 0%float.
Definition EMPTY_PAN : pystr := lit "0000000000000000".

#[warnings="-inexact-float"]
Definition DEBIT_DEFAULT_CASHBACK_RATE : float := 0.03%float.
#[warnings="-inexact-float"]
Definition SAVING_CARD_DEFAULT_INTEREST : float := 0.015%float.

(** A set literal; only membership is asked of it. *)
Definition FORBIDDEN_MCC : list pystr := [lit "7995"; lit "4829"; lit "6051"].

Definition DEPOSIT_LIMIT : float := 1000000%float.
Definition TRANSFER_LIMIT : float := 500000%float.
Definition PAY_LIMIT : float := 500000%float.
#[warnings="-inexact-float"]
Definition MAX_CASHBACK_RATE : float := 0.1%float.
#[warnings="-inexact-float"]
Definition MAX_SAVING_INTEREST_RATE : float := 0.3%float.

Definition DEFAULT_CARD_INFO_FIELDS : list pystr :=
  lit <$> [ "card_id"; "user_id"; "phone"; "bank_name"; "bank_bic"; "acc_id"; "pan";
            "payment_system"; "currency"; "status"; "issue_date"; "expiry_date";
            "balance"; "cashback_balance"; "user_cards" ]%string.

(** ** The builtin [round(x, 2)]

    CPython rounds the exact binary value of [x] half-to-even to two
    decimals and converts that decimal back to the nearest double; zeros,
    infinities and NaN round to themselves, and the sign is carried over
    separately from the digits. *)

Module PyRound.

(** [num / den] rounded half-to-even to an integer, for [den > 0]. *)
Definition div_half_even (num den : Z) : Z :=
  let q := num / den in
  let r := num mod den in
  match 2 * r ?= den with
  | Lt => q
  | Gt => q + 1
  | Eq => if Z.even q then q else q + 1
  end.

(** The double nearest to [n / 100], for [n > 0]. *)
Definition hundredths (n : positive) : float :=
  SF2Prim (SFdiv prec emax (S754_finite false n 0) (S754_finite false 100 0)).

Definition round2 (x : float) : float :=
  match Prim2SF x with
  | S754_finite s m e =>
      if 0 <=? e then x
      else
        let magnitude :=
          match div_half_even (100 * Zpos m) (2 ^ (- e)) with
          | Zpos n => abs (hundredths n)
          | _ => 0%float
          end in
        if s then (- magnitude)%float else magnitude
  | _ => x
  end.

End PyRound.
Import PyRound.

(** ** Dates

    A date is the number of days since [ISSUE_DATE_START] (2022-01-01).
    The [datetime] module has the days from 0001-01-01 to 9999-12-31 and
    counts them from 1 (the ordinal of a date); its arithmetic is
    written out here as the module does it. *)

Module Calendar.

Definition MINYEAR : Z := 1.
Definition MAXYEAR : Z := 9999.

Definition is_leap (year : Z) : bool :=
  (year mod 4 =? 0) && (negb (year mod 100 =? 0) || (year mod 400 =? 0)).

Definition DAYS_IN_MONTH : list Z := [0; 31; 28; 31; 30; 31; 30; 31; 31; 30; 31; 30; 31].
Definition DAYS_BEFORE_MONTH : list Z :=
  [0; 0; 31; 59; 90; 120; 151; 181; 212; 243; 273; 304; 334].

Definition days_in_month (year month : Z) : Z :=
  if (month =? 2) && is_leap year then 29 else nth (Z.to_nat month) DAYS_IN_MONTH 0.

Definition days_before_year (year : Z) : Z :=
  let y := year - 1 in
  y * 365 + y / 4 - y / 100 + y / 400.

Definition days_before_month (year month : Z) : Z :=
  nth (Z.to_nat month) DAYS_BEFORE_MONTH 0
  + (if (2 <? month) && is_leap year then 1 else 0).

(** The ordinal of the day [year]-[month]-[day]. *)
Definition ymd2ord (year month day : Z) : Z :=
  days_before_year year + days_before_month year month + day.

(** The year, month and day of ordinal [n]: whole cycles of 400, 100,
    4 and 1 years, then the month from an estimate that is corrected
    once. *)
Definition ord2ymd (n : Z) : Z * Z * Z :=
  let n := n - 1 in
  let n400 := n / 146097 in
  let n := n mod 146097 in
  let year := n400 * 400 + 1 in
  let n100 := n / 36524 in
  let n := n mod 36524 in
  let n4 := n / 1461 in
  let n := n mod 1461 in
  let n1 := n / 365 in
  let n := n mod 365 in
  let year := year + n100 * 100 + n4 * 4 + n1 in
  if (n1 =? 4) || (n100 =? 4) then (year - 1, 12, 31)
  else
    let leapyear := (n1 =? 3) && (negb (n4 =? 24) || (n100 =? 3)) in
    let month := Z.shiftr (n + 50) 5 in
    let preceding :=
      nth (Z.to_nat month) DAYS_BEFORE_MONTH 0
      + (if (2 <? month) && leapyear then 1 else 0) in
    if n <? preceding then
      let month := month - 1 in
      let preceding :=
        preceding
        - (nth (Z.to_nat month) DAYS_IN_MONTH 0
           + (if (month =? 2) && leapyear then 1 else 0)) in
      (year, month, n - preceding + 1)
    else (year, month, n - preceding + 1).

(** The ordinals of [ISSUE_DATE_START] and of the last day there is. *)
Definition START : Z := ymd2ord 2022 1 1.
Definition MAXORDINAL : Z := ymd2ord MAXYEAR 12 31.

(** The year, month and day of a date. *)
Definition ymd (date : Z) : Z * Z * Z := ord2ymd (date + START).

(** [_dt.date(year, month, day)]; what is not a day of the calendar is
    a [ValueError]. *)
Definition date (year month day : Z) : outcome Z :=
  if (MINYEAR <=? year) && (year <=? MAXYEAR) && (1 <=? month) && (month <=? 12)
     && (1 <=? day) && (day <=? days_in_month year month)
  then Return (ymd2ord year month day - START)
  else Uncaught ValueError.

(** [ISSUE_DATE_START + _dt.timedelta(days=i)], and the date of
    [TIMESTAMP_START + _dt.timedelta(days=i)]: past the last day the
    sum is an [OverflowError]. *)
Definition start_plus_days (i : Z) : outcome Z :=
  let ordinal := START + i in
  if (0 <? ordinal) && (ordinal <=? MAXORDINAL) then Return i
  else Uncaught OverflowError.

End Calendar.

(** The date of 9999-12-31. *)
Definition LAST_DAY : Z := Calendar.MAXORDINAL - Calendar.START.

Definition EXPIRE_YEARS : Z := 4.

(** [_dt.date(issue_date.year + EXPIRE_YEARS, issue_date.month, issue_date.day)] *)
Definition expiry_date (issue_date : Z) : outcome Z :=
  let '(year, month, day) := Calendar.ymd issue_date in
  Calendar.date (year + EXPIRE_YEARS) month day.

(** ** The two process-wide generators

    [ISSUE_DATE_GENERATOR] and [TIMESTAMP_GENERATOR] are each the index
    [i] of the step they take next.  A step that raises ends its
    generator, and a generator that has ended answers [next] with
    [StopIteration]; the steps of both generators yield up to the index
    [LAST_DAY] and raise from there on, so an index above [LAST_DAY + 1]
    is a generator that has ended. *)

Record datetime := mk_datetime {
  dt_date : Z;
  hour : Z;
  minute : Z;
  second : Z
}.

(** Step [i] of [ISSUE_DATE_GENERATOR]. *)
Definition issue_date_generator (i : N) : outcome Z :=
  Calendar.start_plus_days (Z.of_N i).

(** What step [i] of [timestamp_generator] yields once it has its
    [base_date]. *)
Definition timestamp_at (i base_date : Z) : datetime :=
  let hour := 9 + (i * 3) mod 10 in
  let minute := (i * 7) mod 60 in
  let second := (i * 11) mod 60 in
  {| dt_date := base_date; hour := hour mod 24; minute := minute; second := second |}.

(** Step [i] of [timestamp_generator]. *)
Definition timestamp_generator (i : N) : outcome datetime :=
  let i := Z.of_N i in
  match Calendar.start_plus_days i with
  | Return base_date => Return (timestamp_at i base_date)
  | Raise c m => Raise c m
  | Uncaught e => Uncaught e
  end.

Definition ended (gen : N) : bool := LAST_DAY + 1 <? Z.of_N gen.

(** [next(g)] for the generator at index [gen] whose steps are [step]:
    the index it is left at, and the value or the exception. *)
Definition next {A} (step : N → outcome A) (gen : N) : N * outcome A :=
  if ended gen then (gen, Uncaught StopIteration) else (N.succ gen, step gen).

(** The [while True] loop of [next_timestamp_after]: draw from the
    generator until the date is later than [issue_date]; an exception of
    the draw leaves the loop.  The generator moves one day per draw, so
    [issue_date + 1 - gen] draws are enough; [next_timestamp_loop_exit]
    below shows the last draw passes the test. *)
Fixpoint next_timestamp_loop (fuel : nat) (gen : N) (issue_date : Z) : N * outcome datetime :=
  match next timestamp_generator gen with
  | (gen', Return ts) =>
      match fuel with
      | O => (gen', Return ts)
      | S fuel' =>
          if issue_date <? dt_date ts then (gen', Return ts)
          else next_timestamp_loop fuel' gen' issue_date
      end
  | (gen', Raise c m) => (gen', Raise c m)
  | (gen', Uncaught e) => (gen', Uncaught e)
  end.

Definition datetime_ltb (a b : datetime) : bool :=
  match dt_date a ?= dt_date b with
  | Lt => true | Gt => false
  | Eq => match hour a ?= hour b with
          | Lt => true | Gt => false
          | Eq => match minute a ?= minute b with
                  | Lt => true | Gt => false
                  | Eq => second a <? second b
                  end
          end
  end.

(** ** Enumerations and data classes *)

Inductive CardStatus : Set := ACTIVE | CLOSED | BLOCKED.
Inductive TransactionType : Set := DEPOSIT | TRANSFER | PAY | INTEREST.

Definition CARD_STATUS : CardStatus := ACTIVE.

(** The description templates with the values they are filled with. *)
Inductive Description : Type :=
| DEPOSIT_DESCRIPTION (amount : float) (card_id : N)
| TRANSFER_DESCRIPTION (amount : float) (from_card to_card : N)
| PAY_DESCRIPTION (amount : float) (mcc : pystr) (card_id : N)
| CB_DEBIT_PAY_DESCRIPTION (amount : float) (mcc : pystr) (card_id : N) (cashback_amount : float)
| SAVING_INTEREST_DESCRIPTION (interest : float) (card_id : N).

Record Transaction := mk_Transaction {
  from_card : option N;
  to_card : option N;
  amount : float;
  type : TransactionType;
  mcc : option pystr;
  description : Description;
  timestamp : datetime;
  cash_back : float
}.

(** [list.sort(key=lambda trans: trans.timestamp)]: a stable sort,
    written as the insertion of each element behind the ones that are
    not later than it. *)
Fixpoint insert_by_timestamp (t : Transaction) (l : list Transaction) : list Transaction :=
  match l with
  | [] => [t]
  | x :: l' =>
      if datetime_ltb (timestamp t) (timestamp x) then t :: l
      else x :: insert_by_timestamp t l'
  end.
Definition sort_by_timestamp (l : list Transaction) : list Transaction :=
  foldl (λ sorted t, insert_by_timestamp t sorted) [] l.

(** Objects live in two heaps, one of accounts and one of cards; a
    reference is an index.  A user is the value [customers] holds under
    its id. *)
Module User.
Record t := mk {
  last_name : pystr;
  first_name : pystr;
  pin : pystr;
  phone : pystr;
  user_id : N;
  accounts : list nat;
  cards : list nat
}.
Definition set_pin (p : pystr) (u : t) : t :=
  mk (last_name u) (first_name u) p (phone u) (user_id u) (accounts u) (cards u).
Definition append_card (c : nat) (u : t) : t :=
  mk (last_name u) (first_name u) (pin u) (phone u) (user_id u) (accounts u) (cards u ++ [c]).
Definition append_account (a : nat) (u : t) : t :=
  mk (last_name u) (first_name u) (pin u) (phone u) (user_id u) (accounts u ++ [a]) (cards u).

(** [User.change_pin]: the user after the call, and what the body did. *)
Definition change_pin {U : UnicodeDB} (self : t) (old_pin new_pin : pystr) : t * outcome unit :=
  if negb (length new_pin =? 4)%nat || negb (length old_pin =? 4)%nat then
    (self, Raise ValidationError PIN_INVALID)
  else if negb (isdigit new_pin) || negb (isdigit old_pin) then
    (self, Raise ValidationError PIN_FORMAT_INVALID)
  else if negb (bool_decide (old_pin = pin self)) then
    (self, Raise ValidationError PIN_MISMATCH)
  else (set_pin new_pin self, Return tt).
End User.

Module Account.
Record t := mk {
  owner : N;
  acc_id : option pystr;
  balance : float;
  cashback_balance : float
}.
Definition set_balance (b : float) (a : t) : t :=
  mk (owner a) (acc_id a) b (cashback_balance a).
Definition set_cashback_balance (b : float) (a : t) : t :=
  mk (owner a) (acc_id a) (balance a) b.
End Account.

(** The class of a card object, with the attribute its [__init__] adds. *)
Inductive CardClass : Type :=
| ClsCard
| ClsSimpleDebitCard
| ClsCashbackDebitCard (cashback_rate : float)
| ClsSavingCard (interest_rate : float).

(** [expiry_date] and [currency] are not kept: no method reads them
    except to print them.  [expiry_date] is still computed when the card
    is made, see [Bank.new_card]. *)
Record Card := mk_Card {
  cls : CardClass;
  account : option nat;
  card_id : N;
  payment_system : pystr;
  pan : pystr;
  issue_date : Z;
  status : CardStatus;
  bank : option unit;
  transactions : list Transaction
}.

Definition set_status (s : CardStatus) (c : Card) : Card :=
  mk_Card (cls c) (account c) (card_id c) (payment_system c) (pan c) (issue_date c) s
    (bank c) (transactions c).
Definition set_transactions (l : list Transaction) (c : Card) : Card :=
  mk_Card (cls c) (account c) (card_id c) (payment_system c) (pan c) (issue_date c)
    (status c) (bank c) l.

(** Python dicts keep insertion order; [d[k] = v] replaces in place. *)
Section Dict.
Context {V : Type}.
Definition dict : Type := list (N * V).

Fixpoint dict_lookup (k : N) (d : dict) : option V :=
  match d with
  | [] => None
  | (k', v) :: d' => if decide (k' = k) then Some v else dict_lookup k d'
  end.

Fixpoint dict_set (k : N) (v : V) (d : dict) : dict :=
  match d with
  | [] => [(k, v)]
  | (k', v') :: d' => if decide (k' = k) then (k, v) :: d' else (k', v') :: dict_set k v d'
  end.

Fixpoint dict_alter (f : V → V) (k : N) (d : dict) : dict :=
  match d with
  | [] => []
  | (k', v) :: d' => if decide (k' = k) then (k', f v) :: d' else (k', v) :: dict_alter f k d'
  end.

Definition dict_values (d : dict) : list V := snd <$> d.
End Dict.
Arguments dict : clear implicits.

Record Bank := mk_Bank {
  name : pystr;
  bic : pystr;
  _user_seq : N;
  _account_seq : N;
  _card_seq : N;
  _pan_seq : N;
  customers : dict User.t;
  accounts : dict (list nat);
  cards : dict (list nat);
  transaction_log : list Transaction
}.

(** The state of the process: the module globals, the bank, the heaps. *)
Record World := mk_World {
  ISSUE_DATE_GENERATOR : N;
  TIMESTAMP_GENERATOR : N;
  error_log : list Message;
  the_bank : Bank;
  account_heap : list Account.t;
  card_heap : list Card
}.

Definition set_ISSUE_DATE_GENERATOR (g : N) (w : World) : World :=
  mk_World g (TIMESTAMP_GENERATOR w) (error_log w) (the_bank w) (account_heap w) (card_heap w).
Definition set_TIMESTAMP_GENERATOR (g : N) (w : World) : World :=
  mk_World (ISSUE_DATE_GENERATOR w) g (error_log w) (the_bank w) (account_heap w) (card_heap w).
Definition set_error_log (l : list Message) (w : World) : World :=
  mk_World (ISSUE_DATE_GENERATOR w) (TIMESTAMP_GENERATOR w) l (the_bank w) (account_heap w)
    (card_heap w).
Definition set_the_bank (b : Bank) (w : World) : World :=
  mk_World (ISSUE_DATE_GENERATOR w) (TIMESTAMP_GENERATOR w) (error_log w) b (account_heap w)
    (card_heap w).
Definition set_account_heap (h : list Account.t) (w : World) : World :=
  mk_World (ISSUE_DATE_GENERATOR w) (TIMESTAMP_GENERATOR w) (error_log w) (the_bank w) h
    (card_heap w).
Definition set_card_heap (h : list Card) (w : World) : World :=
  mk_World (ISSUE_DATE_GENERATOR w) (TIMESTAMP_GENERATOR w) (error_log w) (the_bank w)
    (account_heap w) h.

Definition set_user_seq (n : N) (b : Bank) : Bank :=
  mk_Bank (name b) (bic b) n (_account_seq b) (_card_seq b) (_pan_seq b) (customers b)
    (accounts b) (cards b) (transaction_log b).
Definition set_account_seq (n : N) (b : Bank) : Bank :=
  mk_Bank (name b) (bic b) (_user_seq b) n (_card_seq b) (_pan_seq b) (customers b)
    (accounts b) (cards b) (transaction_log b).
Definition set_card_seq (n : N) (b : Bank) : Bank :=
  mk_Bank (name b) (bic b) (_user_seq b) (_account_seq b) n (_pan_seq b) (customers b)
    (accounts b) (cards b) (transaction_log b).
Definition set_pan_seq (n : N) (b : Bank) : Bank :=
  mk_Bank (name b) (bic b) (_user_seq b) (_account_seq b) (_card_seq b) n (customers b)
    (accounts b) (cards b) (transaction_log b).
Definition set_customers (d : dict User.t) (b : Bank) : Bank :=
  mk_Bank (name b) (bic b) (_user_seq b) (_account_seq b) (_card_seq b) (_pan_seq b) d
    (accounts b) (cards b) (transaction_log b).
Definition set_accounts (d : dict (list nat)) (b : Bank) : Bank :=
  mk_Bank (name b) (bic b) (_user_seq b) (_account_seq b) (_card_seq b) (_pan_seq b)
    (customers b) d (cards b) (transaction_log b).
Definition set_cards (d : dict (list nat)) (b : Bank) : Bank :=
  mk_Bank (name b) (bic b) (_user_seq b) (_account_seq b) (_card_seq b) (_pan_seq b)
    (customers b) (accounts b) d (transaction_log b).
Definition set_transaction_log (l : list Transaction) (b : Bank) : Bank :=
  mk_Bank (name b) (bic b) (_user_seq b) (_account_seq b) (_card_seq b) (_pan_seq b)
    (customers b) (accounts b) (cards b) l.

(** In-place updates of one part of the state. *)
Definition update_card (c : nat) (f : Card → Card) (w : World) : World :=
  set_card_heap (alter f c (card_heap w)) w.
Definition update_account (a : nat) (f : Account.t → Account.t) (w : World) : World :=
  set_account_heap (alter f a (account_heap w)) w.
Definition update_bank (f : Bank → Bank) (w : World) : World :=
  set_the_bank (f (the_bank w)) w.
Definition log_error (e : Message) (w : World) : World :=
  set_error_log (error_log w ++ [e]) w.

(** ** Method bodies: state and exceptions *)

Definition M (A : Type) : Type := World → World * outcome A.

Definition ret {A} (a : A) : M A := λ w, (w, Return a).
Definition bind {A B} (m : M A) (k : A → M B) : M B := λ w,
  match m w with
  | (w', Return a) => k a w'
  | (w', Raise c e) => (w', Raise c e)
  | (w', Uncaught e) => (w', Uncaught e)
  end.
Definition raise {A} (cls : ErrorClass) (msg : Message) : M A := λ w, (w, Raise cls msg).
Definition throw {A} (e : PyException) : M A := λ w, (w, Uncaught e).
Definition gets {A} (f : World → A) : M A := λ w, (w, Return (f w)).
Definition modify (f : World → World) : M unit := λ w, (f w, Return tt).
Definition when (b : bool) (m : M unit) : M unit := if b then m else ret tt.

Declare Scope py_scope.
Delimit Scope py_scope with py.
Notation "'let*' x ':=' m 'in' k" := (bind m (λ x, k))
  (at level 10, x name, m at level 100, k at level 200) : py_scope.
Notation "m '>>' k" := (bind m (λ _, k))
  (at level 100, k at level 200, right associativity) : py_scope.

(** [try_except_dec]: a [BankError] is logged (and printed) and the call
    returns [None]; anything else passes through. *)
Definition try_except_dec {A} (func : M A) : M (option A) := λ w,
  match func w with
  | (w', Return a) => (w', Return (Some a))
  | (w', Raise _ e) => (log_error e w', Return None)
  | (w', Uncaught e) => (w', Uncaught e)
  end.

Local Open Scope py_scope.

(** Following a reference.  The methods are only ever called on objects
    that exist, so a reference outside the heap has no counterpart in the
    source; it is answered like a missing attribute. *)
Definition deref_card (c : nat) : M Card := λ w,
  match card_heap w !! c with
  | Some card => (w, Return card)
  | None => (w, Uncaught AttributeError)
  end.
Definition deref_account (a : nat) : M Account.t := λ w,
  match account_heap w !! a with
  | Some acc => (w, Return acc)
  | None => (w, Uncaught AttributeError)
  end.

Definition modify_card (c : nat) (f : Card → Card) : M unit := modify (update_card c f).
Definition modify_account (a : nat) (f : Account.t → Account.t) : M unit :=
  modify (update_account a f).
Definition modify_bank (f : Bank → Bank) : M unit := modify (update_bank f).

(** [if not self.account: raise AccessError(msg)] *)
Definition linked_account (account : option nat) (msg : Message) : M nat :=
  match account with
  | Some a => ret a
  | None => raise AccessError msg
  end.

(** [self.status in [CardStatus.CLOSED, CardStatus.BLOCKED]] *)
Definition closed_or_blocked (s : CardStatus) : bool :=
  match s with
  | CLOSED | BLOCKED => true
  | ACTIVE => false
  end.

Definition next_timestamp_after (issue_date : Z) : M datetime := λ w,
  let gen := TIMESTAMP_GENERATOR w in
  let '(gen', r) :=
    next_timestamp_loop (Z.to_nat (issue_date + 1 - Z.of_N gen)) gen issue_date in
  (set_TIMESTAMP_GENERATOR gen' w, r).

(** [self.bank.transaction_log.append(trans)] *)
Definition bank_log_append (bank : option unit) (trans : Transaction) : M unit :=
  match bank with
  | Some _ => modify_bank (λ b, set_transaction_log (transaction_log b ++ [trans]) b)
  | None => throw AttributeError
  end.

(** [card.transactions.append(trans)] *)
Definition transactions_append (c : nat) (trans : Transaction) : M unit :=
  modify_card c (λ card, set_transactions (transactions card ++ [trans]) card).

Definition add_balance (x : float) (a : Account.t) : Account.t :=
  Account.set_balance (Account.balance a + x)%float a.
Definition sub_balance (x : float) (a : Account.t) : Account.t :=
  Account.set_balance (Account.balance a - x)%float a.
Definition add_cashback_balance (x : float) (a : Account.t) : Account.t :=
  Account.set_cashback_balance (Account.cashback_balance a + x)%float a.

(** ** The card state machine *)

Module Card.

Section WithUnicode.
Context {U : UnicodeDB}.

(** [Card.get_balance]; the balance stands for the line it is
    rendered into. *)
Definition get_balance (self : nat) : M float :=
  let* card := deref_card self in
  let* acc := linked_account (account card) ACCOUNT_NOT_LINKED in
  when (closed_or_blocked (status card)) (raise AccessError CARD_CLOSED) >>
  let* a := deref_account acc in
  ret (Account.balance a).

(** The keys of [data] in [get_card_info]. *)
Definition card_info_keys : list pystr :=
  lit <$> [ "bank_name"; "bank_bic"; "card_id"; "user_id"; "phone"; "pan"; "acc_id";
            "payment_system"; "currency"; "status"; "issue_date"; "expiry_date";
            "user_cards"; "cashback_balance"; "balance" ]%string.

(** [Card.get_card_info]; the result is the list of the fields whose
    lines are joined. *)
Definition get_card_info (self : nat) (fields : option (list pystr)) : M (list pystr) :=
  let* card := deref_card self in
  let* acc := linked_account (account card) ACCOUNT_NOT_LINKED in
  when (closed_or_blocked (status card)) (raise AccessError CARD_CLOSED) >>
  let* a := deref_account acc in
  match bank card with
  | None => throw AttributeError
  | Some _ =>
      let fields := default DEFAULT_CARD_INFO_FIELDS fields in
      ret (filter (λ field, field ∈ card_info_keys) fields)
  end.

(** [Card.deposit] *)
Definition deposit (self : nat) (amount : float) : M unit :=
  let* card := deref_card self in
  when (amount <=? 0)%float (raise ValidationError DEPOSIT_AMOUNT_NEGATIVE) >>
  let* acc := linked_account (account card) ACCOUNT_NOT_LINKED in
  when (closed_or_blocked (status card)) (raise AccessError CARD_CLOSED) >>
  when (DEPOSIT_LIMIT <? amount)%float
    (modify_card self (set_status BLOCKED) >>
     raise BusinessRuleError DEPOSIT_LIMIT_EXCEEDED) >>
  let* timestamp := next_timestamp_after (issue_date card) in
  modify_account acc (add_balance amount) >>
  let trans :=
    mk_Transaction None (Some (card_id card)) amount DEPOSIT None
      (DEPOSIT_DESCRIPTION amount (card_id card)) timestamp 0%float in
  bank_log_append (bank card) trans >>
  transactions_append self trans.

(** [Card.transfer] *)
Definition transfer (self : nat) (to_card : option nat) (amount : float) : M unit :=
  let* card := deref_card self in
  when (amount <=? 0)%float (raise ValidationError AMOUNT_NEGATIVE) >>
  let* to_ref :=
    match to_card with
    | None => raise NotFoundError RECIPIENT_NOT_FOUND
    | Some t => ret t
    end in
  let* to_card := deref_card to_ref in
  let* acc := linked_account (account card) ACCOUNT_NOT_LINKED in
  let* to_acc := linked_account (account to_card) RECIPIENT_ACCOUNT_NOT_LINKED in
  when (closed_or_blocked (status card)) (raise AccessError CARD_CLOSED) >>
  when (closed_or_blocked (status to_card)) (raise AccessError RECIPIENT_CARD_CLOSED) >>
  when (bool_decide (card_id card = card_id to_card))
    (raise BusinessRuleError TRANSFER_TO_SELF) >>
  when (TRANSFER_LIMIT <? amount)%float
    (modify_card self (set_status BLOCKED) >>
     raise BusinessRuleError TRANSFER_LIMIT_EXCEEDED) >>
  let* a := deref_account acc in
  when (Account.balance a <? amount)%float
    (raise InsufficientFundsError INSUFFICIENT_FUNDS_FOR_TRANSFER) >>
  let latest_issue := issue_date card `max` issue_date to_card in
  let* timestamp := next_timestamp_after latest_issue in
  modify_account acc (sub_balance amount) >>
  modify_account to_acc (add_balance amount) >>
  let trans :=
    mk_Transaction (Some (card_id card)) (Some (card_id to_card)) amount TRANSFER None
      (TRANSFER_DESCRIPTION amount (card_id card) (card_id to_card)) timestamp 0%float in
  bank_log_append (bank card) trans >>
  transactions_append self trans >>
  transactions_append to_ref trans.

(** [not isinstance(mcc, str) or not mcc.isdigit() or len(mcc) != 4] *)
Definition invalid_mcc (mcc : pystr) : bool :=
  negb (isdigit mcc) || negb (length mcc =? 4)%nat.

(** [Card.pay], the method of the base class *)
Definition base_pay (self : nat) (amount : float) (mcc : pystr) : M unit :=
  let* card := deref_card self in
  when (amount <=? 0)%float (raise ValidationError PAY_AMOUNT_NEGATIVE) >>
  when (invalid_mcc mcc) (raise ValidationError INVALID_MCC) >>
  let* acc := linked_account (account card) ACCOUNT_NOT_LINKED in
  when (closed_or_blocked (status card)) (raise AccessError CARD_CLOSED) >>
  when (bool_decide (mcc ∈ FORBIDDEN_MCC)) (raise BusinessRuleError (MCC_FORBIDDEN mcc)) >>
  when (PAY_LIMIT <? amount)%float
    (modify_card self (set_status BLOCKED) >>
     raise BusinessRuleError PURCHASE_LIMIT_EXCEEDED) >>
  let* a := deref_account acc in
  when (Account.balance a <? amount)%float
    (raise InsufficientFundsError INSUFFICIENT_FUNDS_FOR_PAYMENT) >>
  let* timestamp := next_timestamp_after (issue_date card) in
  modify_account acc (sub_balance amount) >>
  let trans :=
    mk_Transaction (Some (card_id card)) None amount PAY (Some mcc)
      (PAY_DESCRIPTION amount mcc (card_id card)) timestamp 0%float in
  bank_log_append (bank card) trans >>
  transactions_append self trans.

(** [CashbackDebitCard.pay] *)
Definition cashback_pay (cashback_rate : float) (self : nat) (amount : float) (mcc : pystr)
  : M unit :=
  let* card := deref_card self in
  when (amount <=? 0)%float (raise ValidationError PAY_AMOUNT_NEGATIVE) >>
  when (invalid_mcc mcc) (raise ValidationError INVALID_MCC) >>
  when (cashback_rate <? 0)%float (raise ValidationError CASHBACK_NEGATIVE) >>
  let* acc := linked_account (account card) ACCOUNT_NOT_LINKED in
  when (closed_or_blocked (status card)) (raise AccessError CARD_CLOSED) >>
  when (MAX_CASHBACK_RATE <=? cashback_rate)%float
    (modify_card self (set_status BLOCKED) >>
     raise BusinessRuleError CASHBACK_LIMIT) >>
  when (bool_decide (mcc ∈ FORBIDDEN_MCC)) (raise BusinessRuleError (MCC_FORBIDDEN mcc)) >>
  when (PAY_LIMIT <? amount)%float
    (modify_card self (set_status BLOCKED) >>
     raise BusinessRuleError PURCHASE_LIMIT_EXCEEDED) >>
  let* a := deref_account acc in
  when (Account.balance a <? amount)%float
    (raise InsufficientFundsError INSUFFICIENT_FUNDS_FOR_PAYMENT) >>
  let cashback_amount := round2 (amount * cashback_rate)%float in
  let* timestamp := next_timestamp_after (issue_date card) in
  modify_account acc (sub_balance amount) >>
  modify_account acc (add_cashback_balance cashback_amount) >>
  let trans :=
    mk_Transaction (Some (card_id card)) None amount PAY (Some mcc)
      (CB_DEBIT_PAY_DESCRIPTION amount mcc (card_id card) cashback_amount) timestamp
      cashback_amount in
  bank_log_append (bank card) trans >>
  transactions_append self trans.

(** [SavingCard.pay] *)
Definition saving_pay (self : nat) (amount : float) (mcc : pystr) : M unit :=
  raise BusinessRuleError PAYMENT_NOT_ALLOWED_FOR_SAVING.

(** [card.pay(amount, mcc)]: the method of the object's class. *)
Definition pay (self : nat) (amount : float) (mcc : pystr) : M unit :=
  let* card := deref_card self in
  match cls card with
  | ClsCard | ClsSimpleDebitCard => base_pay self amount mcc
  | ClsCashbackDebitCard cashback_rate => cashback_pay cashback_rate self amount mcc
  | ClsSavingCard _ => saving_pay self amount mcc
  end.

(** [SavingCard.accrue_interest]; the other classes have no such
    attribute. *)
Definition accrue_interest (self : nat) : M unit :=
  let* card := deref_card self in
  match cls card with
  | ClsSavingCard interest_rate =>
      when (interest_rate <? 0)%float (raise ValidationError INTEREST_NEGATIVE) >>
      let* acc := linked_account (account card) ACCOUNT_NOT_LINKED in
      when (closed_or_blocked (status card)) (raise AccessError CARD_CLOSED) >>
      when (MAX_SAVING_INTEREST_RATE <=? interest_rate)%float
        (modify_card self (set_status BLOCKED) >>
         raise BusinessRuleError SAVING_RATE_TOO_HIGH) >>
      let* a := deref_account acc in
      let interest := round2 (Account.balance a * interest_rate)%float in
      modify_account acc (add_balance interest) >>
      let* timestamp := next_timestamp_after (issue_date card) in
      let trans :=
        mk_Transaction None (Some (card_id card)) interest INTEREST None
          (SAVING_INTEREST_DESCRIPTION interest (card_id card)) timestamp 0%float in
      bank_log_append (bank card) trans >>
      transactions_append self trans
  | _ => throw AttributeError
  end.

(** [Card.get_transaction_history]; each line is the transaction with
    the sign [tr__repr__] puts before the amount ([true] for "+"). *)
Definition get_transaction_history (self : nat) : M (list (bool * Transaction)) :=
  let* card := deref_card self in
  let* acc := linked_account (account card) ACCOUNT_NOT_LINKED in
  when (negb (bool_decide (is_Some (bank card)))) (raise AccessError BANK_NOT_LINKED) >>
  when (closed_or_blocked (status card)) (raise AccessError CARD_CLOSED) >>
  let sorted := sort_by_timestamp (transactions card) in
  modify_card self (set_transactions sorted) >>
  ret ((λ trans, (bool_decide (Some (card_id card) = to_card trans), trans)) <$> sorted).

(** [Card.close] *)
Definition close (self : nat) : M unit :=
  let* card := deref_card self in
  modify_card self (set_status CLOSED).
End WithUnicode.

End Card.

(** ** The bank *)

(** The classes [apply_for_card] is given as [card_class]. *)
Inductive card_type : Set := Card_t | SimpleDebitCard_t | CashbackDebitCard_t | SavingCard_t.

(** The keyword arguments [apply_for_card] hands on to the constructor.
    [kw_issue_date] is a [date] object, given as its date. *)
Record Kwargs := mk_Kwargs {
  kw_cashback_rate : option float;
  kw_interest_rate : option float;
  kw_issue_date : option Z;
  kw_status : option CardStatus
}.
Definition no_kwargs : Kwargs := mk_Kwargs None None None None.

Module Bank.

(** [Bank(name, bic)] in a process whose generators and error log are
    at the given points. *)
Definition new (name bic : pystr) (issue_gen ts_gen : N) (log : list Message) : World :=
  mk_World issue_gen ts_gen log (mk_Bank name bic 1 1 1 1 [] [] [] []) [] [].

(** [next(self._user_seq)] and its siblings. *)
Definition next_user_seq : M N :=
  let* n := gets (λ w, _user_seq (the_bank w)) in
  modify_bank (set_user_seq (N.succ n)) >> ret n.
Definition next_account_seq : M N :=
  let* n := gets (λ w, _account_seq (the_bank w)) in
  modify_bank (set_account_seq (N.succ n)) >> ret n.
Definition next_card_seq : M N :=
  let* n := gets (λ w, _card_seq (the_bank w)) in
  modify_bank (set_card_seq (N.succ n)) >> ret n.
Definition next_pan_seq : M N :=
  let* n := gets (λ w, _pan_seq (the_bank w)) in
  modify_bank (set_pan_seq (N.succ n)) >> ret n.
(** [next(ISSUE_DATE_GENERATOR)] *)
Definition next_issue_date : M Z := λ w,
  let '(gen', r) := next issue_date_generator (ISSUE_DATE_GENERATOR w) in
  (set_ISSUE_DATE_GENERATOR gen' w, r).

Definition lift {A} (r : outcome A) : M A := λ w, (w, r).

(** [[А-ЯЁа-яё]] *)
Definition is_cyrillic_letter (c : N) : bool :=
  ((1040 <=? c) && (c <=? 1071) || (c =? 1025) || (1072 <=? c) && (c <=? 1103)
   || (c =? 1105))%N.

Definition letters (s : pystr) : bool :=
  match s with
  | [] => false
  | _ => forallb is_cyrillic_letter s
  end.

(** [re.fullmatch(r"^[А-ЯЁа-яё]+$", s)]: the whole string is letters. *)
Definition fullmatch_name (s : pystr) : bool := letters s.

(** [re.match(r"^[а-яёА-ЯЁ]+$", s)]: [$] also matches just before a
    newline that ends the string. *)
Definition match_name (s : pystr) : bool :=
  letters s ||
  match reverse s with
  | 10%N :: body => letters (reverse body)
  | _ => false
  end.

(** A new object is put at the end of its heap. *)
Definition push_account (a : Account.t) (w : World) : World :=
  set_account_heap (account_heap w ++ [a]) w.
Definition push_card (c : Card) (w : World) : World :=
  set_card_heap (card_heap w ++ [c]) w.
Definition alloc_account (a : Account.t) : M nat :=
  let* ref := gets (λ w, length (account_heap w)) in
  modify (push_account a) >> ret ref.
Definition alloc_card (c : Card) : M nat :=
  let* ref := gets (λ w, length (card_heap w)) in
  modify (push_card c) >> ret ref.

(** [d[k].append(x)]; a missing key is a [KeyError]. *)
Definition accounts_append (k : N) (x : nat) : M unit :=
  let* b := gets the_bank in
  match dict_lookup k (accounts b) with
  | Some _ => modify_bank (λ b, set_accounts (dict_alter (λ l, l ++ [x]) k (accounts b)) b)
  | None => throw KeyError
  end.
Definition cards_append (k : N) (x : nat) : M unit :=
  let* b := gets the_bank in
  match dict_lookup k (cards b) with
  | Some _ => modify_bank (λ b, set_cards (dict_alter (λ l, l ++ [x]) k (cards b)) b)
  | None => throw KeyError
  end.

(** The user object held under key [k] in [customers] is changed. *)
Definition modify_user (k : N) (f : User.t → User.t) : M unit :=
  modify_bank (λ b, set_customers (dict_alter f k (customers b)) b).

Section WithUnicode.
Context {U : UnicodeDB}.

(** [Bank._next_account_number] *)
Definition _next_account_number : M (option pystr) :=
  let* b := gets the_bank in
  let* n := next_account_seq in
  lift (Ident._next_account_number (bic b) n).

(** [Bank._generate_pan] *)
Definition _generate_pan (system : pystr) : M pystr :=
  let* n := next_pan_seq in
  lift (Ident._generate_pan system n).

(** The condition under [any] in [apply_for_card]. *)
Definition conflicts (phone first_name last_name : pystr) (user : User.t) : bool :=
  bool_decide (phone = User.phone user)
  && (negb (bool_decide (User.first_name user = first_name))
      || negb (bool_decide (User.last_name user = last_name))).

(** The condition of the generator handed to [next]. *)
Definition same_user (phone last_name first_name : pystr) (user : User.t) : bool :=
  bool_decide (User.phone user = phone)
  && bool_decide (User.last_name user = last_name)
  && bool_decide (User.first_name user = first_name).

(** [next((user for user in self.customers.values() if ...), None)],
    with the key the user is held under. *)
Fixpoint find_user (phone last_name first_name : pystr) (d : dict User.t)
  : option (N * User.t) :=
  match d with
  | [] => None
  | (k, user) :: d' =>
      if same_user phone last_name first_name user then Some (k, user)
      else find_user phone last_name first_name d'
  end.

(** [card_class(account_, card_id, payment_system=..., pan=..., bank=self, **kwargs)]:
    the keywords are bound to the parameters of the class's [__init__],
    then [Card.__init__] runs: it draws the issue date if none was
    given and computes the expiry date, and only a constructor that
    returns leaves a card behind. *)
Definition new_card (card_class : card_type) (account_ : nat) (card_id : N)
    (payment_system pan : pystr) (kwargs : Kwargs) : M nat :=
  let* cls :=
    match card_class, kw_cashback_rate kwargs, kw_interest_rate kwargs with
    | Card_t, None, None => ret ClsCard
    | SimpleDebitCard_t, None, None => ret ClsSimpleDebitCard
    | CashbackDebitCard_t, rate, None =>
        ret (ClsCashbackDebitCard (default DEBIT_DEFAULT_CASHBACK_RATE rate))
    | SavingCard_t, None, rate =>
        ret (ClsSavingCard (default SAVING_CARD_DEFAULT_INTEREST rate))
    | _, _, _ => throw TypeError
    end in
  let* issue_date :=
    match kw_issue_date kwargs with
    | Some d => ret d
    | None => next_issue_date
    end in
  let* expiry_date := lift (expiry_date issue_date) in
  alloc_card
    (mk_Card cls (Some account_) card_id payment_system pan issue_date
       (default CARD_STATUS (kw_status kwargs)) (Some tt) []).

(** [Bank.apply_for_card] *)
Definition apply_for_card (last_name first_name pin phone payment_system : pystr)
    (card_class : card_type) (kwargs : Kwargs) : M nat :=
  when (negb (isdigit pin)) (raise ValidationError PIN_FORMAT_INVALID) >>
  when (negb (length pin =? 4)%nat) (raise ValidationError PIN_INVALID) >>
  when (negb (fullmatch_name last_name) || negb (match_name first_name))
    (raise ValidationError NAME_INVALID) >>
  let allowed_systems := fst <$> BIN_BY_SYSTEM in
  when (negb (bool_decide (upper payment_system ∈ allowed_systems)))
    (raise ValidationError (PAYMENT_SYSTEM_NOT_SUPPORTED payment_system)) >>
  let* b := gets the_bank in
  when (existsb (conflicts phone first_name last_name) (dict_values (customers b)))
    (raise BusinessRuleError USER_CONFLICT) >>
  let user_ := find_user phone last_name first_name (customers b) in
  when (match user_ with
        | Some (_, user) => (5 <=? length (User.cards user))%nat
        | None => false
        end)
    (raise BusinessRuleError TOO_MANY_DEBIT_CARDS) >>
  let* user_ :=
    match user_ with
    | Some (k, user) => ret (k, User.user_id user)
    | None =>
        let* uid := next_user_seq in
        let user := User.mk last_name first_name pin phone uid [] [] in
        modify_bank (λ b, set_customers (dict_set uid user (customers b)) b) >>
        modify_bank (λ b, set_cards (dict_set uid [] (cards b)) b) >>
        modify_bank (λ b, set_accounts (dict_set uid [] (accounts b)) b) >>
        ret (uid, uid)
    end in
  let '(user_key, user_id) := user_ in
  let* acc_id := _next_account_number in
  let* account_ :=
    alloc_account
      (Account.mk user_key acc_id DEFAULT_ACCOUNT_BALANCE DEFAULT_CASHBACK_BALANCE) in
  let* pan_ := _generate_pan payment_system in
  let* card_id := next_card_seq in
  let* card_ := new_card card_class account_ card_id payment_system pan_ kwargs in
  modify_user user_key (User.append_card card_) >>
  modify_user user_key (User.append_account account_) >>
  accounts_append user_id account_ >>
  cards_append user_id card_ >>
  ret card_.

(** [Bank.get_global_history] *)
Definition get_global_history : M (list Transaction) :=
  let* b := gets the_bank in
  let sorted := sort_by_timestamp (transaction_log b) in
  modify_bank (set_transaction_log sorted) >>
  ret sorted.

Definition issue_simple_debit_card last_name first_name pin phone payment_system kwargs :=
  try_except_dec
    (apply_for_card last_name first_name pin phone payment_system SimpleDebitCard_t kwargs).
Definition issue_cashback_debit_card last_name first_name pin phone payment_system kwargs :=
  try_except_dec
    (apply_for_card last_name first_name pin phone payment_system CashbackDebitCard_t kwargs).
Definition issue_saving_card last_name first_name pin phone payment_system kwargs :=
  try_except_dec
    (apply_for_card last_name first_name pin phone payment_system SavingCard_t kwargs).

(** [user.change_pin(old_pin, new_pin)] on the user held under [k]. *)
Definition change_pin (k : N) (old_pin new_pin : pystr) : M unit :=
  let* b := gets the_bank in
  match dict_lookup k (customers b) with
  | None => throw AttributeError
  | Some user =>
      let '(user', r) := User.change_pin user old_pin new_pin in
      modify_user k (λ _, user') >> lift r
  end.
End WithUnicode.

End Bank.

(** ** The public calls and the states they reach *)

Inductive Call : Type :=
| call_apply_for_card (last_name first_name pin phone payment_system : pystr)
    (card_class : card_type) (kwargs : Kwargs)
| call_get_global_history
| call_next_account_number
| call_generate_pan (system : pystr)
| call_get_balance (self : nat)
| call_get_card_info (self : nat) (fields : option (list pystr))
| call_deposit (self : nat) (amount : float)
| call_transfer (self : nat) (to_card : option nat) (amount : float)
| call_pay (self : nat) (amount : float) (mcc : pystr)
| call_accrue_interest (self : nat)
| call_get_transaction_history (self : nat)
| call_close (self : nat)
| call_change_pin (user : N) (old_pin new_pin : pystr).

Section Calls.
Context {U : UnicodeDB}.

(** The state after a call, as the caller finds it: the decorated
    methods are behind [try_except_dec], the others are not. *)
Definition perform (c : Call) (w : World) : World :=
  match c with
  | call_apply_for_card last_name first_name pin phone payment_system card_class kwargs =>
      (try_except_dec
         (Bank.apply_for_card last_name first_name pin phone payment_system card_class kwargs)
         w).1
  | call_get_global_history => (Bank.get_global_history w).1
  | call_next_account_number => (Bank._next_account_number w).1
  | call_generate_pan system => (Bank._generate_pan system w).1
  | call_get_balance self => (try_except_dec (Card.get_balance self) w).1
  | call_get_card_info self fields => (try_except_dec (Card.get_card_info self fields) w).1
  | call_deposit self amount => (try_except_dec (Card.deposit self amount) w).1
  | call_transfer self to_card amount =>
      (try_except_dec (Card.transfer self to_card amount) w).1
  | call_pay self amount mcc => (try_except_dec (Card.pay self amount mcc) w).1
  | call_accrue_interest self => (try_except_dec (Card.accrue_interest self) w).1
  | call_get_transaction_history self =>
      (try_except_dec (Card.get_transaction_history self) w).1
  | call_close self => (Card.close self w).1
  | call_change_pin user old_pin new_pin =>
      (try_except_dec (Bank.change_pin user old_pin new_pin) w).1
  end.

(** The states of a process that created one bank and then only used
    the calls above. *)
Inductive reachable : World → Prop :=
| reachable_new name bic issue_gen ts_gen log :
    reachable (Bank.new name bic issue_gen ts_gen log)
| reachable_perform w c :
    reachable w → reachable (perform c w).
End Calls.

(** * The vocabulary of the properties *)

Local Close Scope py_scope.
Import Ident.

(** ** Floats that are not below zero *)

(** A float that is not below zero: NaN, a zero of either sign, plus
    infinity, or a positive finite number. *)
Definition sf_not_negative (x : spec_float) : bool :=
  match x with
  | S754_finite true _ _ | S754_infinity true => false
  | _ => true
  end.

(** [x < 0] is false, as Python evaluates it. *)
Definition not_negative (x : float) : Prop := (x <? 0)%float = false.

(** ** Check digits *)

(** The control sum of a list of digits under a list of weights. *)
Definition wsum (ws ds : list Z) : Z :=
  sumZ ((λ x, x mod 10) <$> ((λ ab : Z * Z, ab.1 * ab.2) <$> zip ds ws)).

(** The weights 7, 1, 3 repeated over [n] digits. *)
Definition spec_weights (n : nat) : list Z := take n (concat (replicate n [7; 1; 3])).

(** The first digit of the list at which [f] is a multiple of ten. *)
Fixpoint first_zero (f : N → Z) (ds : list N) : option N :=
  match ds with
  | [] => None
  | d :: ds' => if f d mod 10 =? 0 then Some d else first_zero f ds'
  end.

(** [range(10)] *)
Definition range10 : list N := N.of_nat <$> seq 0 10.

(** The digits of [ACCOUNT_TYPE_CODE + ACCOUNT_CURRENCY] and of
    [ACCOUNT_BRANCH]. *)
Definition account_prefix : list Z := [4; 0; 8; 1; 7; 8; 1; 0].

Definition account_branch : list Z := [0; 0; 0; 0].

(** The check digit as the specification words it: counting from the
    rightmost digit, every second digit is doubled, a doubled value
    over 9 loses 9, everything is summed, and the check digit is
    [(10 - sum mod 10) mod 10]. *)
Definition reduce_doubled (x : Z) : Z :=
  let doubled := x * 2 in if 9 <? doubled then doubled - 9 else doubled.

Fixpoint double_every_second (from_rightmost : list Z) : list Z :=
  match from_rightmost with
  | x :: y :: rest => x :: reduce_doubled y :: double_every_second rest
  | _ => from_rightmost
  end.

Definition luhn_check_digit (digits : list Z) : Z :=
  (10 - sumZ (double_every_second (reverse digits)) mod 10) mod 10.

Section NumberChecks.
Context {U : UnicodeDB}.

(** Whether an account number passes the test the generator applies:
    its [control_sum], which is taken under the 24 weights of
    [weights] and so over the first 24 digits, is a multiple of ten. *)
Definition control_sum_ok (bic account_number : pystr) : bool :=
  match control_sum (last_chars 3 bic ++ account_number) with
  | Some s => s mod 10 =? 0
  | None => false
  end.

(** The check in the words of the specification: the weights 7, 1, 3
    repeat over all the digits of the last three BIC digits followed
    by the account number, each product is taken modulo 10, and the
    sum is a multiple of ten. *)
Definition spec_checksum_ok (bic account_number : pystr) : bool :=
  match ints (last_chars 3 bic ++ account_number) with
  | Some digits => wsum (spec_weights (length digits)) digits mod 10 =? 0
  | None => false
  end.

(** The BIN [_generate_pan] picks. *)
Definition bin_code_of (system : pystr) : pystr :=
  dict_get BIN_BY_SYSTEM (upper system)
    (dict_get BIN_BY_SYSTEM DEFAULT_PAYMENT_SYSTEM []).

End NumberChecks.

(** ** Running a method body: weakest preconditions *)

(** [Q] holds of the state and the outcome of [m] run from [w]. *)
Definition wp {A} (m : M A) (Q : World → outcome A → Prop) (w : World) : Prop :=
  Q (m w).1 (m w).2.

(** ** Draws from the timestamp generator *)

(** The first index from [gen] on whose date is later than [issue_date]. *)
Definition first_later (gen : N) (issue_date : Z) : N := N.max gen (Z.to_N (issue_date + 1)).

(** What the timestamp generator yields at index [g]. *)
Definition yielded (g : N) : datetime := timestamp_at (Z.of_N g) (Z.of_N g).

(** The generator a failed draw leaves behind: it has ended. *)
Definition after_failure (gen : N) : N := if ended gen then gen else N.succ gen.

(** The timestamp an operation on a card issued on [issue_date] gets in
    [w], when the generator still has one. *)
Definition stamp (w : World) (issue_date : Z) : datetime :=
  yielded (first_later (TIMESTAMP_GENERATOR w) issue_date).

(** The timestamp generator of [w] has not run out of days after
    [issue_date]: the first of them is not past 9999-12-31. *)
Definition timestamps_left (w : World) (issue_date : Z) : Prop :=
  Z.of_N (first_later (TIMESTAMP_GENERATOR w) issue_date) ≤ LAST_DAY.

(** What a draw leaves behind, and what it raises, when the generator
    has no such day left: the generator has ended, by the
    [OverflowError] of the draw past 9999-12-31 or already before the
    call. *)
Definition failed_draw (w : World) : World :=
  set_TIMESTAMP_GENERATOR
    (after_failure (N.max (TIMESTAMP_GENERATOR w) (Z.to_N (LAST_DAY + 1)))) w.

Definition draw_error (w : World) : PyException :=
  if ended (TIMESTAMP_GENERATOR w) then StopIteration else OverflowError.

(** ** What every call preserves *)

(** The moves a card's status may make. *)
Definition transition_ok (s s' : CardStatus) : Prop :=
  s' = s ∨ (s = ACTIVE ∧ s' = BLOCKED) ∨ (s = ACTIVE ∧ s' = CLOSED)
  ∨ (s = BLOCKED ∧ s' = CLOSED).

(** The same card object, up to its status and its transactions. *)
Definition same_card (card card' : Card) : Prop :=
  cls card' = cls card ∧ account card' = account card ∧ card_id card' = card_id card
  ∧ payment_system card' = payment_system card ∧ pan card' = pan card
  ∧ issue_date card' = issue_date card ∧ bank card' = bank card.

(** One card before and after some calls. *)
Definition card_step (card card' : Card) : Prop :=
  same_card card card' ∧ transition_ok (status card) (status card').

(** Every card of [w] is still there in [w'], the same object, its
    status moved along the allowed transitions. *)
Definition evolves (w w' : World) : Prop :=
  ∀ c card, card_heap w !! c = Some card →
    ∃ card', card_heap w' !! c = Some card' ∧ card_step card card'.

(** The invariant of the states the bank reaches. *)
Record wf (w : World) : Prop := {
  wf_card_id_nodup : NoDup (card_id <$> card_heap w);
  wf_card_id_bound :
    Forall (λ card, (card_id card < _card_seq (the_bank w))%N) (card_heap w);
  wf_account_nodup : NoDup (account <$> card_heap w);
  wf_account_linked :
    Forall (λ card, ∃ a, account card = Some a ∧ (a < length (account_heap w))%nat)
      (card_heap w);
  wf_bank_linked : Forall (λ card, bank card = Some ()) (card_heap w);
  wf_balance : Forall (λ acc, not_negative (Account.balance acc)) (account_heap w);
  wf_customers_nodup : NoDup (customers (the_bank w)).*1;
  wf_customers_bound :
    Forall (λ k, (k < _user_seq (the_bank w))%N) (customers (the_bank w)).*1
}.

(** [w'] comes after [w]: cards evolve and the invariant is kept. *)
Definition follows (w w' : World) : Prop := evolves w w' ∧ (wf w → wf w').

(** What an update of the bank record must keep for [wf]. *)
Definition bank_step (b b' : Bank) : Prop :=
  (_card_seq b ≤ _card_seq b')%N
  ∧ NoDup (customers b').*1
  ∧ Forall (λ k, (k < _user_seq b')%N) (customers b').*1.

(** What a new card needs of the state it is put in. *)
Definition fresh_for (W : World) (cid : N) (account_ : nat) : Prop :=
  (cid ∉ (card_id <$> card_heap W))
  ∧ (cid < _card_seq (the_bank W))%N
  ∧ (Some account_ ∉ (account <$> card_heap W))
  ∧ (account_ < length (account_heap W))%nat.

Section Runs.
Context {U : UnicodeDB}.

(** A sequence of calls, in order. *)
Definition perform_all (calls : list Call) (w : World) : World :=
  foldl (λ w c, perform c w) w calls.

End Runs.

(** ** Transfers and debits *)

(** [card.transactions.append(trans)] on the card object. *)
Definition append_transaction (trans : Transaction) (card : Card) : Card :=
  set_transactions (transactions card ++ [trans]) card.


(** The [Transaction] that [transfer] builds. *)
Definition transfer_transaction (card dst_card : Card) (amt : float) (ts : datetime)
  : Transaction :=
  mk_Transaction (Some (card_id card)) (Some (card_id dst_card)) amt TRANSFER None
    (TRANSFER_DESCRIPTION amt (card_id card) (card_id dst_card)) ts 0%float.

(** ** Issuing cards *)

(** The stored PINs, by key. *)
Definition customer_pins (b : Bank) : list (N * pystr) :=
  (λ kv, (kv.1, User.pin kv.2)) <$> customers b.

(** [card.account.owner], as the key the user is held under. *)
Definition cardholder (w : World) (c : nat) : option N :=
  card ← card_heap w !! c;
  a ← account card;
  acc ← account_heap w !! a;
  Some (Account.owner acc).

(** The next card can be made: the issue-date generator of [w] has a
    date left, and the expiry date of that date exists. *)
Definition can_issue (w : World) : Prop :=
  Z.of_N (ISSUE_DATE_GENERATOR w) ≤ LAST_DAY
  ∧ ∃ expiry, expiry_date (Z.of_N (ISSUE_DATE_GENERATOR w)) = Return expiry.

(** What a call that returned card [c] has done: the user the card is
    bound to, the new card and account objects, and the entries of the
    user and of the bank's registries. *)
Definition issued (phone last_name first_name : pystr) (w w' : World) (c : nat) : Prop :=
  ∃ k user' card acc,
    Bank.find_user phone last_name first_name (customers (the_bank w')) = Some (k, user')
    ∧ c = length (card_heap w)
    ∧ card_heap w' = card_heap w ++ [card]
    ∧ account card = Some (length (account_heap w))
    ∧ account_heap w' = account_heap w ++ [acc]
    ∧ Account.owner acc = k
    ∧ match Bank.find_user phone last_name first_name (customers (the_bank w)) with
      | Some (k0, user) =>
          k = k0
          ∧ User.cards user' = User.cards user ++ [c]
          ∧ User.user_id user' = User.user_id user
          ∧ (customers (the_bank w')).*1 = (customers (the_bank w)).*1
          ∧ _user_seq (the_bank w') = _user_seq (the_bank w)
          ∧ ∃ registered,
              dict_lookup (User.user_id user) (cards (the_bank w)) = Some registered
              ∧ dict_lookup (User.user_id user) (cards (the_bank w'))
                = Some (registered ++ [c])
      | None =>
          User.cards user' = [c]
          ∧ dict_lookup (User.user_id user') (cards (the_bank w')) = Some [c]
      end
    ∧ is_Some (dict_lookup (User.user_id user') (accounts (the_bank w'))).

(** ** Timestamps and the order of a history *)

(** [a] is not later than [b]: the order [list.sort] puts them in. *)
Definition not_later (a b : Transaction) : Prop :=
  datetime_ltb (timestamp b) (timestamp a) = false.

(** The list is in the order of its timestamps. *)
Definition chronological (l : list Transaction) : Prop := StronglySorted not_later l.

(** A list of transactions that is in the order of its timestamps and
    holds only entries of the ledger [L]. *)
Definition history_of (L l : list Transaction) : Prop := chronological l ∧ l ⊆ L.

(** The ledger is in the order of its timestamps, every entry is dated
    before the day the timestamp generator is at, and the list of every
    card is such a history of the ledger. *)
Definition ledger_ok (w : World) : Prop :=
  chronological (transaction_log (the_bank w))
  ∧ Forall (λ t, dt_date (timestamp t) < Z.of_N (TIMESTAMP_GENERATOR w))
      (transaction_log (the_bank w))
  ∧ Forall (λ card, history_of (transaction_log (the_bank w)) (transactions card))
      (card_heap w).

(** The transaction is dated after the card was issued and names the
    card as its sender or as its recipient. *)
Definition entry_of (card : Card) (t : Transaction) : Prop :=
  issue_date card < dt_date (timestamp t)
  ∧ (from_card t = Some (card_id card) ∨ to_card t = Some (card_id card)).

Definition histories_ok (w : World) : Prop :=
  Forall (λ card, Forall (entry_of card) (transactions card)) (card_heap w).

(** What the updates of a card leave alone. *)
Definition same_identity (card card' : Card) : Prop :=
  issue_date card' = issue_date card ∧ card_id card' = card_id card.

(** ** Card operations that go through, and calls that are turned down *)

(** The [Transaction] objects the operations build. *)
Definition deposit_transaction (card : Card) (amt : float) (ts : datetime) : Transaction :=
  mk_Transaction None (Some (card_id card)) amt DEPOSIT None
    (DEPOSIT_DESCRIPTION amt (card_id card)) ts 0%float.

Definition pay_transaction (card : Card) (amt : float) (code : pystr) (ts : datetime)
  : Transaction :=
  mk_Transaction (Some (card_id card)) None amt PAY (Some code)
    (PAY_DESCRIPTION amt code (card_id card)) ts 0%float.

Definition cashback_pay_transaction (card : Card) (amt : float) (code : pystr)
    (cashback : float) (ts : datetime) : Transaction :=
  mk_Transaction (Some (card_id card)) None amt PAY (Some code)
    (CB_DEBIT_PAY_DESCRIPTION amt code (card_id card) cashback) ts cashback.

Definition interest_transaction (card : Card) (interest : float) (ts : datetime)
  : Transaction :=
  mk_Transaction None (Some (card_id card)) interest INTEREST None
    (SAVING_INTEREST_DESCRIPTION interest (card_id card)) ts 0%float.

(** The state after an operation on card [self] that put [trans] on the
    ledger and on the card, changed the account [a] by [f], and drew its
    timestamp at generator index [g]. *)
Definition posted (self a : nat) (f : Account.t → Account.t) (trans : Transaction) (g : N)
    (w : World) : World :=
  update_card self (append_transaction trans)
    (update_bank (λ b, set_transaction_log (transaction_log b ++ [trans]) b)
       (update_account a f (set_TIMESTAMP_GENERATOR (N.succ g) w))).

(** What an accepted operation on card [self] leaves: the account [a]
    holding [acc'], [trans] at the end of the card's list and of the
    ledger, everything else in the accounts, cards and bank as before. *)
Definition posted_as (w w' : World) (self a : nat) (card : Card) (acc' : Account.t)
    (trans : Transaction) : Prop :=
  account_heap w' = <[a := acc']> (account_heap w)
  ∧ card_heap w' = <[self := append_transaction trans card]> (card_heap w)
  ∧ the_bank w' = set_transaction_log (transaction_log (the_bank w) ++ [trans]) (the_bank w)
  ∧ error_log w' = error_log w.

(** The classes whose [pay] moves money. *)
Definition paying_class (c : CardClass) : bool :=
  match c with
  | ClsSavingCard _ => false
  | _ => true
  end.

(** The cashback rate passes both of [CashbackDebitCard.pay]'s checks. *)
Definition cashback_rate_passes (c : CardClass) : bool :=
  match c with
  | ClsCashbackDebitCard rate => negb (rate <? 0)%float && negb (MAX_CASHBACK_RATE <=? rate)%float
  | _ => true
  end.

(** The call raises the error of a card that is not Active and leaves
    the state as it was. *)
Definition refused_as_closed {A} (m : M A) (w : World) : Prop :=
  m w = (w, Raise AccessError CARD_CLOSED).

(** The accounts, the cards and the bank record are the same in both
    states. *)
Definition same_books (w w' : World) : Prop :=
  account_heap w' = account_heap w ∧ card_heap w' = card_heap w ∧ the_bank w' = the_bank w.

(** The lines of [get_transaction_history]: each transaction with the
    sign its amount is printed with for the card numbered [cid]. *)
Definition signed (cid : N) (l : list Transaction) : list (bool * Transaction) :=
  (λ trans, (bool_decide (Some cid = to_card trans), trans)) <$> l.

(** ** Customers and identifiers *)

(** A PIN of four digits. *)
Definition pin_ok {U : UnicodeDB} (pin : pystr) : Prop :=
  length pin = 4%nat ∧ isdigit pin = true.

(** The message of a [change_pin] that is turned down, in the order of
    the checks. *)
Definition change_pin_error {U : UnicodeDB} (old_pin new_pin : pystr) : Message :=
  if negb (length new_pin =? 4)%nat || negb (length old_pin =? 4)%nat then PIN_INVALID
  else if negb (isdigit new_pin) || negb (isdigit old_pin) then PIN_FORMAT_INVALID
  else PIN_MISMATCH.

(** The class of the object [card_class(...)] builds without keyword
    arguments. *)
Definition default_class (card_class : card_type) : CardClass :=
  match card_class with
  | Card_t => ClsCard
  | SimpleDebitCard_t => ClsSimpleDebitCard
  | CashbackDebitCard_t => ClsCashbackDebitCard DEBIT_DEFAULT_CASHBACK_RATE
  | SavingCard_t => ClsSavingCard SAVING_CARD_DEFAULT_INTEREST
  end.

(** The keyword arguments name only parameters the class has. *)
Definition kwargs_fit (card_class : card_type) (kwargs : Kwargs) : bool :=
  match card_class, kw_cashback_rate kwargs, kw_interest_rate kwargs with
  | (Card_t | SimpleDebitCard_t), None, None => true
  | CashbackDebitCard_t, _, None => true
  | SavingCard_t, None, _ => true
  | _, _, _ => false
  end.

(** The PANs [pans] and the account numbers [nums] were generated from
    serials below the counters [next_pan] and [next_account], for the
    BIC [bic_], and no two of them are the same. *)
Definition ids_ok_of {U : UnicodeDB} (bic_ : pystr) (pans : list pystr)
    (nums : list (option pystr)) (next_pan next_account : N) : Prop :=
  NoDup pans
  ∧ Forall (λ p, ∃ system n, (n < next_pan)%N ∧ Ident._generate_pan system n = Return p) pans
  ∧ NoDup nums
  ∧ Forall (λ a, ∃ n num, (n < next_account)%N ∧ a = Some num
                          ∧ Ident._next_account_number bic_ n = Return (Some num)) nums.

Definition ids_ok {U : UnicodeDB} (w : World) : Prop :=
  ids_ok_of (bic (the_bank w)) (pan <$> card_heap w) (Account.acc_id <$> account_heap w)
    (_pan_seq (the_bank w)) (_account_seq (the_bank w)).




(** ** A small bank to run the calls on *)

Module Demo.
Definition petrov : pystr := [1055; 1077; 1090; 1088; 1086; 1074]%N.
Definition petr : pystr := [1055; 1077; 1090; 1088]%N.
Definition sidorova : pystr := [1057; 1080; 1076; 1086; 1088; 1086; 1074; 1072]%N.
Definition anna : pystr := [1040; 1085; 1085; 1072]%N.

Definition calls : list Call :=
  [ call_apply_for_card petrov petr (lit "1111") (lit "+79161111111") (lit "VISA")
      Card_t no_kwargs;
    call_apply_for_card sidorova anna (lit "2222") (lit "+79162222222") (lit "MASTERCARD")
      SavingCard_t no_kwargs;
    call_deposit 0 1000 ].

Definition bank0 : World := Bank.new (lit "Bank") (lit "044525974") 0 0 [].
Definition world : World := Eval vm_compute in perform_all (U := ascii_only) calls bank0.
End Demo.

Module Demo5.
Definition issue (pin system : string) : Call :=
  call_apply_for_card Demo.petrov Demo.petr (lit pin) (lit "+79161111111") (lit system)
    Card_t no_kwargs.
Definition world : World :=
  Eval vm_compute in
    perform_all (U := ascii_only)
      [issue "1111" "VISA"; issue "1111" "MIR"; issue "1111" "VISA"; issue "1111" "MIR";
       issue "1111" "VISA"] Demo.bank0.
End Demo5.

(** A bank with a large balance: a SavingCard at 25 per cent, a second
    card, a deposit of 1000000 and 110 accruals of interest. *)
Module Big.
Definition calls : list Call :=
  [ call_apply_for_card Demo.petrov Demo.petr (lit "1111") (lit "+79161111111") (lit "MIR")
      SavingCard_t (mk_Kwargs None (Some 0.25%float) None None);
    call_apply_for_card Demo.sidorova Demo.anna (lit "2222") (lit "+79162222222")
      (lit "VISA") Card_t no_kwargs;
    call_deposit 0 1000000 ]
  ++ replicate 110 (call_accrue_interest 0).
Definition world : World := perform_all (U := ascii_only) calls Demo.bank0.
End Big.

Module Shop.
(** The small bank with a cashback card for a third customer, holding
    1000, and 2000 on the saving card. *)
Definition ivanov : pystr := [1048; 1074; 1072; 1085; 1086; 1074]%N.
Definition ivan : pystr := [1048; 1074; 1072; 1085]%N.
Definition calls : list Call :=
  [ call_apply_for_card ivanov ivan (lit "1234") (lit "+79161234567") (lit "MIR")
      CashbackDebitCard_t no_kwargs;
    call_deposit 2 1000;
    call_deposit 1 2000 ].
Definition world : World := Eval vm_compute in perform_all (U := ascii_only) calls Demo.world.
End Shop.

Module Late.
(** The same calls in a process whose timestamp generator is three
    days from the end of the calendar: they use the three days up. *)
Definition world : World :=
  Eval vm_compute in
    perform_all (U := ascii_only) (Demo.calls ++ Shop.calls)
      (Bank.new (lit "Bank") (lit "044525974") 0 2913901 []).
End Late.

Module Branch.
(** The bank of [Shop] after a transfer from the cashback card to the
    saving card, with four more cards whose rates are out of range, and
    with the first card closed. *)
Definition rate (cashback interest : option float) : Kwargs :=
  mk_Kwargs cashback interest None None.
Definition calls : list Call :=
  [ call_transfer 2 (Some 1%nat) 100;
    call_apply_for_card Shop.ivanov Shop.ivan (lit "1234") (lit "+79161234567") (lit "MIR")
      CashbackDebitCard_t (rate (Some 0.5%float) None);
    call_apply_for_card Demo.sidorova Demo.anna (lit "2222") (lit "+79162222222")
      (lit "MASTERCARD") SavingCard_t (rate None (Some 0.5%float));
    call_apply_for_card Shop.ivanov Shop.ivan (lit "1234") (lit "+79161234567") (lit "MIR")
      CashbackDebitCard_t (rate (Some (-0.25)%float) None);
    call_apply_for_card Demo.sidorova Demo.anna (lit "2222") (lit "+79162222222")
      (lit "MASTERCARD") SavingCard_t (rate None (Some (-0.25)%float));
    call_close 0 ].
Definition world : World := Eval vm_compute in perform_all (U := ascii_only) calls Shop.world.
End Branch.

(** * Lemmas and theorems *)

(** ** IEEE-754 facts *)

Module FloatFacts.

Lemma ltb_zero (x : float) :
  (x <? 0)%float = negb (sf_not_negative (Prim2SF x)).
Proof.
  rewrite ltb_spec. change (Prim2SF 0) with (S754_zero false).
  by destruct (Prim2SF x) as [[]|[]| |[] ? ?].
Qed.

Lemma leb_zero_false (x : float) :
  (x <=? 0)%float = false → sf_not_negative (Prim2SF x) = true.
Proof.
  rewrite leb_spec. change (Prim2SF 0) with (S754_zero false).
  by destruct (Prim2SF x) as [[]|[]| |[] ? ?].
Qed.

Lemma SFcompare_antisym (x y : spec_float) :
  SFcompare y x = CompOpp <$> SFcompare x y.
Proof.
  destruct x as [[]|[]| |[] m1 e1], y as [[]|[]| |[] m2 e2]; try reflexivity;
    cbn; rewrite !Pos.compare_cont_spec, (Z.compare_antisym e1 e2),
           (Pos.compare_antisym m1 m2);
    by destruct (e1 ?= e2), (m1 ?= m2)%positive.
Qed.

Lemma ltb_leb_false (x y : float) : (x <? y)%float = true → (y <=? x)%float = false.
Proof.
  rewrite ltb_spec, leb_spec. unfold SFltb, SFleb.
  rewrite (SFcompare_antisym (Prim2SF x) (Prim2SF y)).
  by destruct (SFcompare (Prim2SF x) (Prim2SF y)) as [[]|].
Qed.

Lemma leb_ltb_false (x y : float) : (x <=? y)%float = true → (y <? x)%float = false.
Proof.
  rewrite ltb_spec, leb_spec. unfold SFltb, SFleb.
  rewrite (SFcompare_antisym (Prim2SF x) (Prim2SF y)).
  by destruct (SFcompare (Prim2SF x) (Prim2SF y)) as [[]|].
Qed.

Lemma binary_round_aux_sign s m e l :
  sf_not_negative (binary_round_aux prec emax s m e l) = true ∨ s = true.
Proof.
  unfold binary_round_aux.
  destruct (shr_fexp prec emax m e l) as [mrs' e'].
  destruct (shr_fexp prec emax _ e' loc_Exact) as [mrs'' e''].
  destruct (shr_m mrs''); [destruct s; auto| |by left].
  destruct s; [by right|]. left. by case_match.
Qed.

Lemma binary_round_false m e :
  sf_not_negative (binary_round prec emax false m e) = true.
Proof.
  unfold binary_round. destruct (shl_align _ _ _) as [mz ez].
  by destruct (binary_round_aux_sign false (Zpos mz) ez loc_Exact).
Qed.

Lemma binary_normalize_sign m e :
  0 ≤ m → sf_not_negative (binary_normalize prec emax m e false) = true.
Proof.
  destruct m; intros; [done| |lia]. apply binary_round_false.
Qed.

Lemma SFadd_not_negative x y :
  sf_not_negative x = true → sf_not_negative y = true →
  sf_not_negative (SFadd prec emax x y) = true.
Proof.
  destruct x as [[]|[]| |[] m1 e1], y as [[]|[]| |[] m2 e2]; try done.
  intros _ _. cbn -[binary_normalize shl_align].
  apply binary_normalize_sign. lia.
Qed.

Lemma SFmul_not_negative x y :
  sf_not_negative x = true → sf_not_negative y = true →
  sf_not_negative (SFmul prec emax x y) = true.
Proof.
  destruct x as [[]|[]| |[] m1 e1], y as [[]|[]| |[] m2 e2]; try done.
  intros _ _. cbn -[binary_round_aux].
  by destruct (binary_round_aux_sign false (Z.pos (m1 * m2)) (e1 + e2) loc_Exact).
Qed.

Lemma digits2_pos_bounds (m : positive) :
  2 ^ (Zpos (digits2_pos m) - 1) ≤ Zpos m < 2 ^ Zpos (digits2_pos m).
Proof.
  induction m as [m IH|m IH|]; cbn [digits2_pos]; [| |by compute].
  - rewrite Pos2Z.inj_succ, Z.pow_succ_r by lia.
    replace (Z.succ (Zpos (digits2_pos m)) - 1) with (Z.succ (Zpos (digits2_pos m) - 1)) by lia.
    rewrite Z.pow_succ_r by lia. lia.
  - rewrite Pos2Z.inj_succ, Z.pow_succ_r by lia.
    replace (Z.succ (Zpos (digits2_pos m)) - 1) with (Z.succ (Zpos (digits2_pos m) - 1)) by lia.
    rewrite Z.pow_succ_r by lia. lia.
Qed.

Lemma iter_xO (m d : positive) : Zpos (Pos.iter xO m d) = Zpos m * 2 ^ Zpos d.
Proof.
  induction d as [|d IH] using Pos.peano_ind; [by cbn; lia|].
  rewrite Pos.iter_succ, Pos2Z.inj_succ, Z.pow_succ_r by lia.
  rewrite Pos2Z.inj_xO, IH. lia.
Qed.

Lemma shl_align_same m e : shl_align m e e = (m, e).
Proof. unfold shl_align. by rewrite Z.sub_diag. Qed.

Lemma shl_align_lower m e e' :
  e' < e → Zpos (shl_align m e e').1 = Zpos m * 2 ^ (e - e').
Proof.
  intros. unfold shl_align. destruct (e' - e) as [| |d] eqn:E; [lia..|].
  cbn. rewrite iter_xO. f_equal. f_equal. lia.
Qed.

(** Among valid doubles, a larger exponent means a larger number. *)
Lemma bounded_exponent_order m1 e1 m2 e2 :
  bounded prec emax m1 e1 = true → bounded prec emax m2 e2 = true →
  e2 < e1 → Zpos m2 < Zpos m1 * 2 ^ (e1 - e2).
Proof.
  unfold bounded, canonical_mantissa, fexp, emin.
  intros [H1 _]%andb_prop [H2 _]%andb_prop He.
  apply Z.eqb_eq in H1, H2.
  pose proof (digits2_pos_bounds m1). pose proof (digits2_pos_bounds m2).
  change prec with 53 in *. change emax with 1024 in *.
  assert (Zpos (digits2_pos m1) = 53) as D1 by lia.
  assert (Zpos (digits2_pos m2) ≤ 53) as D2 by lia.
  rewrite D1 in *.
  assert (2 ^ Zpos (digits2_pos m2) ≤ 2 ^ 53) by (apply Z.pow_le_mono_r; lia).
  assert (2 ^ 1 ≤ 2 ^ (e1 - e2)) by (apply Z.pow_le_mono_r; lia).
  change (2 ^ (53 - 1)) with 4503599627370496 in *.
  change (2 ^ 53) with 9007199254740992 in *. change (2 ^ 1) with 2 in *.
  nia.
Qed.

Lemma SFsub_not_negative x y :
  valid_binary x = true → valid_binary y = true →
  SFltb x y = false → SFleb y (S754_zero false) = false →
  sf_not_negative (SFsub prec emax x y) = true.
Proof.
  destruct x as [[]|[]| |[] m1 e1], y as [[]|[]| |[] m2 e2]; try done.
  cbn -[binary_normalize shl_align Z.sub].
  intros V1 V2 Hlt _. apply binary_normalize_sign.
  unfold SFltb in Hlt. cbn in Hlt.
  rewrite Pos.compare_cont_spec in Hlt.
  destruct (Z.compare_spec e1 e2) as [->|?|?]; [|done|].
  - rewrite Z.min_id, !shl_align_same. cbn [fst].
    destruct (Pos.compare_spec m1 m2); [lia|done|lia].
  - rewrite Z.min_r by lia. rewrite shl_align_same. cbn [fst].
    rewrite shl_align_lower by lia.
    pose proof (bounded_exponent_order m1 e1 m2 e2 V1 V2). lia.
Qed.

(** ** The facts the card operations rely on *)

Lemma not_negative_sf x : not_negative x ↔ sf_not_negative (Prim2SF x) = true.
Proof. unfold not_negative. rewrite ltb_zero. by destruct (sf_not_negative _). Qed.

Lemma not_negative_zero : not_negative 0.
Proof. reflexivity. Qed.

Lemma positive_not_negative x : (x <=? 0)%float = false → not_negative x.
Proof. intros. by apply not_negative_sf, leb_zero_false. Qed.

Lemma add_not_negative x y : not_negative x → not_negative y → not_negative (x + y).
Proof.
  rewrite !not_negative_sf, add_spec. apply SFadd_not_negative.
Qed.

Lemma mul_not_negative x y : not_negative x → not_negative y → not_negative (x * y).
Proof.
  rewrite !not_negative_sf, mul_spec. apply SFmul_not_negative.
Qed.

Lemma sub_not_negative x y :
  (x <? y)%float = false → (y <=? 0)%float = false → not_negative (x - y).
Proof.
  rewrite not_negative_sf, sub_spec, ltb_spec, leb_spec.
  apply SFsub_not_negative; apply Prim2SF_valid.
Qed.

Lemma round2_not_negative x : not_negative x → not_negative (PyRound.round2 x).
Proof.
  intros Hx. unfold PyRound.round2.
  destruct (Prim2SF x) as [| | |s m e] eqn:E; try done.
  case_match; [done|].
  apply not_negative_sf in Hx. rewrite E in Hx. destruct s; [done|].
  case_match; try apply not_negative_zero.
  apply not_negative_sf. rewrite abs_spec.
  generalize (Prim2SF (PyRound.hundredths p)). by intros [[]|[]| |[] ? ?].
Qed.

(** A float is not below zero exactly when it is NaN or at least zero. *)
Lemma not_negative_cases x :
  not_negative x ↔ (0 <=? x)%float = true ∨ PrimFloat.is_nan x = true.
Proof.
  unfold not_negative, PrimFloat.is_nan.
  rewrite ltb_spec, leb_spec, FloatAxioms.eqb_spec. change (Prim2SF 0) with (S754_zero false).
  destruct (Prim2SF x) as [[]|[]| |[] m e]; cbn; try tauto; try (intuition congruence).
  all: unfold SFeqb; cbn; rewrite ?Z.compare_refl, ?Pos.compare_cont_refl; cbn;
    intuition congruence.
Qed.

Lemma above_limit_positive (limit x : float) :
  (0 <? limit)%float = true → (limit <? x)%float = true → (x <=? 0)%float = false.
Proof.
  rewrite !ltb_spec, leb_spec. change (Prim2SF 0) with (S754_zero false).
  destruct (Prim2SF limit) as [[]|[]| |[] ? ?], (Prim2SF x) as [[]|[]| |[] ? ?]; done.
Qed.
End FloatFacts.

Import FloatFacts.

(** ** Strings, account numbers, PANs *)

Module PyStrFacts.

Lemma length_digits_w w n : length (digits_w w n) = w.
Proof.
  revert n. induction w as [|w IH]; intros n; [done|].
  cbn. rewrite length_app, IH. cbn. lia.
Qed.

Lemma digits_w_lt w n : Forall (λ d, (d < 10)%N) (digits_w w n).
Proof.
  revert n. induction w as [|w IH]; intros n; cbn; [constructor|].
  apply Forall_app. split; [apply IH|].
  repeat constructor. apply N.mod_lt. lia.
Qed.

Lemma dec_width_from_le fuel k w n :
  (k ≤ w)%nat → (n < 10 ^ N.of_nat w)%N → (dec_width_from fuel k n ≤ w)%nat.
Proof.
  revert k. induction fuel as [|fuel IH]; intros k Hk Hn; cbn; [done|].
  destruct (N.ltb_spec n (10 ^ N.of_nat k)) as [|Hge]; [done|].
  apply IH; [|done].
  destruct (decide (k = w)) as [->|]; [lia|lia].
Qed.

Lemma length_format_0d w n :
  (1 ≤ w)%nat → (n < 10 ^ N.of_nat w)%N → length (format_0d w n) = w.
Proof.
  intros Hw Hn. unfold format_0d.
  rewrite length_fmap, length_digits_w.
  pose proof (dec_width_from_le (N.to_nat (N.size n)) 1 w n Hw Hn).
  unfold dec_width. lia.
Qed.

Section WithUnicode.
Context {U : UnicodeDB}.

Lemma ints_app s1 s2 :
  ints (s1 ++ s2) =
  match ints s1, ints s2 with
  | Some d1, Some d2 => Some (d1 ++ d2)
  | _, _ => None
  end.
Proof.
  induction s1 as [|c s1 IH]; cbn; [by destruct (ints s2)|].
  rewrite IH. by destruct (int_char c), (ints s1), (ints s2).
Qed.

Lemma ints_length s ds : ints s = Some ds → length ds = length s.
Proof.
  revert ds. induction s as [|c s IH]; intros ds; cbn; [by intros [= <-]|].
  destruct (int_char c), (ints s); intros [= <-]; cbn. f_equal. by apply IH.
Qed.

Lemma int_char_digit d : (d < 10)%N → int_char (digit_char d) = Some (Z.of_N d).
Proof.
  intros Hd. unfold int_char, digit_char, is_ascii_digit.
  destruct (N.ltb_spec (48 + d) 128); [|lia].
  destruct (N.leb_spec 48 (48 + d)); [|lia].
  destruct (N.leb_spec (48 + d) 57); [|lia].
  cbn. f_equal. lia.
Qed.

Lemma ints_digit_chars ds :
  Forall (λ d, (d < 10)%N) ds → ints (digit_char <$> ds) = Some (Z.of_N <$> ds).
Proof.
  induction 1 as [|d ds Hd _ IH]; [done|].
  cbn. by rewrite int_char_digit, IH.
Qed.

Lemma ints_format_0d w n :
  ints (format_0d w n) = Some (Z.of_N <$> digits_w (w `max` dec_width n) n).
Proof. apply ints_digit_chars, digits_w_lt. Qed.

Lemma ints_ascii_digits s :
  forallb is_ascii_digit s = true → is_Some (ints s).
Proof.
  induction s as [|c s IH]; cbn; [by eexists|].
  intros [Hc Hs]%andb_prop. destruct (IH Hs) as [ds ->].
  unfold int_char. rewrite Hc.
  unfold is_ascii_digit in Hc. apply andb_prop in Hc as [_ Hc%N.leb_le].
  destruct (N.ltb_spec c 128); [by eexists|lia].
Qed.

Lemma ints_drop k s : is_Some (ints s) → is_Some (ints (drop k s)).
Proof.
  rewrite <- (take_drop k s) at 1. rewrite ints_app.
  destruct (ints (take k s)), (ints (drop k s)); by intros [? ?].
Qed.

Lemma format_0d_ascii_digits w n : forallb is_ascii_digit (format_0d w n) = true.
Proof.
  unfold format_0d. apply forallb_forall. intros c Hc.
  apply list_elem_of_In, list_elem_of_fmap in Hc as (d & -> & Hd).
  pose proof (proj1 (Forall_forall _ _) (digits_w_lt _ n) d Hd) as Hlt. cbn in Hlt.
  unfold is_ascii_digit, digit_char.
  apply andb_true_intro. split; apply N.leb_le; lia.
Qed.

Lemma ints_reverse s :
  ints (reverse s) = reverse <$> ints s.
Proof.
  induction s as [|c s IH]; [done|].
  rewrite reverse_cons, ints_app, IH. cbn [ints].
  destruct (int_char c) as [d|], (ints s) as [ds|]; try done.
  change (Some (reverse ds ++ [d]) = Some (reverse (d :: ds))).
  by rewrite reverse_cons.
Qed.
End WithUnicode.

End PyStrFacts.

Module AccountNumberFacts.
Import PyStrFacts.

Lemma wsum_cons w ws d ds : wsum (w :: ws) (d :: ds) = (d * w) mod 10 + wsum ws ds.
Proof. reflexivity. Qed.

Lemma wsum_app ws d1 d2 :
  wsum ws (d1 ++ d2) = wsum ws d1 + wsum (drop (length d1) ws) d2.
Proof.
  revert ws. induction d1 as [|d d1 IH]; intros ws; [by cbn|].
  destruct ws as [|w ws]; [by destruct d2|].
  cbn [app length drop]. rewrite !wsum_cons, IH. lia.
Qed.

Lemma wsum_split ws pre d post w ws' :
  drop (length pre) ws = w :: ws' →
  wsum ws (pre ++ d :: post) = wsum ws pre + (d * w) mod 10 + wsum ws' post.
Proof. intros H. rewrite wsum_app, H, wsum_cons. lia. Qed.

Lemma wsum_take ws ds : wsum ws ds = wsum (take (length ds) ws) ds.
Proof.
  revert ws. induction ds as [|d ds IH]; intros [|w ws]; try done.
  cbn [length take]. by rewrite !wsum_cons, IH.
Qed.

Lemma spec_weights_take n : (n ≤ 24)%nat → take n weights = spec_weights n.
Proof.
  intros Hn. do 25 (destruct n as [|n]; [by vm_compute|]). lia.
Qed.

Lemma first_zero_ext f g ds :
  (∀ d, d ∈ ds → f d mod 10 = g d mod 10) → first_zero f ds = first_zero g ds.
Proof.
  induction ds as [|d ds IH]; intros H; [done|].
  cbn. rewrite (H d) by left. rewrite IH; [done|].
  intros. apply H. by right.
Qed.

Lemma range10_elem d : (d < 10)%N → d ∈ range10.
Proof.
  intros. assert (d = 0 ∨ d = 1 ∨ d = 2 ∨ d = 3 ∨ d = 4 ∨ d = 5 ∨ d = 6 ∨ d = 7
                  ∨ d = 8 ∨ d = 9)%N as Hd by lia.
  unfold range10. cbn.
  repeat (destruct Hd as [->|Hd] || subst d); by apply (bool_decide_unpack _).
Qed.

Lemma range10_lt d : d ∈ range10 → (d < 10)%N.
Proof. unfold range10. cbn. set_unfold. lia. Qed.

(** Multiplying by a weight permutes the residues modulo ten: whatever
    the rest of the sum is, one digit and only one completes it. *)
Lemma one_control_digit (w c : Z) :
  w = 7 ∨ w = 1 ∨ w = 3 →
  ∃ d0, first_zero (λ d, c mod 10 + Z.of_N d * w) range10 = Some d0
        ∧ ∀ d, d ∈ range10 → (c mod 10 + Z.of_N d * w) mod 10 = 0 → d = d0.
Proof.
  intros Hw. pose proof (Z.mod_pos_bound c 10 ltac:(lia)) as Hc.
  assert (c mod 10 = 0 ∨ c mod 10 = 1 ∨ c mod 10 = 2 ∨ c mod 10 = 3 ∨ c mod 10 = 4
          ∨ c mod 10 = 5 ∨ c mod 10 = 6 ∨ c mod 10 = 7 ∨ c mod 10 = 8 ∨ c mod 10 = 9)
    as Hr by lia.
  unfold range10. cbn [seq fmap list_fmap].
  destruct Hw as [->|[->| ->]];
    repeat (destruct Hr as [->|Hr] || rewrite Hr);
    (eexists; split; [vm_compute; reflexivity|]);
    intros d Hd; set_unfold in Hd;
    repeat (destruct Hd as [->|Hd] || subst d); by vm_compute.
Qed.

Section WithUnicode.
Context {U : UnicodeDB}.

(** Up to 24 digits the two are the same check. *)
Lemma control_sum_ok_spec bic account_number :
  (length (last_chars 3 bic ++ account_number) ≤ 24)%nat →
  control_sum_ok bic account_number = spec_checksum_ok bic account_number.
Proof.
  intros Hlen. unfold control_sum_ok, spec_checksum_ok, control_sum.
  destruct (ints _) as [digits|] eqn:E; [|done].
  apply ints_length in E. fold (wsum weights digits).
  rewrite (wsum_take weights digits), spec_weights_take by lia. done.
Qed.

Lemma control_sum_candidate bic_tail serial t sd d :
  ints bic_tail = Some t → ints serial = Some sd → d ∈ range10 →
  control_sum (bic_tail ++ candidate_account_nuber serial d) =
    Some (wsum weights (t ++ account_prefix ++ Z.of_N d :: account_branch ++ sd)).
Proof.
  intros Ht Hsd Hd. unfold control_sum, candidate_account_nuber.
  rewrite !ints_app, Ht, Hsd.
  assert (ints (str_of_int d) = Some [Z.of_N d]) as ->.
  { unfold range10 in Hd. cbn in Hd. set_unfold in Hd.
    repeat (destruct Hd as [->|Hd] || subst d); by vm_compute. }
  by vm_compute (ints _).
Qed.

Lemma control_digit_loop_first_zero bic_tail serial f ds :
  (∀ d, d ∈ ds → control_sum (bic_tail ++ candidate_account_nuber serial d) = Some (f d)) →
  control_digit_loop bic_tail serial ds =
    Return (candidate_account_nuber serial <$> first_zero f ds).
Proof.
  induction ds as [|d ds IH]; intros H; [done|].
  cbn [control_digit_loop first_zero]. rewrite (H d) by left.
  destruct (f d mod 10 =? 0); [done|].
  apply IH. intros. apply H. by right.
Qed.

(** The weight the control digit meets, by the length of the BIC tail. *)
Lemma control_weight (t sd : list Z) :
  (length t ≤ 3)%nat →
  ∃ w a b, (w = 7 ∨ w = 1 ∨ w = 3) ∧
    ∀ d, wsum weights (t ++ account_prefix ++ d :: account_branch ++ sd)
         = a + (d * w) mod 10 + b.
Proof.
  intros Ht.
  destruct t as [|t0 [|t1 [|t2 [|]]]]; cbn in Ht; try lia.
  - exists 3, (wsum weights account_prefix),
      (wsum (drop 9 weights) (account_branch ++ sd)).
    split; [auto|]. intros. rewrite app_nil_l.
    by apply wsum_split.
  - exists 7, (wsum weights ([t0] ++ account_prefix)),
      (wsum (drop 10 weights) (account_branch ++ sd)).
    split; [auto|]. intros. rewrite (assoc (++)).
    by apply wsum_split.
  - exists 1, (wsum weights ([t0; t1] ++ account_prefix)),
      (wsum (drop 11 weights) (account_branch ++ sd)).
    split; [auto|]. intros. rewrite (assoc (++)).
    by apply wsum_split.
  - exists 3, (wsum weights ([t0; t1; t2] ++ account_prefix)),
      (wsum (drop 12 weights) (account_branch ++ sd)).
    split; [auto|]. intros. rewrite (assoc (++)).
    by apply wsum_split.
Qed.

Lemma length_last_chars k s : (length (last_chars k s) ≤ k)%nat.
Proof. unfold last_chars. rewrite length_drop. lia. Qed.

Lemma next_account_number_control_digit (bic : pystr) (n : N) :
  is_Some (ints (last_chars 3 bic)) →
  ∃ d : N,
    (d < 10)%N
    ∧ _next_account_number bic n
        = Return (Some (candidate_account_nuber (format_0d 7 n) d))
    ∧ control_sum_ok bic (candidate_account_nuber (format_0d 7 n) d) = true
    ∧ ∀ d', (d' < 10)%N →
        control_sum_ok bic (candidate_account_nuber (format_0d 7 n) d') = true → d' = d.
Proof.
  intros Hbic. unfold _next_account_number, control_sum_ok.
  set (bic_tail := last_chars 3 bic). set (serial := format_0d 7 n).
  destruct Hbic as [t Ht]. fold bic_tail in Ht.
  pose proof (ints_format_0d 7 n) as Hsd. fold serial in Hsd.
  set (sd := Z.of_N <$> _) in Hsd.
  destruct (control_weight t sd) as (w & a & b & Hw & Hsum).
  { rewrite (ints_length _ _ Ht). apply length_last_chars. }
  destruct (one_control_digit w (a + b) Hw) as (d0 & Hfirst & Huniq).
  pose (f := λ d : N, wsum weights (t ++ account_prefix ++ Z.of_N d :: account_branch ++ sd)).
  assert (∀ d, f d mod 10 = ((a + b) mod 10 + Z.of_N d * w) mod 10) as Hf.
  { intros d. unfold f. rewrite Hsum.
    replace (a + (Z.of_N d * w) mod 10 + b) with ((a + b) + (Z.of_N d * w) mod 10) by lia.
    rewrite Z.add_mod_idemp_r by lia. by rewrite Z.add_mod_idemp_l by lia. }
  assert (first_zero f range10 = Some d0) as Hf0.
  { rewrite <- Hfirst. apply first_zero_ext. intros d _. by rewrite Hf. }
  assert (d0 ∈ range10) as Hd0.
  { clear -Hf0. revert Hf0. generalize range10. induction l as [|x l IH]; [done|].
    cbn. case_match; [intros [= ->]; by left|]. intros. right. by apply IH. }
  exists d0. split; [by apply range10_lt|]. split; [|split].
  - fold range10.
    rewrite (control_digit_loop_first_zero bic_tail serial f).
    + by rewrite Hf0.
    + intros d Hd. by apply control_sum_candidate.
  - rewrite (control_sum_candidate bic_tail serial t sd d0 Ht Hsd Hd0).
    apply Z.eqb_eq. fold (f d0).
    clear -Hf0. revert Hf0. generalize range10. induction l as [|x l IH]; [done|].
    cbn. destruct (Z.eqb_spec (f x mod 10) 0); [by intros [= ->]|done].
  - intros d' Hd' Hok. apply range10_elem in Hd'.
    rewrite (control_sum_candidate bic_tail serial t sd d' Ht Hsd Hd') in Hok.
    apply Z.eqb_eq in Hok. fold (f d') in Hok. rewrite Hf in Hok.
    by apply Huniq.
Qed.

Lemma length_candidate serial d :
  (d < 10)%N → length (candidate_account_nuber serial d) = (13 + length serial)%nat.
Proof.
  intros Hd. apply range10_elem in Hd. unfold range10 in Hd. cbn in Hd. set_unfold in Hd.
  unfold candidate_account_nuber. rewrite !length_app.
  repeat (destruct Hd as [->|Hd] || subst d); by vm_compute.
Qed.
End WithUnicode.
End AccountNumberFacts.

Module PanFacts.
Import PyStrFacts.

Lemma range_from_fuel fuel1 fuel2 start stop :
  (stop - start ≤ fuel1)%nat → (stop - start ≤ fuel2)%nat →
  range_from fuel1 start stop 2 = range_from fuel2 start stop 2.
Proof.
  revert fuel2 start.
  induction fuel1 as [|fuel1 IH]; intros [|fuel2] start H1 H2; cbn [range_from];
    try done.
  - destruct (Nat.ltb_spec start stop); [lia|done].
  - destruct (Nat.ltb_spec start stop); [lia|done].
  - destruct (Nat.ltb_spec start stop); [|done]. f_equal. apply IH; lia.
Qed.

Lemma range_from_shift fuel start stop :
  (λ i, S (S i)) <$> range_from fuel start stop 2
  = range_from fuel (S (S start)) (S (S stop)) 2.
Proof.
  revert start. induction fuel as [|fuel IH]; intros start; [done|].
  cbn [range_from]. change (S (S start) <? S (S stop))%nat with (start <? stop)%nat.
  destruct (start <? stop)%nat; [|done].
  rewrite fmap_cons, IH. done.
Qed.

Lemma range3_odd n :
  range3 1 (S (S n)) 2 = 1%nat :: ((λ i, S (S i)) <$> range3 1 n 2).
Proof.
  unfold range3. rewrite (range_from_fuel (S (S n)) (S n)) by lia.
  cbn [range_from]. change (1 <? S (S n))%nat with true. cbv iota.
  f_equal. by rewrite range_from_shift.
Qed.

Lemma foldl_luhn_double_shift x y r (idx : list nat) :
  foldl luhn_double (x :: y :: r) ((λ i, S (S i)) <$> idx)
  = x :: y :: foldl luhn_double r idx.
Proof.
  revert r. induction idx as [|i idx IH]; intros r; [done|].
  cbn [fmap list_fmap foldl]. rewrite <- IH. f_equal.
  unfold luhn_double. cbn [lookup list_lookup]. by destruct (r !! i).
Qed.

(** The loop of [_luhn] over the odd indices does what the
    specification says. *)
Lemma luhn_loop_spec (digits : list Z) :
  foldl luhn_double digits (range3 1 (length digits) 2) = double_every_second digits.
Proof.
  remember (length digits) as n eqn:Hn.
  revert digits Hn. induction (lt_wf n) as [n _ IH]. intros digits ->.
  destruct digits as [|x [|y r]]; [done|done|].
  cbn [length]. rewrite range3_odd. cbn [foldl double_every_second].
  change (luhn_double (x :: y :: r) 1) with (x :: reduce_doubled y :: r).
  rewrite foldl_luhn_double_shift. do 2 f_equal.
  apply (IH (length r)); [cbn; lia|done].
Qed.

Lemma luhn_check_digit_range digits : 0 ≤ luhn_check_digit digits < 10.
Proof. apply Z.mod_pos_bound. lia. Qed.

Lemma str_of_int_digit (d : N) : (d < 10)%N → str_of_int d = [digit_char d].
Proof.
  intros Hd.
  assert (d = 0 ∨ d = 1 ∨ d = 2 ∨ d = 3 ∨ d = 4 ∨ d = 5 ∨ d = 6 ∨ d = 7 ∨ d = 8 ∨ d = 9)%N
    as Hc by lia.
  repeat (destruct Hc as [->|Hc] || subst d); by vm_compute.
Qed.

Section WithUnicode.
Context {U : UnicodeDB}.

Lemma luhn_spec (number15 : pystr) (digits : list Z) :
  ints number15 = Some digits → _luhn number15 = Return (luhn_check_digit digits).
Proof.
  intros H. unfold _luhn, luhn_check_digit. rewrite ints_reverse, H.
  cbn [fmap option_fmap option_map]. by rewrite luhn_loop_spec.
Qed.

Lemma bin_code_cases system :
  bin_code_of system = lit "220400" ∨ bin_code_of system = lit "400000"
  ∨ bin_code_of system = lit "510000".
Proof.
  unfold bin_code_of.
  change (dict_get BIN_BY_SYSTEM DEFAULT_PAYMENT_SYSTEM []) with (lit "220400").
  unfold BIN_BY_SYSTEM. cbn [dict_get].
  repeat case_decide; auto.
Qed.

Lemma bin_code_digits system :
  length (bin_code_of system) = 6%nat ∧ is_Some (ints (bin_code_of system)).
Proof.
  destruct (bin_code_cases system) as [->|[->| ->]];
    (split; [by vm_compute|vm_compute; by eexists]).
Qed.

Lemma generate_pan_spec (system : pystr) (n : N) :
  ∃ digits,
    ints (bin_code_of system ++ format_0d 9 n) = Some digits
    ∧ _generate_pan system n =
        Return (bin_code_of system ++ format_0d 9 n
                ++ [digit_char (Z.to_N (luhn_check_digit digits))]).
Proof.
  destruct (bin_code_digits system) as [_ [bd Hbd]].
  exists (bd ++ (Z.of_N <$> digits_w (9 `max` dec_width n) n)).
  assert (ints (bin_code_of system ++ format_0d 9 n)
          = Some (bd ++ (Z.of_N <$> digits_w (9 `max` dec_width n) n))) as Hints.
  { by rewrite ints_app, Hbd, ints_format_0d. }
  split; [done|].
  unfold _generate_pan. fold (bin_code_of system).
  rewrite (luhn_spec _ _ Hints).
  rewrite str_of_int_digit; [by rewrite <- (assoc (++))|].
  pose proof (luhn_check_digit_range (bd ++ (Z.of_N <$> digits_w (9 `max` dec_width n) n))).
  lia.
Qed.
End WithUnicode.
End PanFacts.

(** ** The rules of the weakest precondition *)

Section WpRules.
Context {A B : Type}.
Implicit Types (w : World).

Lemma wp_bind (m : M A) (k : A → M B) Q w :
  wp m (λ w' r, match r with
                | Return a => wp (k a) Q w'
                | Raise c e => Q w' (Raise c e)
                | Uncaught e => Q w' (Uncaught e)
                end) w →
  wp (bind m k) Q w.
Proof. unfold wp, bind. by destruct (m w) as [w' [a|c e|e]]. Qed.

Lemma wp_ret (a : A) Q w : Q w (Return a) → wp (ret a) Q w.
Proof. done. Qed.
Lemma wp_raise c e (Q : World → outcome A → Prop) w : Q w (Raise c e) → wp (raise c e) Q w.
Proof. done. Qed.
Lemma wp_throw e (Q : World → outcome A → Prop) w : Q w (Uncaught e) → wp (throw e) Q w.
Proof. done. Qed.
Lemma wp_lift r (Q : World → outcome A → Prop) w : Q w r → wp (Bank.lift r) Q w.
Proof. done. Qed.
Lemma wp_gets (f : World → A) Q w :
  (∀ a, a = f w → Q w (Return a)) → wp (gets f) Q w.
Proof. intros H. by apply H. Qed.
End WpRules.

Lemma wp_modify f Q w : Q (f w) (Return ()) → wp (modify f) Q w.
Proof. done. Qed.

Lemma wp_when (b : bool) m Q w :
  (b = true → wp m Q w) → (b = false → Q w (Return ())) → wp (when b m) Q w.
Proof. intros H1 H2. destruct b; [by apply H1|by apply H2]. Qed.

Lemma wp_deref_card c Q w :
  (∀ card, card_heap w !! c = Some card → Q w (Return card)) →
  (card_heap w !! c = None → Q w (Uncaught AttributeError)) →
  wp (deref_card c) Q w.
Proof. intros H1 H2. unfold wp, deref_card. destruct (card_heap w !! c); [by apply H1|by apply H2]. Qed.

Lemma wp_deref_account a Q w :
  (∀ acc, account_heap w !! a = Some acc → Q w (Return acc)) →
  (account_heap w !! a = None → Q w (Uncaught AttributeError)) →
  wp (deref_account a) Q w.
Proof. intros H1 H2. unfold wp, deref_account. destruct (account_heap w !! a); [by apply H1|by apply H2]. Qed.

Lemma wp_linked_account account msg Q w :
  (∀ a, account = Some a → Q w (Return a)) →
  (account = None → Q w (Raise AccessError msg)) →
  wp (linked_account account msg) Q w.
Proof. intros H1 H2. destruct account; [by apply H1|by apply H2]. Qed.

(** The calendar at work: the first day of the generators, a 29
    February with and without an expiry date, and the last days there
    are. *)
Lemma calendar_examples :
  Calendar.START = 738156 ∧ Calendar.MAXORDINAL = 3652059 ∧ LAST_DAY = 2913903
  ∧ Calendar.ymd 0 = (2022, 1, 1)
  ∧ Calendar.ymd 789 = (2024, 2, 29)
  ∧ expiry_date 789 = Return 2250 ∧ Calendar.ymd 2250 = (2028, 2, 29)
  ∧ Calendar.ymd 27087 = (2096, 2, 29) ∧ expiry_date 27087 = Uncaught ValueError
  ∧ Calendar.ymd (LAST_DAY - 1461) = (9995, 12, 31)
  ∧ expiry_date (LAST_DAY - 1461) = Return LAST_DAY
  ∧ Calendar.ymd (LAST_DAY - 1460) = (9996, 1, 1)
  ∧ expiry_date (LAST_DAY - 1460) = Uncaught ValueError
  ∧ Calendar.ymd LAST_DAY = (9999, 12, 31)
  ∧ timestamp_generator 2913903 = Return (mk_datetime 2913903 18 21 33)
  ∧ timestamp_generator 2913904 = Uncaught OverflowError.
Proof. by vm_compute. Qed.

(** The two generators: what a draw can give. *)
Lemma start_plus_days_cases i :
  0 ≤ i →
  (i ≤ LAST_DAY ∧ Calendar.start_plus_days i = Return i)
  ∨ (LAST_DAY < i ∧ Calendar.start_plus_days i = Uncaught OverflowError).
Proof.
  intros Hi. unfold Calendar.start_plus_days.
  change LAST_DAY with 2913903. change Calendar.START with 738156.
  change Calendar.MAXORDINAL with 3652059.
  destruct (0 <? 738156 + i) eqn:E1; [|lia].
  destruct (738156 + i <=? 3652059) eqn:E2; cbn; [left|right]; split; (done || lia).
Qed.

Lemma next_issue_date_cases gen :
  (Z.of_N gen ≤ LAST_DAY
   ∧ next issue_date_generator gen = (N.succ gen, Return (Z.of_N gen)))
  ∨ (LAST_DAY < Z.of_N gen
     ∧ ∃ gen' e, next issue_date_generator gen = (gen', Uncaught e) ∧ (gen ≤ gen')%N).
Proof.
  unfold next, ended, issue_date_generator.
  destruct (LAST_DAY + 1 <? Z.of_N gen) eqn:E.
  - right. split; [lia|]. by exists gen, StopIteration.
  - destruct (start_plus_days_cases (Z.of_N gen) ltac:(lia)) as [[? ->] | [? ->]].
    + by left.
    + right. split; [done|]. exists (N.succ gen), OverflowError. split; [done|lia].
Qed.

Lemma next_timestamp_cases gen :
  (Z.of_N gen ≤ LAST_DAY
   ∧ timestamp_generator gen = Return (yielded gen)
   ∧ next timestamp_generator gen = (N.succ gen, Return (yielded gen)))
  ∨ (LAST_DAY < Z.of_N gen
     ∧ next timestamp_generator gen
       = if ended gen then (gen, Uncaught StopIteration)
         else (N.succ gen, Uncaught OverflowError)).
Proof.
  unfold next, ended, timestamp_generator, yielded.
  destruct (LAST_DAY + 1 <? Z.of_N gen) eqn:E.
  - right. split; [lia|done].
  - destruct (start_plus_days_cases (Z.of_N gen) ltac:(lia)) as [[? ->] | [? ->]].
    + by left.
    + by right.
Qed.

(** The loop of [next_timestamp_after] stops at the first value dated
    after [issue_date] if the calendar has one left, and at the first
    draw otherwise. *)
Lemma next_timestamp_loop_exit gen issue_date fuel :
  issue_date + 1 - Z.of_N gen ≤ Z.of_nat fuel →
  next_timestamp_loop fuel gen issue_date
  = let g := first_later gen issue_date in
    if Z.of_N g <=? LAST_DAY then (N.succ g, Return (yielded g))
    else (after_failure (N.max gen (Z.to_N (LAST_DAY + 1))),
          Uncaught (if ended gen then StopIteration else OverflowError)).
Proof.
  revert gen. induction fuel as [|fuel IH]; intros gen Hfuel; cbn zeta.
  - cbn [next_timestamp_loop]. unfold first_later.
    replace (N.max gen (Z.to_N (issue_date + 1))) with gen by lia.
    destruct (next_timestamp_cases gen) as [(Hle & _ & ->) | [Hlt ->]].
    + by rewrite (proj2 (Z.leb_le _ _)) by done.
    + rewrite (proj2 (Z.leb_gt _ _)) by done.
      replace (N.max gen (Z.to_N (LAST_DAY + 1))) with gen by lia.
      unfold after_failure. by destruct (ended gen).
  - cbn [next_timestamp_loop].
    destruct (next_timestamp_cases gen) as [(Hle & _ & ->) | [Hlt ->]].
    + change (dt_date (yielded gen)) with (Z.of_N gen).
      destruct (Z.ltb_spec issue_date (Z.of_N gen)) as [Hlater|Hnot].
      * unfold first_later.
        replace (N.max gen (Z.to_N (issue_date + 1))) with gen by lia.
        by rewrite (proj2 (Z.leb_le _ _)) by done.
      * rewrite (IH (N.succ gen)) by lia. cbn zeta. unfold first_later.
        replace (N.max (N.succ gen) (Z.to_N (issue_date + 1)))
          with (N.max gen (Z.to_N (issue_date + 1))) by lia.
        destruct (Z.of_N (N.max gen (Z.to_N (issue_date + 1))) <=? LAST_DAY); [done|].
        replace (N.max (N.succ gen) (Z.to_N (LAST_DAY + 1)))
          with (N.max gen (Z.to_N (LAST_DAY + 1))) by (change LAST_DAY with 2913903 in *; lia).
        unfold ended. change LAST_DAY with 2913903 in *.
        by rewrite !(proj2 (Z.ltb_ge _ _)) by lia.
    + assert (LAST_DAY < Z.of_N (first_later gen issue_date)) by (unfold first_later; lia).
      rewrite (proj2 (Z.leb_gt _ _)) by done.
      replace (N.max gen (Z.to_N (LAST_DAY + 1))) with gen by lia.
      unfold after_failure. by destruct (ended gen).
Qed.

Lemma next_timestamp_loop_return gen issue_date gen' ts :
  next_timestamp_loop (Z.to_nat (issue_date + 1 - Z.of_N gen)) gen issue_date
  = (gen', Return ts) →
  gen' = N.succ (first_later gen issue_date)
  ∧ ts = yielded (first_later gen issue_date)
  ∧ Z.of_N (first_later gen issue_date) ≤ LAST_DAY.
Proof.
  rewrite next_timestamp_loop_exit by lia. cbn zeta.
  destruct (Z.leb_spec (Z.of_N (first_later gen issue_date)) LAST_DAY); [|done].
  by intros [= <- <-].
Qed.

Lemma next_timestamp_loop_uncaught gen issue_date gen' e :
  next_timestamp_loop (Z.to_nat (issue_date + 1 - Z.of_N gen)) gen issue_date
  = (gen', Uncaught e) →
  (gen ≤ gen')%N ∧ LAST_DAY < Z.of_N (first_later gen issue_date).
Proof.
  rewrite next_timestamp_loop_exit by lia. cbn zeta.
  destruct (Z.leb_spec (Z.of_N (first_later gen issue_date)) LAST_DAY); [done|].
  intros [= <- <-]. split; [|done]. unfold after_failure. destruct (ended _); lia.
Qed.

Lemma wp_next_timestamp_after issue_date Q w :
  (∀ ts gen',
     next_timestamp_loop (Z.to_nat (issue_date + 1 - Z.of_N (TIMESTAMP_GENERATOR w)))
       (TIMESTAMP_GENERATOR w) issue_date = (gen', Return ts) →
     Q (set_TIMESTAMP_GENERATOR gen' w) (Return ts)) →
  (∀ e gen',
     next_timestamp_loop (Z.to_nat (issue_date + 1 - Z.of_N (TIMESTAMP_GENERATOR w)))
       (TIMESTAMP_GENERATOR w) issue_date = (gen', Uncaught e) →
     Q (set_TIMESTAMP_GENERATOR gen' w) (Uncaught e)) →
  wp (next_timestamp_after issue_date) Q w.
Proof.
  intros H1 H2. unfold wp, next_timestamp_after.
  destruct (next_timestamp_loop _ _ _) as [gen' [ts|c m|e]] eqn:E; [by apply H1| |by apply H2].
  rewrite next_timestamp_loop_exit in E by lia. cbn zeta in E. by destruct (_ <=? _).
Qed.

Lemma expiry_date_not_raise issue_date c m : expiry_date issue_date ≠ Raise c m.
Proof.
  unfold expiry_date, Calendar.date. destruct (Calendar.ymd issue_date) as [[y mo] d].
  by destruct (_ && _).
Qed.

Lemma wp_next_issue_date Q w :
  (Z.of_N (ISSUE_DATE_GENERATOR w) ≤ LAST_DAY →
   Q (set_ISSUE_DATE_GENERATOR (N.succ (ISSUE_DATE_GENERATOR w)) w)
     (Return (Z.of_N (ISSUE_DATE_GENERATOR w)))) →
  (∀ e gen',
     LAST_DAY < Z.of_N (ISSUE_DATE_GENERATOR w) →
     Q (set_ISSUE_DATE_GENERATOR gen' w) (Uncaught e)) →
  wp Bank.next_issue_date Q w.
Proof.
  intros H1 H2. unfold wp, Bank.next_issue_date.
  destruct (next_issue_date_cases (ISSUE_DATE_GENERATOR w))
    as [[Hle ->] | [Hlt (g & e & -> & _)]]; [by apply H1|by apply H2].
Qed.

Lemma wp_bank_log_append bank trans Q w :
  (bank = Some () →
   Q (update_bank (λ b, set_transaction_log (transaction_log b ++ [trans]) b) w)
     (Return ())) →
  (bank = None → Q w (Uncaught AttributeError)) →
  wp (bank_log_append bank trans) Q w.
Proof. intros H1 H2. destruct bank as [[]|]; [by apply H1|by apply H2]. Qed.

Lemma wp_try_except_dec {A} (m : M A) Q w :
  wp m (λ w' r, match r with
                | Return a => Q w' (Return (Some a))
                | Raise _ e => Q (log_error e w') (Return None)
                | Uncaught e => Q w' (Uncaught e)
                end) w →
  wp (try_except_dec m) Q w.
Proof. unfold wp, try_except_dec. by destruct (m w) as [w' [a|c e|e]]. Qed.

Lemma wp_mono {A} (m : M A) (Q Q' : World → outcome A → Prop) w :
  wp m Q w → (∀ w' r, Q w' r → Q' w' r) → wp m Q' w.
Proof. unfold wp. auto. Qed.

Ltac wp_step :=
  lazymatch goal with
  | |- wp (bind _ _) _ _ => apply wp_bind
  | |- wp (ret _) _ _ => apply wp_ret
  | |- wp (raise _ _) _ _ => apply wp_raise
  | |- wp (throw _) _ _ => apply wp_throw
  | |- wp (Bank.lift _) _ _ => apply wp_lift
  | |- wp (gets _) _ _ => apply wp_gets; intros ? ?
  | |- wp (modify _) _ _ => apply wp_modify
  | |- wp (modify_card _ _) _ _ => apply wp_modify
  | |- wp (modify_account _ _) _ _ => apply wp_modify
  | |- wp (transactions_append _ _) _ _ => apply wp_modify
  | |- wp (modify_bank _) _ _ => apply wp_modify
  | |- wp (Bank.modify_user _ _) _ _ => apply wp_modify
  | |- wp (when _ _) _ _ => apply wp_when; intros ?
  | |- wp (deref_card _) _ _ => apply wp_deref_card; [intros ? ?|intros ?]
  | |- wp (deref_account _) _ _ => apply wp_deref_account; [intros ? ?|intros ?]
  | |- wp (linked_account _ _) _ _ => apply wp_linked_account; [intros ? ?|intros ?]
  | |- wp (next_timestamp_after _) _ _ => apply wp_next_timestamp_after; intros ? ? ?
  | |- wp Bank.next_issue_date _ _ => apply wp_next_issue_date; [intros ?|intros ? ? ?]
  | |- wp (bank_log_append _ _) _ _ => apply wp_bank_log_append; intros ?
  | |- wp (try_except_dec _) _ _ => apply wp_try_except_dec
  | |- wp Bank.next_user_seq _ _ => unfold Bank.next_user_seq
  | |- wp Bank.next_account_seq _ _ => unfold Bank.next_account_seq
  | |- wp Bank.next_card_seq _ _ => unfold Bank.next_card_seq
  | |- wp Bank.next_pan_seq _ _ => unfold Bank.next_pan_seq
  | |- wp (Bank.alloc_account _) _ _ => unfold Bank.alloc_account
  | |- wp (Bank.alloc_card _) _ _ => unfold Bank.alloc_card
  | |- wp (match ?x with _ => _ end) _ _ => destruct x eqn:?
  | |- wp (let '(_, _) := ?x in _) _ _ => destruct x eqn:?
  | |- match ?x with _ => _ end => destruct x eqn:?
  end; cbn beta iota zeta.

Ltac wp_run := repeat wp_step.

(** ** Cards and states along the calls *)

Lemma transition_ok_refl s : transition_ok s s.
Proof. by left. Qed.

Lemma transition_ok_trans s1 s2 s3 :
  transition_ok s1 s2 → transition_ok s2 s3 → transition_ok s1 s3.
Proof. unfold transition_ok. destruct s1, s2, s3; intuition congruence. Qed.

Lemma card_step_refl card : card_step card card.
Proof. repeat split. apply transition_ok_refl. Qed.

Lemma card_step_trans c1 c2 c3 : card_step c1 c2 → card_step c2 c3 → card_step c1 c3.
Proof.
  intros [(?&?&?&?&?&?&?) ?] [(?&?&?&?&?&?&?) ?].
  split; [repeat split; congruence|by eapply transition_ok_trans].
Qed.

Lemma card_step_transactions card l : card_step card (set_transactions l card).
Proof. repeat split. apply transition_ok_refl. Qed.

Lemma card_step_block card :
  closed_or_blocked (status card) = false → card_step card (set_status BLOCKED card).
Proof.
  intros H. repeat split. destruct (status card); [|done..]. right. by left.
Qed.

Lemma card_step_close card : card_step card (set_status CLOSED card).
Proof. repeat split. unfold transition_ok. cbn. destruct (status card); intuition congruence. Qed.

Lemma evolves_refl w : evolves w w.
Proof. intros c card H. exists card. split; [done|apply card_step_refl]. Qed.

Lemma evolves_same_cards w w' : card_heap w' = card_heap w → evolves w w'.
Proof. intros H c card Hc. exists card. rewrite H. split; [done|apply card_step_refl]. Qed.

Lemma evolves_trans w1 w2 w3 : evolves w1 w2 → evolves w2 w3 → evolves w1 w3.
Proof.
  intros H1 H2 c card Hc. destruct (H1 c card Hc) as (card2 & Hc2 & S12).
  destruct (H2 c card2 Hc2) as (card3 & Hc3 & S23).
  exists card3. split; [done|by eapply card_step_trans].
Qed.

Lemma follows_refl w : follows w w.
Proof. split; [apply evolves_refl|done]. Qed.

Lemma follows_trans w1 w2 w3 : follows w1 w2 → follows w2 w3 → follows w1 w3.
Proof. intros [E1 W1] [E2 W2]. split; [by eapply evolves_trans|auto]. Qed.

Lemma follows_step w W W' :
  follows w W → evolves W W' → (wf w → wf W → wf W') → follows w W'.
Proof. intros [E1 W1] E2 W2. split; [by eapply evolves_trans|auto]. Qed.

Section ElementarySteps.
Implicit Types (w W : World).

Lemma follows_set_TIMESTAMP_GENERATOR w W g :
  follows w W → follows w (set_TIMESTAMP_GENERATOR g W).
Proof.
  intros H. eapply follows_step; [done|by apply evolves_same_cards|].
  intros _ []. by constructor.
Qed.

Lemma follows_set_ISSUE_DATE_GENERATOR w W g :
  follows w W → follows w (set_ISSUE_DATE_GENERATOR g W).
Proof.
  intros H. eapply follows_step; [done|by apply evolves_same_cards|].
  intros _ []. by constructor.
Qed.

Lemma follows_log_error w W e : follows w W → follows w (log_error e W).
Proof.
  intros H. eapply follows_step; [done|by apply evolves_same_cards|].
  intros _ []. by constructor.
Qed.

Lemma follows_update_bank w W f :
  follows w W →
  (wf w → wf W → bank_step (the_bank W) (f (the_bank W))) →
  follows w (update_bank f W).
Proof.
  intros H Hf. eapply follows_step; [done|by apply evolves_same_cards|].
  intros Hw HW. destruct (Hf Hw HW) as (Hseq & Hnd & Hb). destruct HW as [? Hid ? ? ? ? ? ?].
  constructor; try done. cbn.
  eapply Forall_impl; [exact Hid|]. intros card Hc. cbn in Hc |- *. lia.
Qed.

Lemma follows_update_card w W c f :
  follows w W →
  (∀ card, card_heap W !! c = Some card → card_step card (f card)) →
  follows w (update_card c f W).
Proof.
  intros H Hf. eapply follows_step; [done| |].
  - intros c' card Hc'. cbn. destruct (decide (c = c')) as [->|].
    + exists (f card). rewrite list_lookup_alter_eq, Hc'. split; [done|by apply Hf].
    + exists card. rewrite list_lookup_alter_ne by done. split; [done|apply card_step_refl].
  - intros _ [Hidn Hid Haccn Hacc Hbank ? ? ?].
    assert (∀ {X} (g : Card → X), (∀ card, card_heap W !! c = Some card → g (f card) = g card) →
              g <$> alter f c (card_heap W) = g <$> card_heap W) as Hmap.
    { intros X g Hg. apply list_eq. intros i. rewrite !list_lookup_fmap.
      destruct (decide (c = i)) as [->|].
      - rewrite list_lookup_alter_eq. destruct (card_heap W !! i) eqn:E; [|done].
        cbn. f_equal. by apply Hg.
      - by rewrite list_lookup_alter_ne. }
    assert (∀ P : Card → Prop, (∀ card, card_heap W !! c = Some card → P card → P (f card)) →
              Forall P (card_heap W) → Forall P (alter f c (card_heap W))) as Hall.
    { intros P HP HF. apply Forall_lookup. intros i x Hi.
      destruct (decide (c = i)) as [->|].
      - rewrite list_lookup_alter_eq in Hi. destruct (card_heap W !! i) eqn:E; [|done].
        cbn in Hi. simplify_eq. apply HP; [done|]. by apply (Forall_lookup_1 _ _ _ _ HF E).
      - rewrite list_lookup_alter_ne in Hi by done.
        by apply (Forall_lookup_1 _ _ _ _ HF Hi). }
    constructor; cbn; try done.
    + rewrite Hmap; [done|]. intros card Hc. by destruct (Hf card Hc) as [(?&?&?&?) ?].
    + apply Hall; [|done]. intros card Hc. destruct (Hf card Hc) as [(?&?&->&?) ?]. done.
    + rewrite Hmap; [done|]. intros card Hc. by destruct (Hf card Hc) as [(?&?&?&?) ?].
    + apply Hall; [|done]. intros card Hc. destruct (Hf card Hc) as [(?&->&?&?) ?]. done.
    + apply Hall; [|done]. intros card Hc. destruct (Hf card Hc) as [(?&?&?&?&?&?&->) ?].
      done.
Qed.

Lemma follows_update_account w W a f :
  follows w W →
  (∀ acc, account_heap W !! a = Some acc → not_negative (Account.balance acc) →
          not_negative (Account.balance (f acc))) →
  follows w (update_account a f W).
Proof.
  intros H Hf. eapply follows_step; [done|by apply evolves_same_cards|].
  intros _ [? ? ? ? ? Hbal ? ?]. constructor; cbn; try done.
  - by rewrite length_alter.
  - apply Forall_lookup. intros i x Hi.
    destruct (decide (a = i)) as [->|].
    + rewrite list_lookup_alter_eq in Hi. destruct (account_heap W !! i) eqn:E; [|done].
      cbn in Hi. simplify_eq. apply Hf; [done|].
      by apply (Forall_lookup_1 _ _ _ _ Hbal E).
    + rewrite list_lookup_alter_ne in Hi by done.
      by apply (Forall_lookup_1 _ _ _ _ Hbal Hi).
Qed.

Lemma follows_push_account w W acc :
  follows w W → not_negative (Account.balance acc) →
  follows w (Bank.push_account acc W).
Proof.
  intros H Hacc. eapply follows_step; [done|by apply evolves_same_cards|].
  intros _ [? ? ? Hl ? ? ? ?]. constructor; try done; cbn.
  - eapply Forall_impl; [exact Hl|]. cbn. intros card (a & ? & ?). exists a.
    rewrite length_app. cbn. split; [done|lia].
  - apply Forall_app. split; [done|]. by apply Forall_singleton.
Qed.

Lemma follows_push_card w W card :
  follows w W →
  (wf w → wf W →
   (card_id card ∉ (card_id <$> card_heap W))
   ∧ (card_id card < _card_seq (the_bank W))%N
   ∧ (account card ∉ (account <$> card_heap W))
   ∧ (∃ a, account card = Some a ∧ (a < length (account_heap W))%nat)
   ∧ bank card = Some ()) →
  follows w (Bank.push_card card W).
Proof.
  intros H Hk. eapply follows_step; [done| |].
  - intros c card' Hc. exists card'. cbn. rewrite lookup_app_l.
    + split; [done|apply card_step_refl].
    + by eapply lookup_lt_Some.
  - intros Hw HW. destruct (Hk Hw HW) as (Hid & Hlt & Hacc & Hlinked & Hbank). destruct HW.
    constructor; try done; cbn; rewrite ?fmap_app; cbn.
    + apply NoDup_app. split; [done|]. split; [|apply NoDup_singleton].
      intros x Hx ->%list_elem_of_singleton. done.
    + apply Forall_app. split; [done|]. by apply Forall_singleton.
    + apply NoDup_app. split; [done|]. split; [|apply NoDup_singleton].
      intros x Hx ->%list_elem_of_singleton. done.
    + apply Forall_app. split; [done|]. by apply Forall_singleton.
    + apply Forall_app. split; [done|]. by apply Forall_singleton.
Qed.
End ElementarySteps.

Ltac follows_step :=
  lazymatch goal with
  | |- follows ?w ?w => apply follows_refl
  | |- follows _ (set_TIMESTAMP_GENERATOR _ _) => apply follows_set_TIMESTAMP_GENERATOR
  | |- follows _ (set_ISSUE_DATE_GENERATOR _ _) => apply follows_set_ISSUE_DATE_GENERATOR
  | |- follows _ (log_error _ _) => apply follows_log_error
  | |- follows _ (update_bank _ _) => apply follows_update_bank
  | |- follows _ (update_card _ _ _) => apply follows_update_card
  | |- follows _ (update_account _ _ _) => apply follows_update_account
  | |- follows _ (Bank.push_account _ _) => apply follows_push_account
  | |- follows _ (Bank.push_card _ _) => apply follows_push_card
  end.

(** The side conditions of an update of a card or of an account. *)
Ltac side_card :=
  let Hc := fresh in
  intros ? Hc; cbn in Hc; simplify_eq;
  first [ apply card_step_transactions | by apply card_step_block | apply card_step_close ].

Ltac side_account :=
  let Hacc := fresh in
  let Hnn := fresh in
  intros ? Hacc Hnn; cbn in Hacc; simplify_eq;
  cbn [add_balance sub_balance add_cashback_balance Account.set_balance
       Account.set_cashback_balance Account.balance];
  first [ done
        | apply add_not_negative; [done|];
          first [ by apply positive_not_negative
                | apply round2_not_negative, mul_not_negative; done ]
        | by apply sub_not_negative ].

(** Python dicts *)
Section DictFacts.
Context {V : Type}.
Implicit Types (d : dict V).

Lemma dict_alter_keys (f : V → V) k d : (dict_alter f k d).*1 = d.*1.
Proof.
  induction d as [|[k' v] d IH]; [done|].
  cbn. case_decide; cbn; [done|]. by rewrite IH.
Qed.

Lemma dict_set_keys_fresh k (v : V) d : k ∉ d.*1 → (dict_set k v d).*1 = d.*1 ++ [k].
Proof.
  induction d as [|[k' v'] d IH]; [done|].
  cbn. intros [? ?]%not_elem_of_cons. case_decide; [done|]. cbn. by rewrite IH.
Qed.


Lemma dict_lookup_alter_eq (f : V → V) k d :
  dict_lookup k (dict_alter f k d) = f <$> dict_lookup k d.
Proof.
  induction d as [|[k' v] d IH]; [done|].
  cbn. case_decide; cbn; case_decide; try done.
Qed.

Lemma dict_lookup_alter_ne (f : V → V) k k' d :
  k ≠ k' → dict_lookup k' (dict_alter f k d) = dict_lookup k' d.
Proof.
  intros Hk. induction d as [|[k'' v] d IH]; [done|].
  cbn. case_decide; cbn; case_decide; simplify_eq; done.
Qed.

Lemma dict_lookup_set_eq k (v : V) d : dict_lookup k (dict_set k v d) = Some v.
Proof.
  induction d as [|[k' v'] d IH]; cbn; [by case_decide|].
  case_decide; cbn; case_decide; try done.
Qed.

End DictFacts.

Lemma fresh_user_id w : wf w → _user_seq (the_bank w) ∉ (customers (the_bank w)).*1.
Proof.
  intros [? ? ? ? ? ? ? Hb] Hin.
  pose proof (proj1 (Forall_forall _ _) Hb _ Hin) as Hlt. cbn in Hlt. lia.
Qed.

Lemma fresh_card_id w : wf w → _card_seq (the_bank w) ∉ card_id <$> card_heap w.
Proof.
  intros [? Hb ? ? ? ? ? ?] (card & Heq & Hin)%list_elem_of_fmap.
  pose proof (proj1 (Forall_forall _ _) Hb _ Hin) as Hlt. cbn in Hlt. lia.
Qed.

Lemma fresh_account w : wf w → Some (length (account_heap w)) ∉ account <$> card_heap w.
Proof.
  intros [? ? ? Hl ? ? ? ?] (card & Heq & Hin)%list_elem_of_fmap.
  pose proof (proj1 (Forall_forall _ _) Hl _ Hin) as (a & Ha & Hlt). cbn in *.
  rewrite Ha in Heq. simplify_eq. lia.
Qed.

Lemma bank_step_intro W b' :
  wf W →
  (_card_seq (the_bank W) ≤ _card_seq b')%N →
  customers b' = customers (the_bank W) →
  (_user_seq (the_bank W) ≤ _user_seq b')%N →
  bank_step (the_bank W) b'.
Proof.
  intros [? ? ? ? ? ? Hnd Hb] Hc Hcust Hu. unfold bank_step. rewrite Hcust.
  split; [done|]. split; [done|].
  eapply Forall_impl; [exact Hb|]. cbn. intros. lia.
Qed.

Lemma bank_step_alter_customers W f k :
  wf W →
  bank_step (the_bank W)
    (set_customers (dict_alter f k (customers (the_bank W))) (the_bank W)).
Proof.
  intros [? ? ? ? ? ? Hnd Hb]. unfold bank_step. cbn. rewrite dict_alter_keys.
  by repeat split.
Qed.

Lemma bank_step_new_customer w W k user :
  wf w → wf W →
  customers (the_bank W) = customers (the_bank w) →
  k = _user_seq (the_bank w) →
  (k < _user_seq (the_bank W))%N →
  bank_step (the_bank W)
    (set_customers (dict_set k user (customers (the_bank W))) (the_bank W)).
Proof.
  intros Hw [? ? ? ? ? ? Hnd Hb] Hcust -> Hlt. unfold bank_step. cbn.
  pose proof (fresh_user_id _ Hw) as Hfresh. rewrite <- Hcust in Hfresh.
  rewrite dict_set_keys_fresh by done.
  split; [done|]. split.
  - apply NoDup_app. split; [done|]. split; [|apply NoDup_singleton].
    intros x Hx ->%list_elem_of_singleton. done.
  - apply Forall_app. split; [done|]. by apply Forall_singleton.
Qed.

Lemma fresh_for_intro w W cid a :
  wf w →
  card_heap W = card_heap w →
  cid = _card_seq (the_bank w) →
  a = length (account_heap w) →
  (cid < _card_seq (the_bank W))%N →
  (a < length (account_heap W))%nat →
  fresh_for W cid a.
Proof.
  intros Hw Hh -> -> Hlt Hlen. unfold fresh_for. rewrite Hh.
  split; [by apply fresh_card_id|]. split; [done|]. split; [by apply fresh_account|done].
Qed.

Lemma new_card_side w W W' (card : Card) account_ :
  follows w W →
  (wf w → wf W → fresh_for W (card_id card) account_) →
  account card = Some account_ → bank card = Some () →
  card_heap W' = card_heap W → the_bank W' = the_bank W →
  account_heap W' = account_heap W →
  wf w → wf W' →
  (card_id card ∉ (card_id <$> card_heap W'))
  ∧ (card_id card < _card_seq (the_bank W'))%N
  ∧ (account card ∉ (account <$> card_heap W'))
  ∧ (∃ a, account card = Some a ∧ (a < length (account_heap W'))%nat)
  ∧ bank card = Some ().
Proof.
  intros [_ HF] Hpre Ha Hb -> -> -> Hw _.
  destruct (Hpre Hw (HF Hw)) as (? & ? & ? & ?). rewrite Ha.
  repeat split; try done. by eexists.
Qed.

Ltac bank_seq_subst :=
  lazymatch goal with
  | |- context [set_card_seq (N.succ ?a)] => subst a
  | |- context [set_user_seq (N.succ ?a)] => subst a
  | _ => idtac
  end.

Ltac side_bank :=
  let Hw := fresh "Hw" in
  let HW := fresh "HW" in
  intros Hw HW; cbn beta;
  lazymatch goal with
  | |- bank_step _ (set_customers (dict_set _ _ _) _) =>
      eapply bank_step_new_customer;
      [exact Hw|exact HW|reflexivity|eassumption|cbn; lia]
  | |- bank_step _ (set_customers (dict_alter _ _ _) _) =>
      apply bank_step_alter_customers, HW
  | |- bank_step _ _ =>
      bank_seq_subst;
      apply bank_step_intro; [exact HW|cbn; lia|reflexivity|cbn; lia]
  end.

Ltac side extra :=
  lazymatch goal with
  | |- ∀ card, card_heap _ !! _ = Some card → _ => side_card
  | |- ∀ acc, account_heap _ !! _ = Some acc → _ => side_account
  | |- not_negative _ => cbn; apply not_negative_zero
  | |- wf _ → wf _ → bank_step _ _ => side_bank
  | |- _ => extra
  end.

(** Forward execution: [follows w W] is kept for the current state [W]
    and re-established after every step that changes the state. *)
Ltac follows_close extra :=
  first [ eassumption | follows_step; first [ eassumption | side extra ] ].

Ltac follows_sync extra :=
  lazymatch goal with
  | HF : follows ?w ?W |- wp _ _ ?W => idtac
  | HF : follows ?w _ |- wp _ _ ?W' =>
      let H := fresh "HF" in
      assert (follows w W') as H by follows_close extra; clear HF
  | |- follows _ _ => follows_close extra
  | _ => idtac
  end.

Ltac follows_run_with extra := repeat (wp_step; follows_sync extra).
Ltac follows_run := follows_run_with fail.
Ltac follows_start :=
  lazymatch goal with
  | |- wp _ (λ w' _, follows ?w w') ?w =>
      let HF := fresh "HF" in pose proof (follows_refl w) as HF
  end.

Section CardSteps.
Context {U : UnicodeDB}.

Lemma get_balance_follows w self :
  wp (Card.get_balance self) (λ w' _, follows w w') w.
Proof. unfold Card.get_balance. follows_start. follows_run. Qed.

Lemma get_card_info_follows w self fields :
  wp (Card.get_card_info self fields) (λ w' _, follows w w') w.
Proof. unfold Card.get_card_info. follows_start. follows_run. Qed.

Lemma deposit_follows w self amount :
  wp (Card.deposit self amount) (λ w' _, follows w w') w.
Proof. unfold Card.deposit. follows_start. follows_run. Qed.

Lemma transfer_follows w self to_card amount :
  wp (Card.transfer self to_card amount) (λ w' _, follows w w') w.
Proof. unfold Card.transfer. follows_start. follows_run. Qed.

Lemma base_pay_follows w self amount mcc :
  wp (Card.base_pay self amount mcc) (λ w' _, follows w w') w.
Proof. unfold Card.base_pay. follows_start. follows_run. Qed.

Lemma cashback_pay_follows w rate self amount mcc :
  wp (Card.cashback_pay rate self amount mcc) (λ w' _, follows w w') w.
Proof. unfold Card.cashback_pay. follows_start. follows_run. Qed.

Lemma pay_follows w self amount mcc :
  wp (Card.pay self amount mcc) (λ w' _, follows w w') w.
Proof.
  unfold Card.pay. wp_step. wp_step; [|apply follows_refl].
  destruct (cls card).
  - apply base_pay_follows.
  - apply base_pay_follows.
  - apply cashback_pay_follows.
  - apply wp_raise, follows_refl.
Qed.

Lemma accrue_interest_follows w self :
  wp (Card.accrue_interest self) (λ w' _, follows w w') w.
Proof. unfold Card.accrue_interest. follows_start. follows_run. Qed.

Lemma get_transaction_history_follows w self :
  wp (Card.get_transaction_history self) (λ w' _, follows w w') w.
Proof. unfold Card.get_transaction_history. follows_start. follows_run. Qed.

Lemma close_follows w self : wp (Card.close self) (λ w' _, follows w w') w.
Proof. unfold Card.close. follows_start. follows_run. Qed.
End CardSteps.

Section BankStepsU.
Context {U : UnicodeDB}.

Lemma next_account_number_follows w :
  wp Bank._next_account_number (λ w' _, follows w w') w.
Proof. unfold Bank._next_account_number. follows_start. follows_run. Qed.

Lemma generate_pan_follows w system :
  wp (Bank._generate_pan system) (λ w' _, follows w w') w.
Proof. unfold Bank._generate_pan. follows_start. follows_run. Qed.

Lemma get_global_history_follows w :
  wp Bank.get_global_history (λ w' _, follows w w') w.
Proof. unfold Bank.get_global_history. follows_start. follows_run. Qed.

Lemma change_pin_follows w k old_pin new_pin :
  wp (Bank.change_pin k old_pin new_pin) (λ w' _, follows w w') w.
Proof. unfold Bank.change_pin, Bank.modify_user. follows_start. follows_run. Qed.

Lemma new_card_follows w W card_class account_ card_id payment_system pan kwargs :
  follows w W →
  (wf w → wf W → fresh_for W card_id account_) →
  wp (Bank.new_card card_class account_ card_id payment_system pan kwargs)
    (λ w' _, follows w w') W.
Proof.
  intros HF0 Hpre. pose proof HF0 as HF. unfold Bank.new_card.
  follows_run_with ltac:(eapply new_card_side; [exact HF0|exact Hpre|reflexivity..]).
Qed.

Lemma apply_for_card_follows w last_name first_name pin phone payment_system card_class kwargs :
  wp (Bank.apply_for_card last_name first_name pin phone payment_system card_class kwargs)
    (λ w' _, follows w w') w.
Proof.
  unfold Bank.apply_for_card, Bank._next_account_number, Bank._generate_pan,
    Bank.accounts_append, Bank.cards_append, Bank.modify_user.
  follows_start. follows_run.
  all: (eapply wp_mono;
        [ apply new_card_follows;
          [ eassumption
          | intros Hw _; eapply (fresh_for_intro _ _ _ _ Hw);
            [ reflexivity | eassumption | eassumption | subst; cbn; lia
            | subst; cbn; rewrite length_app; cbn; lia ] ]
        | ]).
  all: clear HF; intros w' r HF; destruct r; cbn beta iota; [|done..].
  all: follows_run.
Qed.
End BankStepsU.

(** ** Reachable states *)

Lemma wp_elim {A} (m : M A) (P : World → Prop) w : wp m (λ w' _, P w') w → P (m w).1.
Proof. done. Qed.

Lemma wp_intro {A} (m : M A) (Q : World → outcome A → Prop) w w' r :
  m w = (w', r) → wp m Q w → Q w' r.
Proof. unfold wp. by intros ->. Qed.

Section Reach.
Context {U : UnicodeDB}.

Lemma try_except_dec_follows {A} (m : M A) w :
  wp m (λ w' _, follows w w') w → follows w (try_except_dec m w).1.
Proof.
  intros H. apply (wp_elim (try_except_dec m) (follows w)), wp_try_except_dec.
  eapply wp_mono; [exact H|]. intros w' [a|c e|e] HF; [done| |done].
  by apply follows_log_error.
Qed.

Lemma perform_follows (c : Call) (w : World) : follows w (perform c w).
Proof.
  destruct c; cbn [perform].
  - apply try_except_dec_follows, apply_for_card_follows.
  - apply (wp_elim _ (follows w)), get_global_history_follows.
  - apply (wp_elim _ (follows w)), next_account_number_follows.
  - apply (wp_elim _ (follows w)), generate_pan_follows.
  - apply try_except_dec_follows, get_balance_follows.
  - apply try_except_dec_follows, get_card_info_follows.
  - apply try_except_dec_follows, deposit_follows.
  - apply try_except_dec_follows, transfer_follows.
  - apply try_except_dec_follows, pay_follows.
  - apply try_except_dec_follows, accrue_interest_follows.
  - apply try_except_dec_follows, get_transaction_history_follows.
  - apply (wp_elim _ (follows w)), close_follows.
  - apply try_except_dec_follows, change_pin_follows.
Qed.

Lemma wf_new name bic issue_gen ts_gen log : wf (Bank.new name bic issue_gen ts_gen log).
Proof. constructor; cbn; constructor. Qed.

Lemma reachable_wf w : reachable w → wf w.
Proof.
  induction 1 as [|w c _ IH]; [apply wf_new|].
  by apply (perform_follows c w).
Qed.

Lemma perform_all_evolves calls w : evolves w (perform_all calls w).
Proof.
  revert w. induction calls as [|c calls IH]; intros w; [apply evolves_refl|].
  eapply evolves_trans; [apply (perform_follows c w)|apply IH].
Qed.

Lemma reachable_perform_all calls w : reachable w → reachable (perform_all calls w).
Proof.
  revert w. induction calls as [|c calls IH]; intros w Hw; [done|].
  apply IH. by constructor.
Qed.
End Reach.

(** ** The card operations *)

Lemma demo_world_reachable : reachable (U := ascii_only) Demo.world.
Proof.
  change Demo.world with (perform_all (U := ascii_only) Demo.calls Demo.bank0).
  apply reachable_perform_all. constructor.
Qed.

Lemma wp_eq {A} (m : M A) w w' r : wp m (λ w'' r', w'' = w' ∧ r' = r) w → m w = (w', r).
Proof. unfold wp. destruct (m w) as [w1 r1]. cbn. by intros [-> ->]. Qed.

Ltac status_known :=
  repeat match goal with
  | H : closed_or_blocked (status ?c) = _, H' : status ?c = _ |- _ =>
      rewrite H' in H; cbn in H
  end.
(** The outcome and the state of a call whose checks are decided by the
    hypotheses. *)
Ltac wp_exact :=
  apply wp_eq; wp_run; simplify_eq/=; status_known; try done; try congruence;
  try by (exfalso; case_bool_decide; congruence).

Lemma next_timestamp_loop_failure w issue_date gen' r :
  ¬ timestamps_left w issue_date →
  next_timestamp_loop (Z.to_nat (issue_date + 1 - Z.of_N (TIMESTAMP_GENERATOR w)))
    (TIMESTAMP_GENERATOR w) issue_date = (gen', r) →
  gen' = after_failure (N.max (TIMESTAMP_GENERATOR w) (Z.to_N (LAST_DAY + 1)))
  ∧ r = Uncaught (draw_error w).
Proof.
  intros Hno. rewrite next_timestamp_loop_exit by lia. cbn zeta.
  rewrite (proj2 (Z.leb_gt _ _)) by (unfold timestamps_left in Hno; lia).
  by intros [= <- <-].
Qed.

Ltac stamp_failed :=
  repeat match goal with
  | Hno : ¬ timestamps_left ?w ?d, H : next_timestamp_loop _ (TIMESTAMP_GENERATOR ?w) ?d = _
    |- _ =>
      apply (next_timestamp_loop_failure w d _ _ Hno) in H as [? ?]
  end.

Ltac stamp_known :=
  repeat match goal with
  | H : next_timestamp_loop _ _ _ = (_, Return _) |- _ =>
      apply next_timestamp_loop_return in H as (-> & -> & ?)
  | H : next_timestamp_loop _ _ _ = (_, Uncaught _) |- _ =>
      apply next_timestamp_loop_uncaught in H as [? ?]
  end.

(** As [wp_exact], for a call that draws a timestamp. *)
Ltac wp_settle :=
  apply wp_eq; wp_run; simplify_eq/=; status_known; stamp_failed; stamp_known;
  simplify_eq/=; try done; try congruence;
  try (by (exfalso; case_bool_decide; congruence));
  try (exfalso; unfold timestamps_left in *;
       repeat match goal with x := _ |- _ => subst x end; lia).

Lemma decorated_raise {A} (m : M A) w w' c e :
  m w = (w', Raise c e) → try_except_dec m w = (log_error e w', Return None).
Proof. unfold try_except_dec. by intros ->. Qed.

Lemma decorated_return {A} (m : M A) w w' a :
  m w = (w', Return a) → try_except_dec m w = (w', Return (Some a)).
Proof. unfold try_except_dec. by intros ->. Qed.

Lemma alter_insert {A} (f : A → A) (l : list A) i x :
  l !! i = Some x → alter f i l = <[i := f x]> l.
Proof.
  revert i. induction l as [|y l IH]; intros [|i] H; simplify_eq/=; [done|].
  f_equal. by apply IH.
Qed.

Section CardClaims.
Context {U : UnicodeDB}.

(** *** Rejections that change nothing *)

Lemma saving_pay_rejected w self card rate amt code :
  card_heap w !! self = Some card →
  cls card = ClsSavingCard rate →
  Card.pay self amt code w = (w, Raise BusinessRuleError PAYMENT_NOT_ALLOWED_FOR_SAVING).
Proof. intros Hc Hcls. unfold Card.pay, bind, deref_card. by rewrite Hc, Hcls. Qed.

Lemma transfer_same_id w self dst card dst_card a dst_a amt :
  card_heap w !! self = Some card →
  card_heap w !! dst = Some dst_card →
  card_id dst_card = card_id card →
  account card = Some a →
  account dst_card = Some dst_a →
  status card = ACTIVE →
  status dst_card = ACTIVE →
  (amt <=? 0)%float = false →
  Card.transfer self (Some dst) amt w = (w, Raise BusinessRuleError TRANSFER_TO_SELF).
Proof. intros. unfold Card.transfer. wp_exact. Qed.

Lemma transfer_nonpositive w self dst card amt :
  card_heap w !! self = Some card →
  (amt <=? 0)%float = true →
  Card.transfer self dst amt w = (w, Raise ValidationError AMOUNT_NEGATIVE).
Proof. intros. unfold Card.transfer. wp_exact. Qed.

Lemma deposit_nonpositive w self card amt :
  card_heap w !! self = Some card →
  (amt <=? 0)%float = true →
  Card.deposit self amt w = (w, Raise ValidationError DEPOSIT_AMOUNT_NEGATIVE).
Proof. intros. unfold Card.deposit. wp_exact. Qed.

Lemma deposit_not_active w self card a amt :
  card_heap w !! self = Some card →
  account card = Some a →
  status card ≠ ACTIVE →
  (amt <=? 0)%float = false →
  Card.deposit self amt w = (w, Raise AccessError CARD_CLOSED).
Proof.
  intros Hc Ha Hs Hamt. unfold Card.deposit. wp_exact.
  all: by destruct (status card).
Qed.

Lemma deposit_over_limit w self card a amt :
  card_heap w !! self = Some card →
  account card = Some a →
  status card = ACTIVE →
  (DEPOSIT_LIMIT <? amt)%float = true →
  Card.deposit self amt w
  = (update_card self (set_status BLOCKED) w, Raise BusinessRuleError DEPOSIT_LIMIT_EXCEEDED).
Proof.
  intros Hc Ha Hs Hamt.
  assert ((amt <=? 0)%float = false) by by apply (above_limit_positive DEPOSIT_LIMIT).
  unfold Card.deposit. wp_exact.
Qed.

(** *** Debits without funds *)





(** *** A transfer that goes through *)

Lemma transfer_accepted w self dst card dst_card a dst_a acc amt :
  card_heap w !! self = Some card →
  card_heap w !! dst = Some dst_card →
  card_id card ≠ card_id dst_card →
  account card = Some a →
  account dst_card = Some dst_a →
  status card = ACTIVE →
  status dst_card = ACTIVE →
  bank card = Some () →
  account_heap w !! a = Some acc →
  (amt <=? 0)%float = false →
  (TRANSFER_LIMIT <? amt)%float = false →
  (Account.balance acc <? amt)%float = false →
  let latest_issue := issue_date card `max` issue_date dst_card in
  timestamps_left w latest_issue →
  let trans := transfer_transaction card dst_card amt (stamp w latest_issue) in
  Card.transfer self (Some dst) amt w
  = (update_card dst (append_transaction trans)
       (update_card self (append_transaction trans)
          (update_bank (λ b, set_transaction_log (transaction_log b ++ [trans]) b)
             (update_account dst_a (add_balance amt)
                (update_account a (sub_balance amt)
                   (set_TIMESTAMP_GENERATOR
                      (N.succ (first_later (TIMESTAMP_GENERATOR w) latest_issue)) w))))),
     Return ()).
Proof. intros. unfold Card.transfer. wp_settle. Qed.

(** *** Status over a run of calls *)

Lemma status_after_calls calls w c card :
  card_heap w !! c = Some card →
  ∃ card', card_heap (perform_all calls w) !! c = Some card'
           ∧ same_card card card'
           ∧ transition_ok (status card) (status card').
Proof.
  intros Hc. destruct (perform_all_evolves calls w c card Hc) as (card' & Hc' & S & T).
  by exists card'.
Qed.
End CardClaims.

Lemma wf_distinct_cards w c1 c2 card1 card2 :
  wf w → c1 ≠ c2 →
  card_heap w !! c1 = Some card1 → card_heap w !! c2 = Some card2 →
  card_id card1 ≠ card_id card2 ∧ account card1 ≠ account card2 ∧ bank card1 = Some ().
Proof.
  intros [Hid _ Hacc _ Hbank _ _ _] Hne H1 H2. repeat split.
  - intros Heq. apply Hne.
    apply (NoDup_lookup _ _ _ (card_id card1) Hid); rewrite list_lookup_fmap.
    + by rewrite H1.
    + by rewrite H2, Heq.
  - intros Heq. apply Hne.
    apply (NoDup_lookup _ _ _ (account card1) Hacc); rewrite list_lookup_fmap.
    + by rewrite H1.
    + by rewrite H2, Heq.
  - apply (Forall_lookup_1 _ _ _ _ Hbank H1).
Qed.

Section Claims.
Context {U : UnicodeDB}.

(** C1, amended: between two distinct Active cards of a reachable
    state, each with its account, while the timestamp generator has a
    day left after both issue dates, a transfer of [amt] with
    [0 < amt <= TRANSFER_LIMIT] and [amt <= balance] returns, also
    through its decorator; the sender's balance becomes the float
    [balance - amt] and the recipient's the float [balance + amt], one
    transfer transaction naming both cards, stamped with the first
    timestamp after both issue dates, is appended to both cards' lists
    and to the bank's log, and the accounts, cards and bank record are
    otherwise as before. *)
Theorem transfer_between_active_cards w self dst card dst_card a dst_a acc dst_acc amt :
  reachable w →
  self ≠ dst →
  card_heap w !! self = Some card →
  card_heap w !! dst = Some dst_card →
  status card = ACTIVE →
  status dst_card = ACTIVE →
  account card = Some a →
  account dst_card = Some dst_a →
  account_heap w !! a = Some acc →
  account_heap w !! dst_a = Some dst_acc →
  (0 <? amt)%float = true →
  (amt <=? TRANSFER_LIMIT)%float = true →
  (amt <=? Account.balance acc)%float = true →
  timestamps_left w (issue_date card `max` issue_date dst_card) →
  ∃ w',
    let ts := stamp w (issue_date card `max` issue_date dst_card) in
    let trans := transfer_transaction card dst_card amt ts in
    Card.transfer self (Some dst) amt w = (w', Return ())
    ∧ try_except_dec (Card.transfer self (Some dst) amt) w = (w', Return (Some ()))
    ∧ a ≠ dst_a
    ∧ account_heap w'
      = <[dst_a := add_balance amt dst_acc]> (<[a := sub_balance amt acc]> (account_heap w))
    ∧ Account.balance (sub_balance amt acc) = (Account.balance acc - amt)%float
    ∧ Account.balance (add_balance amt dst_acc) = (Account.balance dst_acc + amt)%float
    ∧ issue_date card < dt_date ts ∧ issue_date dst_card < dt_date ts
    ∧ card_heap w'
      = <[dst := append_transaction trans dst_card]>
          (<[self := append_transaction trans card]> (card_heap w))
    ∧ the_bank w'
      = set_transaction_log (transaction_log (the_bank w) ++ [trans]) (the_bank w)
    ∧ error_log w' = error_log w.
Proof.
  intros Hw Hne Hc Hd Hs Hds Ha Hda Hacc Hdacc Hpos Hlim Hfunds Hleft.
  apply reachable_wf in Hw.
  destruct (wf_distinct_cards w self dst card dst_card Hw Hne Hc Hd) as (Hid & Hnacc & Hb).
  assert (a ≠ dst_a) as Hane by congruence.
  pose proof (transfer_accepted w self dst card dst_card a dst_a acc amt
                Hc Hd Hid Ha Hda Hs Hds Hb Hacc (ltb_leb_false _ _ Hpos)
                (leb_ltb_false _ _ Hlim) (leb_ltb_false _ _ Hfunds) Hleft) as Hrun.
  eexists. cbn zeta. split; [exact Hrun|].
  split; [by apply decorated_return|]. split; [done|]. cbn. repeat split.
  - rewrite (alter_insert _ _ a acc) by done.
    apply alter_insert. by rewrite list_lookup_insert_ne.
  - unfold first_later. lia.
  - unfold first_later. lia.
  - rewrite (alter_insert _ _ self card) by done.
    apply alter_insert. by rewrite list_lookup_insert_ne.
Qed.

(** C2, amended: a deposit above [DEPOSIT_LIMIT] on an Active card with
    an account raises [BusinessRuleError] and only sets the card's
    status to Blocked (no account, no ledger and no transaction list
    changes); whatever calls follow, a later deposit on that card raises
    [AccessError] when its amount is not [<= 0], and [ValidationError]
    when it is. *)
Theorem deposit_over_limit_blocks w self card a amt :
  card_heap w !! self = Some card →
  status card = ACTIVE →
  account card = Some a →
  (DEPOSIT_LIMIT <? amt)%float = true →
  let w' := update_card self (set_status BLOCKED) w in
  Card.deposit self amt w = (w', Raise BusinessRuleError DEPOSIT_LIMIT_EXCEEDED)
  ∧ account_heap w' = account_heap w
  ∧ the_bank w' = the_bank w
  ∧ card_heap w' = <[self := set_status BLOCKED card]> (card_heap w)
  ∧ transactions (set_status BLOCKED card) = transactions card
  ∧ ∀ calls amt',
      let w'' := perform_all calls w' in
      Card.deposit self amt' w''
      = (w'', if (amt' <=? 0)%float
              then Raise ValidationError DEPOSIT_AMOUNT_NEGATIVE
              else Raise AccessError CARD_CLOSED).
Proof.
  intros Hc Hs Ha Hamt w'. split; [by eapply deposit_over_limit|].
  assert (card_heap w' = <[self := set_status BLOCKED card]> (card_heap w)) as Hh
    by by apply alter_insert.
  repeat split; [done|]. intros calls amt' w''.
  assert (card_heap w' !! self = Some (set_status BLOCKED card)) as Hc'.
  { rewrite Hh. apply list_lookup_insert_eq. by eapply lookup_lt_Some. }
  destruct (status_after_calls calls w' self _ Hc') as (card'' & Hc'' & Hsame & Ht).
  destruct (amt' <=? 0)%float eqn:Hamt'; [by eapply deposit_nonpositive|].
  eapply deposit_not_active; [exact Hc''| |..|done].
  - destruct Hsame as (_ & -> & _). exact Ha.
  - cbn in Ht. unfold transition_ok in Ht. intros Hact. rewrite Hact in Ht.
    intuition congruence.
Qed.

(** C3: over any sequence of public calls a card's status only moves
    along Active -> Blocked, Active -> Closed and Blocked -> Closed: a
    Closed card stays Closed and a Blocked card never becomes Active. *)
Theorem status_transitions_one_way calls w c card :
  card_heap w !! c = Some card →
  ∃ card',
    card_heap (perform_all calls w) !! c = Some card'
    ∧ transition_ok (status card) (status card')
    ∧ (status card = CLOSED → status card' = CLOSED)
    ∧ (status card = BLOCKED → status card' ≠ ACTIVE).
Proof.
  intros Hc. destruct (status_after_calls calls w c card Hc) as (card' & Hc' & _ & Ht).
  exists card'. unfold transition_ok in *. intuition congruence.
Qed.


(** C8, amended: on an Active card with an account, a transfer to a
    card with the same card id (the card itself or another object),
    also Active and with an account, raises [BusinessRuleError] with the
    self-transfer message and changes nothing, whatever the balance,
    when the amount is not [<= 0]; when it is, the call raises
    [ValidationError] instead. *)
Theorem transfer_to_self_rejected w self dst card dst_card a dst_a amt :
  card_heap w !! self = Some card →
  card_heap w !! dst = Some dst_card →
  card_id dst_card = card_id card →
  account card = Some a →
  account dst_card = Some dst_a →
  status card = ACTIVE →
  status dst_card = ACTIVE →
  Card.transfer self (Some dst) amt w
  = (w, if (amt <=? 0)%float
        then Raise ValidationError AMOUNT_NEGATIVE
        else Raise BusinessRuleError TRANSFER_TO_SELF).
Proof.
  intros. destruct (amt <=? 0)%float eqn:Hamt.
  - by eapply transfer_nonpositive.
  - by eapply transfer_same_id.
Qed.

(** C9: [pay] on a SavingCard raises [BusinessRuleError] with the
    saving-card message for every amount and code, and the state after
    the call is the state before it; behind the decorator only the
    message is logged. *)
Theorem saving_card_pay_rejected w self card rate amt code :
  card_heap w !! self = Some card →
  cls card = ClsSavingCard rate →
  Card.pay self amt code w = (w, Raise BusinessRuleError PAYMENT_NOT_ALLOWED_FOR_SAVING)
  ∧ account_heap (perform (call_pay self amt code) w) = account_heap w
  ∧ card_heap (perform (call_pay self amt code) w) = card_heap w
  ∧ the_bank (perform (call_pay self amt code) w) = the_bank w.
Proof.
  intros Hc Hcls. pose proof (saving_pay_rejected w self card rate amt code Hc Hcls) as H.
  split; [exact H|]. cbn [perform].
  by rewrite (decorated_raise _ _ _ _ _ H).
Qed.
End Claims.

(** ** The claims at work on a small bank *)

Lemma transfer_between_active_cards_witness :
  ∃ w',
    Card.transfer 0 (Some 1%nat) 250 Demo.world = (w', Return ())
    ∧ Account.balance <$> account_heap w' = [750%float; 250%float]
    ∧ transaction_log (the_bank w')
      = transaction_log (the_bank Demo.world)
        ++ [mk_Transaction (Some 1%N) (Some 2%N) 250 TRANSFER None
              (TRANSFER_DESCRIPTION 250 1 2) (mk_datetime 2 15 14 22) 0%float].
Proof.
  destruct (transfer_between_active_cards (U := ascii_only) Demo.world 0 1 _ _ _ _ _ _ 250
              demo_world_reachable ltac:(lia) eq_refl eq_refl eq_refl eq_refl eq_refl eq_refl
              eq_refl eq_refl eq_refl eq_refl eq_refl ltac:(by vm_compute))
    as (w' & Hrun & _ & _ & Hacc & _ & _ & _ & _ & _ & Hbank & _).
  exists w'. split; [exact Hrun|]. split; [by rewrite Hacc|by rewrite Hbank].
Defined.

(** The claim as worded fails where the float [balance - amt] is the
    balance itself: in a state a bank reaches, a transfer of 0.5 from an
    account that holds 45719495497869488 returns and leaves that balance
    as it was, while the recipient gains the 0.5. *)
Lemma transfer_keeps_sender_balance :
  reachable (U := ascii_only) Big.world
  ∧ ∃ card dst_card acc dst_acc w',
      card_heap Big.world !! 0%nat = Some card
      ∧ card_heap Big.world !! 1%nat = Some dst_card
      ∧ status card = ACTIVE ∧ status dst_card = ACTIVE
      ∧ account card = Some 0%nat ∧ account dst_card = Some 1%nat
      ∧ account_heap Big.world !! 0%nat = Some acc
      ∧ account_heap Big.world !! 1%nat = Some dst_acc
      ∧ (0 <? 0.5)%float = true
      ∧ (0.5 <=? TRANSFER_LIMIT)%float = true
      ∧ (0.5 <=? Account.balance acc)%float = true
      ∧ Card.transfer 0 (Some 1%nat) 0.5 Big.world = (w', Return ())
      ∧ Account.balance <$> account_heap w' !! 0%nat = Some (Account.balance acc)
      ∧ Account.balance <$> account_heap w' !! 1%nat
        = Some (Account.balance dst_acc + 0.5)%float
      ∧ (Account.balance dst_acc <? Account.balance dst_acc + 0.5)%float = true.
Proof.
  split; [apply reachable_perform_all; constructor|].
  do 5 eexists. by vm_compute.
Qed.

Lemma deposit_over_limit_blocks_witness :
  Card.deposit 0 2000000 Demo.world
  = (update_card 0 (set_status BLOCKED) Demo.world,
     Raise BusinessRuleError DEPOSIT_LIMIT_EXCEEDED)
  ∧ (Card.deposit 0 10
       (perform_all (U := ascii_only) [call_get_balance 0; call_close 0]
          (update_card 0 (set_status BLOCKED) Demo.world))).2
    = Raise AccessError CARD_CLOSED.
Proof.
  destruct (deposit_over_limit_blocks (U := ascii_only) Demo.world 0 _ _ 2000000
              eq_refl eq_refl eq_refl eq_refl) as (Hrun & _ & _ & _ & _ & Hnext).
  split; [exact Hrun|].
  by rewrite (Hnext [call_get_balance 0; call_close 0] 10%float).
Defined.

(** The claim as worded fails for a later deposit of [-1]. *)
Lemma deposit_after_block_not_access_error :
  ∃ card, card_heap Demo.world !! 0%nat = Some card
    ∧ status card = ACTIVE
    ∧ account card = Some 0%nat
    ∧ (DEPOSIT_LIMIT <? 2000000)%float = true
    ∧ (Card.deposit 0 2000000 Demo.world).2
      = Raise BusinessRuleError DEPOSIT_LIMIT_EXCEEDED
    ∧ (Card.deposit 0 (-1) (Card.deposit 0 2000000 Demo.world).1).2
      = Raise ValidationError DEPOSIT_AMOUNT_NEGATIVE.
Proof. eexists. split; [reflexivity|]. by vm_compute. Qed.

Lemma status_transitions_one_way_witness :
  ∃ card',
    card_heap (perform_all (U := ascii_only) [call_deposit 0 2000000; call_close 0]
                 Demo.world) !! 0%nat = Some card'
    ∧ status card' = CLOSED.
Proof.
  destruct (status_transitions_one_way (U := ascii_only)
              [call_deposit 0 2000000; call_close 0] Demo.world 0 _ eq_refl)
    as (card' & Hc & _ & _ & _).
  exists card'. split; [exact Hc|].
  vm_compute in Hc. by injection Hc as <-.
Defined.



(** A deposit of a NaN passes both checks of [deposit] (neither
    [nan <= 0] nor [nan > DEPOSIT_LIMIT] holds) and leaves a balance
    that is not a number. *)
Lemma deposit_nan_accepted :
  ∃ w', Card.deposit 0 nan Demo.world = (w', Return ())
        ∧ is_nan <$> (Account.balance <$> account_heap w' !! 0%nat) = Some true.
Proof. eexists. split; by vm_compute. Qed.

Lemma transfer_to_self_rejected_witness :
  Card.transfer 0 (Some 0%nat) 5000 Demo.world
  = (Demo.world, Raise BusinessRuleError TRANSFER_TO_SELF).
Proof.
  exact (transfer_to_self_rejected Demo.world 0 0 _ _ _ _ 5000
           eq_refl eq_refl eq_refl eq_refl eq_refl eq_refl eq_refl).
Defined.

(** The claim as worded fails for the amount [0]. *)
Lemma transfer_to_self_zero_amount :
  ∃ card, card_heap Demo.world !! 0%nat = Some card
    ∧ status card = ACTIVE
    ∧ account card = Some 0%nat
    ∧ Card.transfer 0 (Some 0%nat) 0 Demo.world
      = (Demo.world, Raise ValidationError AMOUNT_NEGATIVE).
Proof. eexists. split; [reflexivity|]. by vm_compute. Qed.

Lemma saving_card_pay_rejected_witness :
  Card.pay (U := ascii_only) 1 100 (lit "5411") Demo.world
  = (Demo.world, Raise BusinessRuleError PAYMENT_NOT_ALLOWED_FOR_SAVING).
Proof.
  exact (proj1 (saving_card_pay_rejected (U := ascii_only) Demo.world 1 _ _ 100 (lit "5411")
                  eq_refl eq_refl)).
Defined.

(** ** Issuing cards *)

Lemma customer_pins_alter f k d :
  (∀ u, User.pin (f u) = User.pin u) →
  ((λ kv : N * User.t, (kv.1, User.pin kv.2)) <$> dict_alter f k d)
  = ((λ kv : N * User.t, (kv.1, User.pin kv.2)) <$> d).
Proof.
  intros Hf. induction d as [|[k' u] d IH]; [done|].
  cbn. case_decide; cbn; [by rewrite Hf|by rewrite IH].
Qed.

Lemma cardholder_extend w w' c k cards' accounts' :
  card_heap w' = card_heap w ++ cards' →
  account_heap w' = account_heap w ++ accounts' →
  cardholder w c = Some k → cardholder w' c = Some k.
Proof.
  unfold cardholder. intros -> ->.
  destruct (card_heap w !! c) as [card|] eqn:Hc; [|done]. cbn.
  rewrite (lookup_app_l_Some _ _ _ _ Hc). cbn.
  destruct (account card) as [a|]; [|done]. cbn.
  destruct (account_heap w !! a) as [acc|] eqn:Ha; [|done].
  by rewrite (lookup_app_l_Some _ _ _ _ Ha).
Qed.

Lemma dict_set_fresh {V} k (v : V) d : k ∉ d.*1 → dict_set k v d = d ++ [(k, v)].
Proof.
  induction d as [|[k' v'] d IH]; [done|].
  cbn. intros [? ?]%not_elem_of_cons. case_decide; [done|]. by rewrite IH.
Qed.

Lemma dict_alter_last {V} (f : V → V) k v d :
  k ∉ d.*1 → dict_alter f k (d ++ [(k, v)]) = d ++ [(k, f v)].
Proof.
  induction d as [|[k' v'] d IH]; cbn; [by case_decide|].
  intros [? ?]%not_elem_of_cons. case_decide; [done|]. by rewrite IH.
Qed.

Section Issuing.
Context {U : UnicodeDB}.

Lemma find_user_elem phone last_name first_name d k u :
  Bank.find_user phone last_name first_name d = Some (k, u) →
  (k, u) ∈ d ∧ Bank.same_user phone last_name first_name u = true.
Proof.
  induction d as [|[k' u'] d IH]; [done|]. cbn.
  destruct (Bank.same_user phone last_name first_name u') eqn:E.
  - intros [= -> ->]. split; [by left|done].
  - intros [? ?]%IH. split; [by right|done].
Qed.

Lemma find_user_alter phone last_name first_name f k u d :
  NoDup d.*1 →
  Bank.find_user phone last_name first_name d = Some (k, u) →
  (∀ v, Bank.same_user phone last_name first_name (f v)
        = Bank.same_user phone last_name first_name v) →
  Bank.find_user phone last_name first_name (dict_alter f k d) = Some (k, f u).
Proof.
  intros Hnd Hfind Hf. induction d as [|[k' u'] d IH]; [done|].
  cbn in Hfind, Hnd |- *. apply NoDup_cons in Hnd as [Hk' Hnd].
  destruct (Bank.same_user phone last_name first_name u') eqn:E.
  - injection Hfind as -> ->. rewrite decide_True by done. cbn. by rewrite Hf, E.
  - destruct (find_user_elem _ _ _ _ _ _ Hfind) as [Hin _].
    assert (k' ≠ k) as Hne.
    { intros ->. apply Hk'. apply list_elem_of_fmap. by exists (k, u). }
    rewrite decide_False by done. cbn. rewrite E. by apply IH.
Qed.

Lemma find_user_last phone last_name first_name d k u :
  Bank.find_user phone last_name first_name d = None →
  Bank.same_user phone last_name first_name u = true →
  Bank.find_user phone last_name first_name (d ++ [(k, u)]) = Some (k, u).
Proof.
  intros Hnone Hu. induction d as [|[k' u'] d IH]; cbn in *; [by rewrite Hu|].
  destruct (Bank.same_user phone last_name first_name u'); [done|]. by apply IH.
Qed.

Lemma new_card_spec W card_class account_ cid payment_system pan_ kwargs :
  wp (Bank.new_card card_class account_ cid payment_system pan_ kwargs)
    (λ w' r,
       the_bank w' = the_bank W ∧ account_heap w' = account_heap W
       ∧ match r with
         | Return c =>
             c = length (card_heap W)
             ∧ ∃ card, card_heap w' = card_heap W ++ [card]
                       ∧ account card = Some account_ ∧ card_id card = cid
         | _ => card_heap w' = card_heap W
         end) W.
Proof.
  unfold Bank.new_card. wp_run; subst; cbn; repeat split; eauto.
Qed.

Lemma apply_for_card_pins w last_name first_name pin phone payment_system card_class kwargs
    k user :
  Bank.find_user phone last_name first_name (customers (the_bank w)) = Some (k, user) →
  wp (Bank.apply_for_card last_name first_name pin phone payment_system card_class kwargs)
    (λ w' _, customer_pins (the_bank w') = customer_pins (the_bank w)) w.
Proof.
  intros Hfind.
  unfold Bank.apply_for_card, Bank._next_account_number, Bank._generate_pan,
    Bank.accounts_append, Bank.cards_append, Bank.modify_user.
  wp_run; subst; try done; try congruence.
  eapply wp_mono; [apply new_card_spec|]. cbn beta.
  intros w' r (Hb & _ & _). destruct r; cbn beta iota; [|by rewrite Hb..].
  wp_run; subst; unfold customer_pins; cbn; rewrite ?customer_pins_alter by done;
    by rewrite Hb.
Qed.

Lemma apply_for_card_issued w last_name first_name pin phone payment_system card_class
    kwargs :
  wf w →
  wp (Bank.apply_for_card last_name first_name pin phone payment_system card_class kwargs)
    (λ w' r, match r with
             | Return c => issued phone last_name first_name w w' c
             | _ => True
             end) w.
Proof.
  intros Hw.
  unfold Bank.apply_for_card, Bank._next_account_number, Bank._generate_pan,
    Bank.accounts_append, Bank.cards_append, Bank.modify_user.
  wp_run; subst; try done.
  all: eapply wp_mono; [apply new_card_spec|]; cbn beta.
  all: intros w' r (Hb & Hah & Hr); destruct r; cbn beta iota; [|done..].
  all: destruct Hr as (-> & card & Hch & Hacc & _).
  all: wp_run; subst; try done.
  all: match goal with
       | Ha : dict_lookup _ (accounts _) = Some _, Hc : dict_lookup _ (cards _) = Some _
         |- _ => cbn in Ha, Hc; rewrite Hb in Ha, Hc; cbn in Ha, Hc
       end.
  all: cbn in Hb, Hah, Hch, Hacc; unfold issued; cbn; rewrite Hb, Hah, Hch; cbn.
  all: rewrite Heqo.
  - exists n, (User.append_account (length (account_heap w))
                (User.append_card (length (card_heap w)) t)), card.
    eexists. split.
    { apply find_user_alter; [|apply find_user_alter|]; try done.
      - rewrite dict_alter_keys. apply (wf_customers_nodup w Hw).
      - apply (wf_customers_nodup w Hw). }
    rewrite !dict_alter_keys, !dict_lookup_alter_eq.
    repeat split; try done.
    + eexists. split; [eassumption|]. by rewrite Heqo3.
    + rewrite Heqo2. by eexists.
  - pose proof (fresh_user_id w Hw) as Hfresh.
    rewrite dict_set_fresh, !dict_alter_last by done.
    eexists _, _, card, _. split.
    { apply find_user_last; [done|]. unfold Bank.same_user. cbn.
      by rewrite !bool_decide_eq_true_2. }
    cbn. rewrite !dict_lookup_alter_eq, !dict_lookup_set_eq. by repeat split.
Qed.

Lemma apply_for_card_pin_not_digits w last_name first_name pin phone payment_system
    card_class kwargs :
  isdigit pin = false →
  Bank.apply_for_card last_name first_name pin phone payment_system card_class kwargs w
  = (w, Raise ValidationError PIN_FORMAT_INVALID).
Proof. intros H. unfold Bank.apply_for_card, bind, when. by rewrite H. Qed.

Lemma apply_for_card_pin_length w last_name first_name pin phone payment_system
    card_class kwargs :
  isdigit pin = true →
  length pin ≠ 4%nat →
  Bank.apply_for_card last_name first_name pin phone payment_system card_class kwargs w
  = (w, Raise ValidationError PIN_INVALID).
Proof.
  intros H Hlen. apply Nat.eqb_neq in Hlen.
  unfold Bank.apply_for_card, bind, when. by rewrite H, Hlen.
Qed.

Lemma apply_for_card_pin_unused w last_name first_name pin pin' phone payment_system
    card_class kwargs k user :
  Bank.find_user phone last_name first_name (customers (the_bank w)) = Some (k, user) →
  isdigit pin = true → length pin = 4%nat →
  isdigit pin' = true → length pin' = 4%nat →
  Bank.apply_for_card last_name first_name pin phone payment_system card_class kwargs w
  = Bank.apply_for_card last_name first_name pin' phone payment_system card_class kwargs w.
Proof.
  intros Hfind H1 H2 H1' H2'.
  unfold Bank.apply_for_card, bind, when, gets, ret, raise.
  rewrite H1, H1', H2, H2'. cbn [negb Nat.eqb].
  destruct (negb (Bank.fullmatch_name last_name) || negb (Bank.match_name first_name));
    [done|].
  destruct (negb (bool_decide (upper payment_system ∈ BIN_BY_SYSTEM.*1))); [done|].
  rewrite Hfind. done.
Qed.

Lemma apply_for_card_too_many w last_name first_name pin phone payment_system card_class
    kwargs k user :
  isdigit pin = true → length pin = 4%nat →
  Bank.fullmatch_name last_name = true → Bank.match_name first_name = true →
  upper payment_system ∈ BIN_BY_SYSTEM.*1 →
  existsb (Bank.conflicts phone first_name last_name)
    (dict_values (customers (the_bank w))) = false →
  Bank.find_user phone last_name first_name (customers (the_bank w)) = Some (k, user) →
  (5 ≤ length (User.cards user))%nat →
  Bank.apply_for_card last_name first_name pin phone payment_system card_class kwargs w
  = (w, Raise BusinessRuleError TOO_MANY_DEBIT_CARDS).
Proof.
  intros H1 H2 H3 H4 H5 H6 Hfind Hmany.
  apply Nat.leb_le in Hmany.
  unfold Bank.apply_for_card, bind, when, gets, ret, raise.
  rewrite H1, H2, H3, H4. rewrite bool_decide_eq_true_2 by done.
  cbn [negb orb Nat.eqb]. cbn beta iota. by rewrite H6, Hfind, Hmany.
Qed.

Lemma new_card_no_kwargs W card_class account_ cid payment_system pan_ :
  can_issue W →
  wp (Bank.new_card card_class account_ cid payment_system pan_ no_kwargs)
    (λ w' r, the_bank w' = the_bank W ∧ ∃ c, r = Return c) W.
Proof.
  intros [Hle [expiry Hexp]].
  unfold Bank.new_card. destruct card_class; cbn; wp_run; subst; cbn; eauto.
  all: first [lia | congruence].
Qed.

Lemma apply_for_card_returns w last_name first_name pin phone payment_system card_class
    k user held_accounts held_cards :
  isdigit pin = true → length pin = 4%nat →
  Bank.fullmatch_name last_name = true → Bank.match_name first_name = true →
  upper payment_system ∈ BIN_BY_SYSTEM.*1 →
  existsb (Bank.conflicts phone first_name last_name)
    (dict_values (customers (the_bank w))) = false →
  Bank.find_user phone last_name first_name (customers (the_bank w)) = Some (k, user) →
  (length (User.cards user) < 5)%nat →
  is_Some (ints (bic (the_bank w))) →
  dict_lookup (User.user_id user) (accounts (the_bank w)) = Some held_accounts →
  dict_lookup (User.user_id user) (cards (the_bank w)) = Some held_cards →
  can_issue w →
  ∃ w' c,
    Bank.apply_for_card last_name first_name pin phone payment_system card_class no_kwargs w
    = (w', Return c).
Proof.
  intros H1 H2 H3 H4 H5 H6 Hfind Hfew Hbic Hacc Hcards Hissue.
  enough (wp (Bank.apply_for_card last_name first_name pin phone payment_system card_class
                no_kwargs) (λ _ r, ∃ c, r = Return c) w) as Hwp.
  { unfold wp in Hwp. destruct (Bank.apply_for_card _ _ _ _ _ _ _ w) as [w' r].
    cbn in Hwp. destruct Hwp as [c ->]. by exists w', c. }
  unfold Bank.apply_for_card, Bank._next_account_number, Bank._generate_pan,
    Bank.accounts_append, Bank.cards_append, Bank.modify_user.
  wp_run; subst.
  all: try (exfalso; rewrite ?H1, ?H2, ?H3, ?H4, ?H6, ?Hfind in *; cbn in *; congruence).
  all: try match goal with
       | H : negb (bool_decide _) = true |- _ =>
           exfalso; rewrite bool_decide_eq_true_2 in H by done; discriminate
       | H : match Bank.find_user _ _ _ _ with _ => _ end = true |- _ =>
           exfalso; rewrite Hfind in H; apply Nat.leb_le in H; lia
       | H : _next_account_number _ _ = _ |- _ =>
           exfalso;
           destruct (AccountNumberFacts.next_account_number_control_digit
                       (bic (the_bank w)) (_account_seq (the_bank w))
                       (PyStrFacts.ints_drop _ _ Hbic))
             as (? & _ & ? & _); congruence
       end.
  all: try match goal with
       | H : _generate_pan ?s ?n = _ |- _ =>
           exfalso; destruct (PanFacts.generate_pan_spec s n) as (? & _ & ?); congruence
       end.
  eapply wp_mono; [apply new_card_no_kwargs; exact Hissue|]. cbn beta.
  intros w' r (Hb & c & ->). simplify_eq.
  wp_run; subst; eauto.
  all: exfalso.
  all: match goal with
       | H : dict_lookup _ _ = None |- _ => cbn in H; rewrite Hb in H; cbn in H; congruence
       end.
Qed.
End Issuing.

Lemma cardholder_issued (w w' : World) c k card acc :
  c = length (card_heap w) →
  card_heap w' = card_heap w ++ [card] →
  account card = Some (length (account_heap w)) →
  account_heap w' = account_heap w ++ [acc] →
  Account.owner acc = k →
  cardholder w' c = Some k.
Proof.
  intros -> Hch Hacc Hah Hown. unfold cardholder.
  rewrite Hch, list_lookup_middle by done. cbn. rewrite Hacc. cbn.
  rewrite Hah, list_lookup_middle by done. cbn. by rewrite Hown.
Qed.

Section IssuingClaims.
Context {U : UnicodeDB}.

(** C7: two calls of [apply_for_card] with the same phone, last name
    and first name that both return bind their cards to one user: the
    second call finds the user of the first under the same key, creates
    no user, and each call appends exactly its card to the user's cards
    (and the second to the bank's registry entry); and for a user who
    holds five cards or more a call with valid inputs raises
    [BusinessRuleError] and leaves the whole state as it was. *)
Theorem apply_for_card_same_user w last_name first_name phone :
  reachable w →
  (∀ pin1 system1 class1 kwargs1 pin2 system2 class2 kwargs2 w1 c1 w2 c2,
     Bank.apply_for_card last_name first_name pin1 phone system1 class1 kwargs1 w
     = (w1, Return c1) →
     Bank.apply_for_card last_name first_name pin2 phone system2 class2 kwargs2 w1
     = (w2, Return c2) →
     ∃ k u1 u2,
       Bank.find_user phone last_name first_name (customers (the_bank w1)) = Some (k, u1)
       ∧ Bank.find_user phone last_name first_name (customers (the_bank w2)) = Some (k, u2)
       ∧ cardholder w2 c1 = Some k
       ∧ cardholder w2 c2 = Some k
       ∧ c1 ≠ c2
       ∧ User.user_id u2 = User.user_id u1
       ∧ (customers (the_bank w2)).*1 = (customers (the_bank w1)).*1
       ∧ _user_seq (the_bank w2) = _user_seq (the_bank w1)
       ∧ User.cards u1
         = match Bank.find_user phone last_name first_name (customers (the_bank w)) with
           | Some (_, u0) => User.cards u0
           | None => []
           end ++ [c1]
       ∧ User.cards u2 = User.cards u1 ++ [c2]
       ∧ ∃ registered,
           dict_lookup (User.user_id u1) (cards (the_bank w1)) = Some registered
           ∧ dict_lookup (User.user_id u1) (cards (the_bank w2))
             = Some (registered ++ [c2]))
  ∧ (∀ pin system class kwargs k user,
       isdigit pin = true → length pin = 4%nat →
       Bank.fullmatch_name last_name = true → Bank.match_name first_name = true →
       upper system ∈ BIN_BY_SYSTEM.*1 →
       existsb (Bank.conflicts phone first_name last_name)
         (dict_values (customers (the_bank w))) = false →
       Bank.find_user phone last_name first_name (customers (the_bank w))
       = Some (k, user) →
       (5 ≤ length (User.cards user))%nat →
       Bank.apply_for_card last_name first_name pin phone system class kwargs w
       = (w, Raise BusinessRuleError TOO_MANY_DEBIT_CARDS)).
Proof.
  intros Hw%reachable_wf. split; [|intros; by eapply apply_for_card_too_many].
  intros pin1 system1 class1 kwargs1 pin2 system2 class2 kwargs2 w1 c1 w2 c2 Hrun1 Hrun2.
  pose proof (wp_intro _ _ _ _ _ Hrun1
                (apply_for_card_issued w _ _ pin1 _ system1 class1 kwargs1 Hw)) as Hi1.
  pose proof (wp_intro _ _ _ _ _ Hrun1
                (apply_for_card_follows w _ _ pin1 phone system1 class1 kwargs1)) as [_ Hw1].
  specialize (Hw1 Hw).
  pose proof (wp_intro _ _ _ _ _ Hrun2
                (apply_for_card_issued w1 _ _ pin2 _ system2 class2 kwargs2 Hw1)) as Hi2.
  cbn beta iota in Hi1, Hi2.
  destruct Hi1 as (k & u1 & card1 & acc1 & Hfind1 & Hc1 & Hch1 & Hacc1 & Hah1 & Hown1
                   & Hbefore & _).
  destruct Hi2 as (k2 & u2 & card2 & acc2 & Hfind2 & Hc2 & Hch2 & Hacc2 & Hah2 & Hown2
                   & Hafter & _).
  rewrite Hfind1 in Hafter. destruct Hafter as (-> & Hcards2 & Hid & Hkeys & Hseq & Hreg).
  exists k, u1, u2. repeat split; try done.
  - eapply cardholder_extend; [exact Hch2|exact Hah2|]. by eapply cardholder_issued.
  - by eapply cardholder_issued.
  - subst c1 c2. rewrite Hch1, length_app. cbn. lia.
  - destruct (Bank.find_user phone last_name first_name (customers (the_bank w)))
      as [[k0 u0]|]; [by destruct Hbefore as (_ & -> & _)|by destruct Hbefore as [-> _]].
Qed.

(** C10: for a user the bank already holds, the pin handed to
    [apply_for_card] is checked for its form only: a pin that is not all
    digits, or not of length 4, is a [ValidationError]; any two
    well-formed pins give the same result and the same state, the
    stored PINs are the same after the call as before, whatever its
    outcome, and under the remaining conditions of the method, with a
    date left to issue the card on whose expiry date exists, the call
    returns a card whether or not the pin is the stored one. *)
Theorem apply_for_card_checks_pin_form_only w last_name first_name pin phone system class
    kwargs k user :
  Bank.find_user phone last_name first_name (customers (the_bank w)) = Some (k, user) →
  let run pin kwargs :=
    Bank.apply_for_card last_name first_name pin phone system class kwargs w in
  (isdigit pin = false → run pin kwargs = (w, Raise ValidationError PIN_FORMAT_INVALID))
  ∧ (isdigit pin = true → length pin ≠ 4%nat →
     run pin kwargs = (w, Raise ValidationError PIN_INVALID))
  ∧ (isdigit pin = true → length pin = 4%nat →
     ∀ pin', isdigit pin' = true → length pin' = 4%nat → run pin kwargs = run pin' kwargs)
  ∧ customer_pins (the_bank (run pin kwargs).1) = customer_pins (the_bank w)
  ∧ (isdigit pin = true → length pin = 4%nat →
     Bank.fullmatch_name last_name = true → Bank.match_name first_name = true →
     upper system ∈ BIN_BY_SYSTEM.*1 →
     existsb (Bank.conflicts phone first_name last_name)
       (dict_values (customers (the_bank w))) = false →
     (length (User.cards user) < 5)%nat →
     is_Some (ints (bic (the_bank w))) →
     is_Some (dict_lookup (User.user_id user) (accounts (the_bank w))) →
     is_Some (dict_lookup (User.user_id user) (cards (the_bank w))) →
     can_issue w →
     ∃ w' c, run pin no_kwargs = (w', Return c)
             ∧ customer_pins (the_bank w') = customer_pins (the_bank w)).
Proof.
  intros Hfind run. repeat split.
  - intros. by apply apply_for_card_pin_not_digits.
  - intros. by apply apply_for_card_pin_length.
  - intros. by eapply apply_for_card_pin_unused.
  - by eapply (wp_elim (Bank.apply_for_card _ _ _ _ _ _ _)
                 (λ w', customer_pins (the_bank w') = customer_pins (the_bank w))),
      apply_for_card_pins.
  - intros H1 H2 H3 H4 H5 H6 Hfew Hbic [la Hla] [lc Hlc] Hissue.
    destruct (apply_for_card_returns w last_name first_name pin phone system class k user
                la lc) as (w' & c & Hrun); try done.
    exists w', c. split; [exact Hrun|].
    by eapply (wp_intro _ (λ w' _, customer_pins (the_bank w') = customer_pins (the_bank w))
              _ _ _ Hrun), apply_for_card_pins.
Qed.
End IssuingClaims.

Lemma apply_for_card_same_user_witness :
  let phone := lit "+79161111111" in
  let first := Bank.apply_for_card (U := ascii_only) Demo.petrov Demo.petr (lit "1111") phone
                 (lit "VISA") Card_t no_kwargs Demo.bank0 in
  let second := Bank.apply_for_card (U := ascii_only) Demo.petrov Demo.petr (lit "9999") phone
                  (lit "mir") SavingCard_t no_kwargs first.1 in
  (first.2 = Return 0%nat ∧ second.2 = Return 1%nat
   ∧ ∃ k u2,
       Bank.find_user phone Demo.petrov Demo.petr (customers (the_bank second.1))
       = Some (k, u2)
       ∧ User.cards u2 = [0; 1]%nat
       ∧ cardholder second.1 0 = Some k ∧ cardholder second.1 1 = Some k
       ∧ (customers (the_bank second.1)).*1 = [k])
  ∧ Bank.apply_for_card (U := ascii_only) Demo.petrov Demo.petr (lit "1111") phone
      (lit "VISA") Card_t no_kwargs Demo5.world
    = (Demo5.world, Raise BusinessRuleError TOO_MANY_DEBIT_CARDS).
Proof.
  intros phone first second. split.
  - destruct (apply_for_card_same_user (U := ascii_only) Demo.bank0 Demo.petrov Demo.petr
                phone (reachable_new _ _ _ _ _)) as [Htwo _].
    destruct (Htwo (lit "1111") (lit "VISA") Card_t no_kwargs
                (lit "9999") (lit "mir") SavingCard_t no_kwargs first.1 0%nat second.1 1%nat
                ltac:(by vm_compute) ltac:(by vm_compute))
      as (k & u1 & u2 & Hf1 & Hf2 & Hh1 & Hh2 & _ & _ & Hkeys & _ & Hc1 & Hc2 & _).
    split; [by vm_compute|]. split; [by vm_compute|].
    exists k, u2. split; [exact Hf2|]. split; [rewrite Hc2, Hc1; by vm_compute|].
    split; [exact Hh1|]. split; [exact Hh2|].
    rewrite Hkeys. vm_compute in Hf1. injection Hf1 as <- _. by vm_compute.
  - assert (reachable (U := ascii_only) Demo5.world) as Hr.
    { change Demo5.world with
        (perform_all (U := ascii_only)
           [Demo5.issue "1111" "VISA"; Demo5.issue "1111" "MIR"; Demo5.issue "1111" "VISA";
            Demo5.issue "1111" "MIR"; Demo5.issue "1111" "VISA"] Demo.bank0).
      apply reachable_perform_all. constructor. }
    destruct (apply_for_card_same_user (U := ascii_only) Demo5.world Demo.petrov Demo.petr
                phone Hr) as [_ Hmany].
    eapply Hmany; try (by vm_compute).
    apply (bool_decide_unpack _). by vm_compute.
Defined.

Lemma apply_for_card_checks_pin_form_only_witness :
  ∃ k user w' c,
    Bank.find_user (lit "+79161111111") Demo.petrov Demo.petr
      (customers (the_bank Demo.world)) = Some (k, user)
    ∧ User.pin user = lit "1111"
    ∧ Bank.apply_for_card (U := ascii_only) Demo.petrov Demo.petr (lit "9999")
        (lit "+79161111111") (lit "MIR") Card_t no_kwargs Demo.world = (w', Return c)
    ∧ customer_pins (the_bank w') = customer_pins (the_bank Demo.world).
Proof.
  destruct (apply_for_card_checks_pin_form_only (U := ascii_only) Demo.world Demo.petrov
              Demo.petr (lit "9999") (lit "+79161111111") (lit "MIR") Card_t no_kwargs _ _
              eq_refl) as (_ & _ & _ & _ & Hrun).
  destruct Hrun as (w' & c & Hrun & Hpins); try by vm_compute.
  - apply (bool_decide_unpack _). by vm_compute.
  - vm_compute. lia.
  - vm_compute. by eexists.
  - vm_compute. by eexists.
  - vm_compute. by eexists.
  - split; [by vm_compute|]. eexists. by vm_compute.
  - eexists _, _, w', c. split; [reflexivity|]. split; [reflexivity|]. by split.
Defined.

(** ** Account numbers and PANs *)

Import PyStrFacts AccountNumberFacts PanFacts.

Section Numbers.
Context {U : UnicodeDB}.

(** What holds of the account numbers: for every serial and every BIC
    whose characters [int] accepts, exactly one control digit [d] in 0..9
    makes the candidate pass the test of the generator; the search
    returns that candidate and never falls through; the number
    consists of digits.  As long as the serial is below [10^7] it has
    20 of them, the test of the generator is the check of the
    specification (weights 7, 1, 3 repeating over the last three BIC
    digits followed by the number), and [d] is the one digit that
    passes it. *)
Theorem account_number_control_digit (bic : pystr) (n : N) :
  is_Some (ints bic) →
  ∃ d : N,
    (d < 10)%N
    ∧ (∀ d', (d' < 10)%N →
         control_sum_ok bic (candidate_account_nuber (format_0d 7 n) d') = true ↔ d' = d)
    ∧ _next_account_number bic n
      = Return (Some (candidate_account_nuber (format_0d 7 n) d))
    ∧ forallb is_ascii_digit (candidate_account_nuber (format_0d 7 n) d) = true
    ∧ ((n < 10 ^ 7)%N →
       length (candidate_account_nuber (format_0d 7 n) d) = 20%nat
       ∧ ∀ d', (d' < 10)%N →
           spec_checksum_ok bic (candidate_account_nuber (format_0d 7 n) d') = true
           ↔ d' = d).
Proof.
  intros Hbic.
  destruct (next_account_number_control_digit bic n (ints_drop _ _ Hbic))
    as (d & Hd & Hrun & Hok & Huniq).
  exists d. split; [done|]. split; [|split; [done|split]].
  - intros d' Hd'. split; [by apply Huniq|by intros ->].
  - unfold candidate_account_nuber. rewrite !forallb_app.
    rewrite !format_0d_ascii_digits. unfold str_of_int. by rewrite format_0d_ascii_digits.
  - intros Hn.
    assert (∀ d', (d' < 10)%N →
              length (candidate_account_nuber (format_0d 7 n) d') = 20%nat) as Hlen.
    { intros d' Hd'. rewrite length_candidate by done.
      by rewrite length_format_0d by (done || lia). }
    split; [by apply Hlen|]. intros d' Hd'.
    rewrite <- control_sum_ok_spec.
    + split; [by apply Huniq|by intros ->].
    + rewrite length_app, Hlen by done. pose proof (length_last_chars 3 bic). lia.
Qed.

(** What holds of the PANs: a generated PAN is the BIN of the payment
    system (MIR's for a system without one), the serial padded with
    zeros to nine digits, and the check digit that the described
    procedure gives for the digits before it: every second digit from
    the rightmost is doubled, a doubled value over 9 loses 9, all are
    summed, and the digit is [(10 - sum mod 10) mod 10].  As long as the
    serial is below [10^9] the PAN has 16 characters and the check digit
    recomputed over its first 15 is its 16th. *)
Theorem generated_pan_check_digit (system : pystr) (n : N) :
  ∃ digits,
    let check := luhn_check_digit digits in
    let partial := bin_code_of system ++ format_0d 9 n in
    ints partial = Some digits
    ∧ 0 ≤ check < 10
    ∧ _luhn partial = Return check
    ∧ _generate_pan system n = Return (partial ++ [digit_char (Z.to_N check)])
    ∧ length (bin_code_of system) = 6%nat
    ∧ (∀ bin, (upper system, bin) ∈ BIN_BY_SYSTEM → bin_code_of system = bin)
    ∧ (upper system ∉ BIN_BY_SYSTEM.*1 →
       (lit "MIR", bin_code_of system) ∈ BIN_BY_SYSTEM)
    ∧ ((n < 10 ^ 9)%N →
       ∀ pan, _generate_pan system n = Return pan →
         length pan = 16%nat
         ∧ _luhn (take 15 pan) = Return check
         ∧ pan !! 15%nat = Some (digit_char (Z.to_N check))).
Proof.
  destruct (generate_pan_spec system n) as (digits & Hints & Hrun).
  exists digits. cbn zeta. split; [done|]. split; [apply luhn_check_digit_range|].
  split; [by apply luhn_spec|]. rewrite <- (assoc (++)). split; [done|].
  destruct (bin_code_digits system) as [Hlen _]. split; [done|].
  split; [|split].
  - intros bin. unfold bin_code_of, BIN_BY_SYSTEM. cbn [dict_get]. set_unfold.
    intros [H|[H|[H|[]]]]; apply pair_equal_spec in H as [Hs <-]; rewrite Hs;
      by vm_compute.
  - unfold bin_code_of, BIN_BY_SYSTEM. cbn [dict_get fmap list_fmap fst]. set_unfold.
    intros Hnot. rewrite !decide_False by (intros Heq; apply Hnot; rewrite <- Heq; auto).
    left. by vm_compute.
  - intros Hn pan Hpan. rewrite Hrun in Hpan. injection Hpan as <-.
    assert (length (bin_code_of system ++ format_0d 9 n) = 15%nat) as Hl.
    { rewrite length_app, Hlen, length_format_0d by (done || lia). done. }
    rewrite (assoc (++)). split; [rewrite length_app, Hl; done|]. split.
    + rewrite take_app_length' by done. by apply luhn_spec.
    + by apply list_lookup_middle.
Qed.
End Numbers.

Lemma account_number_control_digit_witness :
  ∃ d : N,
    _next_account_number (U := ascii_only) (lit "044525974") 1
    = Return (Some (candidate_account_nuber (format_0d 7 1) d))
    ∧ spec_checksum_ok (U := ascii_only) (lit "044525974")
        (candidate_account_nuber (format_0d 7 1) d) = true
    ∧ length (candidate_account_nuber (format_0d 7 1) d) = 20%nat.
Proof.
  destruct (account_number_control_digit (U := ascii_only) (lit "044525974") 1
              ltac:(vm_compute; by eexists)) as (d & Hd & _ & Hrun & _ & Hshort).
  destruct (Hshort eq_refl) as [Hlen Hspec].
  exists d. split; [exact Hrun|]. split; [by apply Hspec|exact Hlen].
Defined.

(** C5: the serial is not kept to seven digits, and the weights are not
    repeated past the 24th digit.  With the serial [10^7] the account
    number has 21 characters instead of 20; with the serial 100000001 it
    has 22, passes the test of the generator, which gives its last digit
    no weight, and fails the check of the specification. *)
Lemma account_number_serial_overflow :
  (∃ account_number,
     _next_account_number (U := ascii_only) (lit "044525974") 10000000
     = Return (Some account_number)
     ∧ length account_number = 21%nat)
  ∧ (∃ account_number,
       _next_account_number (U := ascii_only) (lit "044525974") 100000001
       = Return (Some account_number)
       ∧ length account_number = 22%nat
       ∧ control_sum_ok (U := ascii_only) (lit "044525974") account_number = true
       ∧ control_sum (U := ascii_only) (lit "974" ++ account_number) = Some 50
       ∧ spec_checksum_ok (U := ascii_only) (lit "044525974") account_number = false).
Proof. split; eexists; (split; [vm_compute; reflexivity|by vm_compute]). Qed.

Lemma generated_pan_check_digit_witness :
  _generate_pan (U := ascii_only) (lit "MIR") 1 = Return (lit "2204000000000015")
  ∧ _luhn (U := ascii_only) (lit "220400000000001") = Return 5.
Proof.
  destruct (generated_pan_check_digit (U := ascii_only) (lit "MIR") 1)
    as (digits & Hints & _ & Hluhn & Hrun & _).
  vm_compute in Hints. injection Hints as <-. split; [exact Hrun|exact Hluhn].
Defined.

(** C6: the serial is not kept to nine digits: with the serial [10^9] the PAN
    has 17 characters instead of 16, and its 16th is the last digit of
    the serial, not the check digit of the first 15. *)
Lemma pan_serial_overflow :
  ∃ pan,
    _generate_pan (U := ascii_only) (lit "MIR") 1000000000 = Return pan
    ∧ length pan = 17%nat
    ∧ _luhn (U := ascii_only) (take 15 pan) = Return 5
    ∧ pan !! 15%nat = Some (digit_char 0)
    ∧ pan !! 16%nat = Some (digit_char 8).
Proof. eexists. split; [vm_compute; reflexivity|by vm_compute]. Qed.

(** * Further properties of the code *)

(** ** Timestamps *)

Lemma set_TIMESTAMP_GENERATOR_same w : set_TIMESTAMP_GENERATOR (TIMESTAMP_GENERATOR w) w = w.
Proof. by destruct w. Qed.

(** X1: [next_timestamp_after] draws from the generator up to the first
    value dated after [issue_date].  While that value is not past the
    last day of the calendar the call returns it and leaves the
    generator behind it; every value it skipped is dated on or before
    [issue_date], and the time of day is between 09:00:00 and 18:59:59.
    When the calendar has no such day left, the draw past 9999-12-31
    raises [OverflowError] and ends the generator, and on a generator
    that has ended the call raises [StopIteration] and changes
    nothing. *)
Theorem next_timestamp_after_first_later (issue_date : Z) (w : World) :
  let gen := TIMESTAMP_GENERATOR w in
  let g := first_later gen issue_date in
  (Z.of_N g ≤ LAST_DAY →
   next_timestamp_after issue_date w
   = (set_TIMESTAMP_GENERATOR (N.succ g) w, Return (yielded g))
   ∧ timestamp_generator g = Return (yielded g)
   ∧ issue_date < dt_date (yielded g)
   ∧ (gen ≤ g)%N
   ∧ (∀ i, (gen ≤ i < g)%N →
        timestamp_generator i = Return (yielded i) ∧ dt_date (yielded i) ≤ issue_date)
   ∧ 9 ≤ hour (yielded g) ≤ 18
   ∧ 0 ≤ minute (yielded g) < 60
   ∧ 0 ≤ second (yielded g) < 60)
  ∧ (LAST_DAY < Z.of_N g → ended gen = false →
     next_timestamp_after issue_date w
     = (set_TIMESTAMP_GENERATOR (Z.to_N (LAST_DAY + 2)) w, Uncaught OverflowError)
     ∧ ended (Z.to_N (LAST_DAY + 2)) = true)
  ∧ (ended gen = true →
     next_timestamp_after issue_date w = (w, Uncaught StopIteration)).
Proof.
  intros gen g. split; [|split].
  - intros Hg. split.
    { unfold next_timestamp_after. rewrite next_timestamp_loop_exit by lia. cbn zeta.
      fold gen g. by rewrite (proj2 (Z.leb_le _ _)) by done. }
    split.
    { by destruct (next_timestamp_cases g) as [(_ & -> & _) | [? _]]; [|lia]. }
    subst g. unfold first_later in *. unfold yielded, timestamp_at. cbn.
    set (g := N.max gen (Z.to_N (issue_date + 1))) in *.
    pose proof (Z.mod_pos_bound (Z.of_N g * 3) 10 ltac:(lia)).
    pose proof (Z.mod_pos_bound (Z.of_N g * 7) 60 ltac:(lia)).
    pose proof (Z.mod_pos_bound (Z.of_N g * 11) 60 ltac:(lia)).
    rewrite (Z.mod_small (9 + _) 24) by lia.
    repeat split; try lia.
    destruct (next_timestamp_cases i) as [(_ & -> & _) | [? _]]; [done|lia].
  - intros Hg Hlive. split; [|done].
    unfold next_timestamp_after. rewrite next_timestamp_loop_exit by lia. cbn zeta.
    fold gen g. rewrite (proj2 (Z.leb_gt _ _)) by done. rewrite Hlive.
    unfold ended in Hlive. apply Z.ltb_ge in Hlive.
    replace (N.max gen (Z.to_N (LAST_DAY + 1))) with (Z.to_N (LAST_DAY + 1))
      by (change LAST_DAY with 2913903 in *; lia).
    done.
  - intros Hended.
    unfold next_timestamp_after. rewrite next_timestamp_loop_exit by lia. cbn zeta.
    fold gen g. pose proof Hended as Hlate. unfold ended in Hlate. apply Z.ltb_lt in Hlate.
    rewrite (proj2 (Z.leb_gt _ _)) by (subst g; unfold first_later; lia).
    rewrite Hended.
    replace (N.max gen (Z.to_N (LAST_DAY + 1))) with gen by lia.
    unfold after_failure. rewrite Hended. subst gen.
    by rewrite set_TIMESTAMP_GENERATOR_same.
Qed.

(** ** Sorting by timestamp *)

Ltac datetime_cases :=
  unfold datetime_ltb;
  repeat match goal with
         | |- context [?x ?= ?y] => destruct (Z.compare_spec x y)
         | |- context [?x <? ?y] => destruct (Z.ltb_spec x y)
         | H : context [?x ?= ?y] |- _ => destruct (Z.compare_spec x y)
         | H : context [?x <? ?y] |- _ => destruct (Z.ltb_spec x y)
         end; try done; try lia.

Lemma datetime_ltb_asym a b : datetime_ltb a b = true → datetime_ltb b a = false.
Proof. datetime_cases. Qed.

Lemma datetime_not_later_trans a b c :
  datetime_ltb b a = false → datetime_ltb c b = false → datetime_ltb c a = false.
Proof. datetime_cases. Qed.

Lemma not_later_trans a b c : not_later a b → not_later b c → not_later a c.
Proof. apply datetime_not_later_trans. Qed.

Lemma insert_by_timestamp_perm t l : insert_by_timestamp t l ≡ₚ t :: l.
Proof.
  induction l as [|x l IH]; [done|]. cbn.
  destruct (datetime_ltb (timestamp t) (timestamp x)); [done|].
  rewrite IH. apply Permutation_swap.
Qed.

Lemma insert_by_timestamp_sorted t l :
  chronological l → chronological (insert_by_timestamp t l).
Proof.
  unfold chronological. induction 1 as [|x l Hl IH Hx]; cbn.
  - repeat constructor.
  - destruct (datetime_ltb (timestamp t) (timestamp x)) eqn:E.
    + constructor; [by constructor|].
      apply datetime_ltb_asym in E. constructor; [done|].
      eapply Forall_impl; [exact Hx|]. intros y Hy. by eapply not_later_trans.
    + constructor; [done|].
      rewrite insert_by_timestamp_perm. by constructor.
Qed.

Lemma insert_by_timestamp_last t l :
  Forall (λ x, not_later x t) l → insert_by_timestamp t l = l ++ [t].
Proof.
  induction 1 as [|x l Hx _ IH]; [done|]. cbn.
  unfold not_later in Hx. rewrite Hx. by rewrite IH.
Qed.

Lemma sort_from_perm acc l :
  foldl (λ sorted t, insert_by_timestamp t sorted) acc l ≡ₚ acc ++ l.
Proof.
  revert acc. induction l as [|t l IH]; intros acc; cbn; [by rewrite app_nil_r|].
  rewrite IH, insert_by_timestamp_perm. apply Permutation_middle.
Qed.

Lemma sort_from_sorted acc l :
  chronological acc →
  chronological (foldl (λ sorted t, insert_by_timestamp t sorted) acc l).
Proof.
  revert acc. induction l as [|t l IH]; intros acc Hacc; cbn; [done|].
  by apply IH, insert_by_timestamp_sorted.
Qed.

Lemma sort_from_chronological acc l :
  chronological (acc ++ l) →
  foldl (λ sorted t, insert_by_timestamp t sorted) acc l = acc ++ l.
Proof.
  revert acc. induction l as [|t l IH]; intros acc H; cbn; [by rewrite app_nil_r|].
  rewrite insert_by_timestamp_last.
  - rewrite IH; rewrite <- (assoc (++)); done.
  - apply Forall_forall. intros x Hx.
    apply (StronglySorted_app_1_elem_of not_later acc (t :: l) x t H); [done|by left].
Qed.

Lemma sort_by_timestamp_perm l : sort_by_timestamp l ≡ₚ l.
Proof. apply sort_from_perm. Qed.

Lemma sort_by_timestamp_sorted l : chronological (sort_by_timestamp l).
Proof. apply sort_from_sorted. constructor. Qed.

Lemma sort_by_timestamp_chronological l : chronological l → sort_by_timestamp l = l.
Proof. intros. by apply (sort_from_chronological []). Qed.

Lemma set_transaction_log_same b : set_transaction_log (transaction_log b) b = b.
Proof. by destruct b. Qed.

Section Histories.
Context {U : UnicodeDB}.

(** X2: [get_global_history] returns (after the header line) the
    ledger in the order of the timestamps, with the same transactions,
    and leaves the ledger in that order; a ledger that is already in
    order is returned as it is, so a second call changes nothing. *)
Theorem get_global_history_sorts (w : World) :
  let sorted := sort_by_timestamp (transaction_log (the_bank w)) in
  let w' := update_bank (set_transaction_log sorted) w in
  Bank.get_global_history w = (w', Return sorted)
  ∧ sorted ≡ₚ transaction_log (the_bank w)
  ∧ chronological sorted
  ∧ (chronological (transaction_log (the_bank w)) → sorted = transaction_log (the_bank w))
  ∧ Bank.get_global_history w' = (w', Return sorted).
Proof.
  intros sorted w'. split; [done|]. split; [apply sort_by_timestamp_perm|].
  split; [apply sort_by_timestamp_sorted|]. split; [apply sort_by_timestamp_chronological|].
  assert (sort_by_timestamp sorted = sorted) as Hfix
    by apply sort_by_timestamp_chronological, sort_by_timestamp_sorted.
  subst w'. unfold Bank.get_global_history, bind, gets, modify_bank, modify, ret.
  destruct w as [? ? ? [] ? ?]. cbn in *. by rewrite Hfix.
Qed.
End Histories.

Lemma next_timestamp_after_first_later_witness :
  next_timestamp_after 0 Demo.world
  = (set_TIMESTAMP_GENERATOR 3 Demo.world, Return (mk_datetime 2 15 14 22))
  ∧ next_timestamp_after 0 (set_TIMESTAMP_GENERATOR 2913904 Demo.world)
    = (set_TIMESTAMP_GENERATOR 2913905 Demo.world, Uncaught OverflowError)
  ∧ next_timestamp_after 0 (set_TIMESTAMP_GENERATOR 2913905 Demo.world)
    = (set_TIMESTAMP_GENERATOR 2913905 Demo.world, Uncaught StopIteration).
Proof.
  split; [|split].
  - exact (proj1 (proj1 (next_timestamp_after_first_later 0 Demo.world)
                    ltac:(by vm_compute))).
  - exact (proj1 (proj1 (proj2 (next_timestamp_after_first_later 0
                                  (set_TIMESTAMP_GENERATOR 2913904 Demo.world)))
                    ltac:(by vm_compute) eq_refl)).
  - exact (proj2 (proj2 (next_timestamp_after_first_later 0
                           (set_TIMESTAMP_GENERATOR 2913905 Demo.world))) eq_refl).
Defined.

(** ** Card operations that go through *)

Lemma wf_card_linked w c card a :
  wf w → card_heap w !! c = Some card → account card = Some a →
  bank card = Some () ∧ ∃ acc, account_heap w !! a = Some acc.
Proof.
  intros Hw Hc Ha. split; [apply (Forall_lookup_1 _ _ _ _ (wf_bank_linked w Hw) Hc)|].
  destruct (Forall_lookup_1 _ _ _ _ (wf_account_linked w Hw) Hc) as (a' & Ha' & Hlt).
  simplify_eq. by apply lookup_lt_is_Some_2.
Qed.

Lemma posted_projections self a f trans g w card acc :
  card_heap w !! self = Some card →
  account_heap w !! a = Some acc →
  let w' := posted self a f trans g w in
  account_heap w' = <[a := f acc]> (account_heap w)
  ∧ card_heap w' = <[self := append_transaction trans card]> (card_heap w)
  ∧ the_bank w' = set_transaction_log (transaction_log (the_bank w) ++ [trans]) (the_bank w)
  ∧ TIMESTAMP_GENERATOR w' = N.succ g
  ∧ error_log w' = error_log w
  ∧ ISSUE_DATE_GENERATOR w' = ISSUE_DATE_GENERATOR w.
Proof.
  intros Hc Hacc. cbn. repeat split; by apply alter_insert.
Qed.

Section Accepted.
Context {U : UnicodeDB}.

Lemma deposit_accepted w self card a amt :
  card_heap w !! self = Some card →
  account card = Some a →
  status card = ACTIVE →
  bank card = Some () →
  (amt <=? 0)%float = false →
  (DEPOSIT_LIMIT <? amt)%float = false →
  timestamps_left w (issue_date card) →
  let ts := stamp w (issue_date card) in
  Card.deposit self amt w
  = (posted self a (add_balance amt) (deposit_transaction card amt ts)
       (first_later (TIMESTAMP_GENERATOR w) (issue_date card)) w, Return ()).
Proof. intros. unfold Card.deposit. wp_settle. Qed.

Lemma base_pay_accepted w self card a acc amt code :
  card_heap w !! self = Some card →
  account card = Some a →
  status card = ACTIVE →
  bank card = Some () →
  account_heap w !! a = Some acc →
  (amt <=? 0)%float = false →
  Card.invalid_mcc code = false →
  code ∉ FORBIDDEN_MCC →
  (PAY_LIMIT <? amt)%float = false →
  (Account.balance acc <? amt)%float = false →
  timestamps_left w (issue_date card) →
  let ts := stamp w (issue_date card) in
  Card.base_pay self amt code w
  = (posted self a (sub_balance amt) (pay_transaction card amt code ts)
       (first_later (TIMESTAMP_GENERATOR w) (issue_date card)) w, Return ()).
Proof. intros. unfold Card.base_pay. wp_settle. Qed.

Lemma update_account_twice a f g w :
  update_account a g (update_account a f w) = update_account a (g ∘ f) w.
Proof. unfold update_account. cbn. by rewrite list_alter_alter_eq. Qed.

Lemma cashback_pay_accepted w rate self card a acc amt code :
  card_heap w !! self = Some card →
  account card = Some a →
  status card = ACTIVE →
  bank card = Some () →
  account_heap w !! a = Some acc →
  (amt <=? 0)%float = false →
  Card.invalid_mcc code = false →
  (rate <? 0)%float = false →
  (MAX_CASHBACK_RATE <=? rate)%float = false →
  code ∉ FORBIDDEN_MCC →
  (PAY_LIMIT <? amt)%float = false →
  (Account.balance acc <? amt)%float = false →
  timestamps_left w (issue_date card) →
  let ts := stamp w (issue_date card) in
  let cashback := PyRound.round2 (amt * rate) in
  Card.cashback_pay rate self amt code w
  = (posted self a (add_cashback_balance cashback ∘ sub_balance amt)
       (cashback_pay_transaction card amt code cashback ts)
       (first_later (TIMESTAMP_GENERATOR w) (issue_date card)) w, Return ()).
Proof.
  intros. unfold Card.cashback_pay, posted. rewrite <- update_account_twice. wp_settle.
Qed.

Lemma accrue_interest_accepted w rate self card a acc :
  card_heap w !! self = Some card →
  cls card = ClsSavingCard rate →
  account card = Some a →
  status card = ACTIVE →
  bank card = Some () →
  account_heap w !! a = Some acc →
  (rate <? 0)%float = false →
  (MAX_SAVING_INTEREST_RATE <=? rate)%float = false →
  timestamps_left w (issue_date card) →
  let ts := stamp w (issue_date card) in
  let interest := PyRound.round2 (Account.balance acc * rate) in
  Card.accrue_interest self w
  = (posted self a (add_balance interest) (interest_transaction card interest ts)
       (first_later (TIMESTAMP_GENERATOR w) (issue_date card)) w, Return ()).
Proof.
  intros Hc Hcls. intros. unfold Card.accrue_interest, bind at 1, deref_card at 1.
  rewrite Hc, Hcls. wp_settle.
Qed.
End Accepted.

Lemma posted_posted_as self a f trans g w card acc :
  card_heap w !! self = Some card →
  account_heap w !! a = Some acc →
  posted_as w (posted self a f trans g w) self a card (f acc) trans.
Proof.
  intros Hc Hacc. destruct (posted_projections self a f trans g w card acc Hc Hacc)
    as (? & ? & ? & _ & ? & _).
  by repeat split.
Qed.

Lemma stamp_later w issue_date : issue_date < dt_date (stamp w issue_date).
Proof. unfold stamp, first_later. cbn. lia. Qed.

Lemma shop_world_reachable : reachable (U := ascii_only) Shop.world.
Proof.
  change Shop.world with (perform_all (U := ascii_only) Shop.calls Demo.world).
  apply reachable_perform_all, demo_world_reachable.
Qed.

Section OutOfDays.
Context {U : UnicodeDB}.

Lemma deposit_out_of_days w self card a amt :
  card_heap w !! self = Some card →
  account card = Some a →
  status card = ACTIVE →
  (amt <=? 0)%float = false →
  (DEPOSIT_LIMIT <? amt)%float = false →
  ¬ timestamps_left w (issue_date card) →
  Card.deposit self amt w = (failed_draw w, Uncaught (draw_error w)).
Proof. intros. unfold Card.deposit. wp_settle. Qed.

Lemma base_pay_out_of_days w self card a acc amt code :
  card_heap w !! self = Some card →
  account card = Some a →
  status card = ACTIVE →
  account_heap w !! a = Some acc →
  (amt <=? 0)%float = false →
  Card.invalid_mcc code = false →
  code ∉ FORBIDDEN_MCC →
  (PAY_LIMIT <? amt)%float = false →
  (Account.balance acc <? amt)%float = false →
  ¬ timestamps_left w (issue_date card) →
  Card.base_pay self amt code w = (failed_draw w, Uncaught (draw_error w)).
Proof. intros. unfold Card.base_pay. wp_settle. Qed.

Lemma cashback_pay_out_of_days w rate self card a acc amt code :
  card_heap w !! self = Some card →
  account card = Some a →
  status card = ACTIVE →
  account_heap w !! a = Some acc →
  (amt <=? 0)%float = false →
  Card.invalid_mcc code = false →
  (rate <? 0)%float = false →
  (MAX_CASHBACK_RATE <=? rate)%float = false →
  code ∉ FORBIDDEN_MCC →
  (PAY_LIMIT <? amt)%float = false →
  (Account.balance acc <? amt)%float = false →
  ¬ timestamps_left w (issue_date card) →
  Card.cashback_pay rate self amt code w = (failed_draw w, Uncaught (draw_error w)).
Proof. intros. unfold Card.cashback_pay. wp_settle. Qed.

Lemma accrue_interest_out_of_days w rate self card a acc :
  card_heap w !! self = Some card →
  cls card = ClsSavingCard rate →
  account card = Some a →
  status card = ACTIVE →
  account_heap w !! a = Some acc →
  (rate <? 0)%float = false →
  (MAX_SAVING_INTEREST_RATE <=? rate)%float = false →
  ¬ timestamps_left w (issue_date card) →
  let interest := PyRound.round2 (Account.balance acc * rate) in
  Card.accrue_interest self w
  = (failed_draw (update_account a (add_balance interest) w), Uncaught (draw_error w)).
Proof.
  intros Hc Hcls. intros. unfold Card.accrue_interest, bind at 1, deref_card at 1.
  rewrite Hc, Hcls. wp_settle.
Qed.
End OutOfDays.

Section AcceptedTheorems.
Context {U : UnicodeDB}.

(** X3: a deposit on an Active card of a reachable bank, of an amount
    that is neither [<= 0] nor above [DEPOSIT_LIMIT], returns while
    the timestamp generator has a day left after the card's issue
    date: the card's account gains the amount and one deposit
    transaction, stamped with that day, is appended to the card's list
    and to the ledger.  With no such day left the call dies of the
    exception of the draw before it has changed anything but the
    generator. *)
Theorem deposit_credits_account w self card a amt :
  reachable w →
  card_heap w !! self = Some card →
  account card = Some a →
  status card = ACTIVE →
  (amt <=? 0)%float = false →
  (DEPOSIT_LIMIT <? amt)%float = false →
  ∃ acc,
    account_heap w !! a = Some acc
    ∧ (timestamps_left w (issue_date card) →
       ∃ w',
         let trans := deposit_transaction card amt (stamp w (issue_date card)) in
         Card.deposit self amt w = (w', Return ())
         ∧ posted_as w w' self a card (add_balance amt acc) trans
         ∧ issue_date card < dt_date (timestamp trans))
    ∧ (¬ timestamps_left w (issue_date card) →
       Card.deposit self amt w = (failed_draw w, Uncaught (draw_error w))).
Proof.
  intros Hw%reachable_wf Hc Ha Hs Hamt Hlim.
  destruct (wf_card_linked w self card a Hw Hc Ha) as (Hb & acc & Hacc).
  exists acc. split; [done|]. split; [|by eapply deposit_out_of_days].
  intros Hleft. eexists. cbn zeta. split; [by apply deposit_accepted|].
  split; [by apply posted_posted_as|apply stamp_later].
Qed.

(** X4: a purchase on an Active card of the base class (or a
    SimpleDebitCard) with a four-digit code that is not forbidden, an
    amount that is neither [<= 0] nor above [PAY_LIMIT], and a balance
    not smaller than the amount returns while the timestamp generator
    has a day left after the card's issue date: the account loses the
    amount and one pay transaction carrying the code is appended to the
    card's list and to the ledger.  With no such day left the call
    dies of the exception of the draw before it has changed anything
    but the generator. *)
Theorem pay_debits_account w self card a acc amt code :
  reachable w →
  card_heap w !! self = Some card →
  cls card = ClsCard ∨ cls card = ClsSimpleDebitCard →
  account card = Some a →
  account_heap w !! a = Some acc →
  status card = ACTIVE →
  (amt <=? 0)%float = false →
  Card.invalid_mcc code = false →
  code ∉ FORBIDDEN_MCC →
  (PAY_LIMIT <? amt)%float = false →
  (Account.balance acc <? amt)%float = false →
  (timestamps_left w (issue_date card) →
   ∃ w',
     let trans := pay_transaction card amt code (stamp w (issue_date card)) in
     Card.pay self amt code w = (w', Return ())
     ∧ posted_as w w' self a card (sub_balance amt acc) trans
     ∧ issue_date card < dt_date (timestamp trans))
  ∧ (¬ timestamps_left w (issue_date card) →
     Card.pay self amt code w = (failed_draw w, Uncaught (draw_error w))).
Proof.
  intros Hw%reachable_wf Hc Hcls Ha Hacc Hs Hamt Hcode Hforb Hlim Hfunds.
  destruct (wf_card_linked w self card a Hw Hc Ha) as (Hb & _).
  assert (Card.pay self amt code w = Card.base_pay self amt code w) as ->.
  { unfold Card.pay at 1, bind at 1, deref_card at 1. rewrite Hc.
    by destruct Hcls as [-> | ->]. }
  split; [|by eapply base_pay_out_of_days].
  intros Hleft. eexists. cbn zeta. split; [by eapply base_pay_accepted|].
  split; [by apply posted_posted_as|apply stamp_later].
Qed.

(** X5: a purchase on an Active CashbackDebitCard whose rate is neither
    negative nor [>= MAX_CASHBACK_RATE], under the same conditions,
    returns while the timestamp generator has a day left after the
    card's issue date: the account loses the amount, its cashback
    balance gains [round(amount * rate, 2)], and the transaction
    records that cashback.  With no such day left the call dies of the
    exception of the draw before it has changed anything but the
    generator. *)
Theorem cashback_pay_debits_account w rate self card a acc amt code :
  reachable w →
  card_heap w !! self = Some card →
  cls card = ClsCashbackDebitCard rate →
  account card = Some a →
  account_heap w !! a = Some acc →
  status card = ACTIVE →
  (amt <=? 0)%float = false →
  Card.invalid_mcc code = false →
  (rate <? 0)%float = false →
  (MAX_CASHBACK_RATE <=? rate)%float = false →
  code ∉ FORBIDDEN_MCC →
  (PAY_LIMIT <? amt)%float = false →
  (Account.balance acc <? amt)%float = false →
  (timestamps_left w (issue_date card) →
   ∃ w',
     let cashback := PyRound.round2 (amt * rate) in
     let trans :=
       cashback_pay_transaction card amt code cashback (stamp w (issue_date card)) in
     Card.pay self amt code w = (w', Return ())
     ∧ posted_as w w' self a card (add_cashback_balance cashback (sub_balance amt acc))
         trans
     ∧ cash_back trans = cashback
     ∧ issue_date card < dt_date (timestamp trans))
  ∧ (¬ timestamps_left w (issue_date card) →
     Card.pay self amt code w = (failed_draw w, Uncaught (draw_error w))).
Proof.
  intros Hw%reachable_wf Hc Hcls Ha Hacc Hs Hamt Hcode Hneg Hmax Hforb Hlim Hfunds.
  destruct (wf_card_linked w self card a Hw Hc Ha) as (Hb & _).
  assert (Card.pay self amt code w = Card.cashback_pay rate self amt code w) as ->.
  { unfold Card.pay at 1, bind at 1, deref_card at 1. by rewrite Hc, Hcls. }
  split; [|by eapply cashback_pay_out_of_days].
  intros Hleft. eexists. cbn zeta. split; [by eapply cashback_pay_accepted|].
  split; [by apply (posted_posted_as self a (add_cashback_balance _ ∘ sub_balance amt))|].
  split; [done|apply stamp_later].
Qed.

(** X6: [accrue_interest] on an Active SavingCard whose rate is neither
    negative nor [>= MAX_SAVING_INTEREST_RATE] returns while the
    timestamp generator has a day left after the card's issue date:
    the account gains [round(balance * rate, 2)] and one interest
    transaction of that amount is appended to the card's list and to
    the ledger.  With no such day left the interest is credited all
    the same, and then the call dies of the exception of the draw: the
    balance has grown and no transaction records it. *)
Theorem accrue_interest_credits_account w rate self card a :
  reachable w →
  card_heap w !! self = Some card →
  cls card = ClsSavingCard rate →
  account card = Some a →
  status card = ACTIVE →
  (rate <? 0)%float = false →
  (MAX_SAVING_INTEREST_RATE <=? rate)%float = false →
  ∃ acc,
    let interest := PyRound.round2 (Account.balance acc * rate) in
    account_heap w !! a = Some acc
    ∧ (timestamps_left w (issue_date card) →
       ∃ w',
         let trans := interest_transaction card interest (stamp w (issue_date card)) in
         Card.accrue_interest self w = (w', Return ())
         ∧ posted_as w w' self a card (add_balance interest acc) trans
         ∧ issue_date card < dt_date (timestamp trans))
    ∧ (¬ timestamps_left w (issue_date card) →
       Card.accrue_interest self w
       = (failed_draw (update_account a (add_balance interest) w),
          Uncaught (draw_error w))).
Proof.
  intros Hw%reachable_wf Hc Hcls Ha Hs Hneg Hmax.
  destruct (wf_card_linked w self card a Hw Hc Ha) as (Hb & acc & Hacc).
  exists acc. cbn zeta. split; [done|].
  split; [|by eapply accrue_interest_out_of_days].
  intros Hleft. eexists. split; [by eapply accrue_interest_accepted|].
  split; [by apply posted_posted_as|apply stamp_later].
Qed.
End AcceptedTheorems.

Lemma late_world_reachable : reachable (U := ascii_only) Late.world.
Proof.
  change Late.world with
    (perform_all (U := ascii_only) (Demo.calls ++ Shop.calls)
       (Bank.new (lit "Bank") (lit "044525974") 0 2913901 [])).
  apply reachable_perform_all. constructor.
Qed.

Lemma deposit_credits_account_witness :
  (∃ w', Card.deposit 0 500 Demo.world = (w', Return ())
         ∧ Account.balance <$> account_heap w' = [1500; 0]%float)
  ∧ TIMESTAMP_GENERATOR Late.world = 2913904%N
  ∧ Card.deposit 0 500 Late.world
    = (set_TIMESTAMP_GENERATOR 2913905 Late.world, Uncaught OverflowError).
Proof.
  split.
  - destruct (deposit_credits_account (U := ascii_only) Demo.world 0 _ _ 500
                demo_world_reachable eq_refl eq_refl eq_refl eq_refl eq_refl)
      as (acc & Hacc & Hrun & _).
    destruct (Hrun ltac:(by vm_compute)) as (w' & Hdep & (Hah & _) & _).
    exists w'. split; [exact Hdep|]. rewrite Hah. vm_compute in Hacc.
    injection Hacc as <-. by vm_compute.
  - split; [done|].
    destruct (deposit_credits_account (U := ascii_only) Late.world 0 _ _ 500
                late_world_reachable eq_refl eq_refl eq_refl eq_refl eq_refl)
      as (acc & _ & _ & Hfail).
    exact (Hfail ltac:(vm_compute; intros H; by apply H)).
Defined.

Lemma pay_debits_account_witness :
  ∃ w', Card.pay (U := ascii_only) 0 300 (lit "5411") Demo.world = (w', Return ())
        ∧ Account.balance <$> account_heap w' = [700; 0]%float.
Proof.
  destruct (pay_debits_account (U := ascii_only) Demo.world 0 _ _ _ 300 (lit "5411")
              demo_world_reachable eq_refl (or_introl eq_refl) eq_refl eq_refl eq_refl
              eq_refl eq_refl ltac:(apply (bool_decide_unpack _); by vm_compute)
              eq_refl eq_refl)
    as [Hrun _].
  destruct (Hrun ltac:(by vm_compute)) as (w' & Hpay & (Hah & _) & _).
  exists w'. split; [exact Hpay|]. by rewrite Hah.
Defined.

Lemma cashback_pay_debits_account_witness :
  ∃ w', Card.pay (U := ascii_only) 2 200 (lit "5411") Shop.world = (w', Return ())
        ∧ (λ acc, (Account.balance acc, Account.cashback_balance acc)) <$> account_heap w'
          = [(1000, 0); (2000, 0); (800, 6)]%float.
Proof.
  destruct (cashback_pay_debits_account (U := ascii_only) Shop.world _ 2 _ _ _ 200 (lit "5411")
              shop_world_reachable eq_refl eq_refl eq_refl eq_refl eq_refl
              eq_refl eq_refl eq_refl eq_refl
              ltac:(apply (bool_decide_unpack _); by vm_compute) eq_refl eq_refl)
    as [Hrun _].
  destruct (Hrun ltac:(by vm_compute)) as (w' & Hpay & (Hah & _) & _).
  exists w'. split; [exact Hpay|]. rewrite Hah. by vm_compute.
Defined.

Lemma accrue_interest_credits_account_witness :
  (∃ w', Card.accrue_interest 1 Shop.world = (w', Return ())
         ∧ Account.balance <$> account_heap w' = [1000; 2030; 1000]%float)
  ∧ ∃ w', Card.accrue_interest 1 Late.world = (w', Uncaught OverflowError)
          ∧ Account.balance <$> account_heap Late.world = [1000; 2000; 1000]%float
          ∧ Account.balance <$> account_heap w' = [1000; 2030; 1000]%float
          ∧ transaction_log (the_bank w') = transaction_log (the_bank Late.world)
          ∧ transactions <$> card_heap w' = transactions <$> card_heap Late.world.
Proof.
  split.
  - destruct (accrue_interest_credits_account (U := ascii_only) Shop.world _ 1 _ _
                shop_world_reachable eq_refl eq_refl eq_refl eq_refl eq_refl eq_refl)
      as (acc & Hacc & Hrun & _).
    destruct (Hrun ltac:(by vm_compute)) as (w' & Hacr & (Hah & _) & _).
    exists w'. split; [exact Hacr|]. rewrite Hah. vm_compute in Hacc.
    injection Hacc as <-. by vm_compute.
  - destruct (accrue_interest_credits_account (U := ascii_only) Late.world _ 1 _ _
                late_world_reachable eq_refl eq_refl eq_refl eq_refl eq_refl eq_refl)
      as (acc & Hacc & _ & Hfail).
    specialize (Hfail ltac:(vm_compute; intros H; by apply H)).
    vm_compute in Hacc. injection Hacc as <-.
    eexists. split; [exact Hfail|]. by vm_compute.
Defined.

(** ** Calls that are turned down *)

Lemma branch_world_reachable : reachable (U := ascii_only) Branch.world.
Proof.
  change Branch.world with (perform_all (U := ascii_only) Branch.calls Shop.world).
  apply reachable_perform_all, shop_world_reachable.
Qed.

Lemma wf_card_account w c card :
  wf w → card_heap w !! c = Some card →
  ∃ a acc, account card = Some a ∧ account_heap w !! a = Some acc ∧ bank card = Some ().
Proof.
  intros Hw Hc.
  destruct (Forall_lookup_1 _ _ _ _ (wf_account_linked w Hw) Hc) as (a & Ha & Hlt).
  destruct (wf_card_linked w c card a Hw Hc Ha) as (Hb & acc & Hacc). by exists a, acc.
Qed.

Lemma update_card_idem c f w :
  (∀ card, f (f card) = f card) → update_card c f (update_card c f w) = update_card c f w.
Proof.
  intros Hf. unfold update_card, set_card_heap. cbn. f_equal.
  rewrite list_alter_alter_eq. apply list_alter_ext; [|done]. intros card _. apply Hf.
Qed.

Section Refusals.
Context {U : UnicodeDB}.

Lemma pay_dispatch w self card amt code :
  card_heap w !! self = Some card →
  Card.pay self amt code w
  = match cls card with
    | ClsCard | ClsSimpleDebitCard => Card.base_pay self amt code w
    | ClsCashbackDebitCard rate => Card.cashback_pay rate self amt code w
    | ClsSavingCard _ => Card.saving_pay self amt code w
    end.
Proof.
  intros Hc. unfold Card.pay at 1, bind at 1, deref_card at 1. rewrite Hc.
  by destruct (cls card).
Qed.

Ltac bank_linked Hb :=
  exfalso;
  match goal with
  | H : negb (bool_decide (is_Some (bank _))) = true |- _ =>
      rewrite Hb, bool_decide_eq_true_2 in H by done; done
  end.

Ltac pay_cases Hc :=
  rewrite (pay_dispatch _ _ _ _ _ Hc);
  match goal with
  | |- context [cls ?card] => destruct (cls card) eqn:?; simplify_eq/=
  end;
  unfold Card.base_pay, Card.cashback_pay.

(** X7: the amount and the merchant code are validated before anything
    about the card is looked at: on any card, whatever its status, a
    deposit or a transfer of an amount [<= 0] raises [ValidationError],
    and so does a purchase of such an amount or with a code that is not
    four digits on a card that is not a SavingCard; the state is left
    as it was. *)
Theorem arguments_validated_first w self card :
  card_heap w !! self = Some card →
  (∀ amt, (amt <=? 0)%float = true →
     Card.deposit self amt w = (w, Raise ValidationError DEPOSIT_AMOUNT_NEGATIVE)
     ∧ (∀ dst, Card.transfer self dst amt w = (w, Raise ValidationError AMOUNT_NEGATIVE))
     ∧ (∀ code, paying_class (cls card) = true →
          Card.pay self amt code w = (w, Raise ValidationError PAY_AMOUNT_NEGATIVE)))
  ∧ (∀ amt code,
       paying_class (cls card) = true →
       (amt <=? 0)%float = false →
       Card.invalid_mcc code = true →
       Card.pay self amt code w = (w, Raise ValidationError INVALID_MCC)).
Proof.
  intros Hc. split.
  - intros amt Hamt. split; [by eapply deposit_nonpositive|].
    split; [intros; by eapply transfer_nonpositive|].
    intros code Hcls. pay_cases Hc; wp_exact.
  - intros amt code Hcls Hamt Hcode. pay_cases Hc; wp_exact.
Qed.

(** X8: a purchase with a forbidden merchant code on an Active card
    raises [BusinessRuleError] naming the code and changes nothing,
    whatever the amount and the balance: the check comes before the
    limit, so an amount above [PAY_LIMIT] does not block the card. *)
Theorem forbidden_mcc_rejected w self card a amt code :
  card_heap w !! self = Some card →
  account card = Some a →
  status card = ACTIVE →
  paying_class (cls card) = true →
  cashback_rate_passes (cls card) = true →
  (amt <=? 0)%float = false →
  Card.invalid_mcc code = false →
  code ∈ FORBIDDEN_MCC →
  Card.pay self amt code w = (w, Raise BusinessRuleError (MCC_FORBIDDEN code)).
Proof.
  intros Hc Ha Hs Hcls Hrate Hamt Hcode Hforb.
  pay_cases Hc; try apply andb_prop in Hrate as [?%negb_true_iff ?%negb_true_iff]; wp_exact.
Qed.

(** X9: a purchase above [PAY_LIMIT] with an allowed code on an Active
    card raises [BusinessRuleError] and blocks the card; no account, no
    ledger and no transaction list changes, and the balance is not
    looked at. *)
Theorem pay_over_limit_blocks w self card a amt code :
  card_heap w !! self = Some card →
  account card = Some a →
  status card = ACTIVE →
  paying_class (cls card) = true →
  cashback_rate_passes (cls card) = true →
  Card.invalid_mcc code = false →
  code ∉ FORBIDDEN_MCC →
  (PAY_LIMIT <? amt)%float = true →
  let w' := update_card self (set_status BLOCKED) w in
  Card.pay self amt code w = (w', Raise BusinessRuleError PURCHASE_LIMIT_EXCEEDED)
  ∧ card_heap w' = <[self := set_status BLOCKED card]> (card_heap w)
  ∧ account_heap w' = account_heap w
  ∧ the_bank w' = the_bank w.
Proof.
  intros Hc Ha Hs Hcls Hrate Hcode Hforb Hamt w'.
  assert ((amt <=? 0)%float = false) by by apply (above_limit_positive PAY_LIMIT).
  split; [|split; [by apply alter_insert|done]]. subst w'.
  pay_cases Hc; try apply andb_prop in Hrate as [?%negb_true_iff ?%negb_true_iff]; wp_exact.
Qed.

(** X10: a transfer above [TRANSFER_LIMIT] from an Active card to another
    Active card raises [BusinessRuleError] and blocks the sender; no
    account, no ledger and no transaction list changes, and the balance
    is not looked at. *)
Theorem transfer_over_limit_blocks w self dst card dst_card a dst_a amt :
  card_heap w !! self = Some card →
  card_heap w !! dst = Some dst_card →
  card_id card ≠ card_id dst_card →
  account card = Some a →
  account dst_card = Some dst_a →
  status card = ACTIVE →
  status dst_card = ACTIVE →
  (TRANSFER_LIMIT <? amt)%float = true →
  let w' := update_card self (set_status BLOCKED) w in
  Card.transfer self (Some dst) amt w = (w', Raise BusinessRuleError TRANSFER_LIMIT_EXCEEDED)
  ∧ card_heap w' = <[self := set_status BLOCKED card]> (card_heap w)
  ∧ account_heap w' = account_heap w
  ∧ the_bank w' = the_bank w.
Proof.
  intros Hc Hd Hne Ha Hda Hs Hds Hamt w'.
  assert ((amt <=? 0)%float = false) by by apply (above_limit_positive TRANSFER_LIMIT).
  split; [|split; [by apply alter_insert|done]]. subst w'.
  unfold Card.transfer. wp_exact.
Qed.

(** X11: a transfer of an amount that is not [<= 0] with no recipient
    raises [NotFoundError], whatever the sender's status; to a Closed
    or Blocked recipient, from an Active card, it raises [AccessError]
    with the recipient's message.  Neither changes anything. *)
Theorem transfer_recipient_checked w self card amt :
  card_heap w !! self = Some card →
  (amt <=? 0)%float = false →
  Card.transfer self None amt w = (w, Raise NotFoundError RECIPIENT_NOT_FOUND)
  ∧ (∀ dst dst_card a dst_a,
       card_heap w !! dst = Some dst_card →
       account card = Some a →
       account dst_card = Some dst_a →
       status card = ACTIVE →
       status dst_card ≠ ACTIVE →
       Card.transfer self (Some dst) amt w = (w, Raise AccessError RECIPIENT_CARD_CLOSED)).
Proof.
  intros Hc Hamt. split; [unfold Card.transfer; wp_exact|].
  intros dst dst_card a dst_a Hd Ha Hda Hs Hds. unfold Card.transfer. wp_exact.
  all: by destruct (status dst_card).
Qed.

(** X12: a card of a reachable bank that is Closed or Blocked refuses
    every operation whose arguments are valid: the two readers, the
    history, a deposit, a transfer to any card, a purchase (on a class
    that has purchases) and the interest all raise [AccessError] with
    the closed-card message and change nothing. *)
Theorem inactive_card_refuses w self card :
  reachable w →
  card_heap w !! self = Some card →
  status card ≠ ACTIVE →
  refused_as_closed (Card.get_balance self) w
  ∧ (∀ fields, refused_as_closed (Card.get_card_info self fields) w)
  ∧ refused_as_closed (Card.get_transaction_history self) w
  ∧ (∀ amt, (amt <=? 0)%float = false → refused_as_closed (Card.deposit self amt) w)
  ∧ (∀ amt dst,
       (amt <=? 0)%float = false → is_Some (card_heap w !! dst) →
       refused_as_closed (Card.transfer self (Some dst) amt) w)
  ∧ (∀ amt code,
       paying_class (cls card) = true →
       (amt <=? 0)%float = false →
       Card.invalid_mcc code = false →
       (∀ rate, cls card = ClsCashbackDebitCard rate → (rate <? 0)%float = false) →
       refused_as_closed (Card.pay self amt code) w)
  ∧ (∀ rate,
       cls card = ClsSavingCard rate → (rate <? 0)%float = false →
       refused_as_closed (Card.accrue_interest self) w).
Proof.
  intros Hw%reachable_wf Hc Hs.
  destruct (wf_card_account w self card Hw Hc) as (a & acc & Ha & Hacc & Hb).
  assert (closed_or_blocked (status card) = true) as Hcb by by destruct (status card).
  unfold refused_as_closed. repeat split.
  - unfold Card.get_balance. wp_exact.
  - intros fields. unfold Card.get_card_info. wp_exact.
  - unfold Card.get_transaction_history. wp_exact.
    bank_linked Hb.
  - intros amt Hamt. by eapply deposit_not_active.
  - intros amt dst Hamt [dst_card Hd].
    destruct (wf_card_account w dst dst_card Hw Hd) as (dst_a & _ & Hda & _).
    unfold Card.transfer. wp_exact.
  - intros amt code Hcls Hamt Hcode Hrate.
    pay_cases Hc; try specialize (Hrate _ eq_refl); wp_exact.
  - intros rate Hcls Hrate. unfold Card.accrue_interest, bind at 1, deref_card at 1.
    rewrite Hc, Hcls. wp_exact.
Qed.

(** X13: the rate of a CashbackDebitCard is checked at every purchase
    with valid arguments: a negative rate raises [ValidationError] and
    changes nothing, whatever the card's status; a rate that is not
    below [MAX_CASHBACK_RATE] blocks an Active card with
    [BusinessRuleError], whatever the code, the amount and the
    balance. *)
Theorem cashback_rate_checked w self card rate amt code :
  card_heap w !! self = Some card →
  cls card = ClsCashbackDebitCard rate →
  (amt <=? 0)%float = false →
  Card.invalid_mcc code = false →
  ((rate <? 0)%float = true →
   Card.pay self amt code w = (w, Raise ValidationError CASHBACK_NEGATIVE))
  ∧ (∀ a,
       (rate <? 0)%float = false →
       (MAX_CASHBACK_RATE <=? rate)%float = true →
       account card = Some a →
       status card = ACTIVE →
       Card.pay self amt code w
       = (update_card self (set_status BLOCKED) w, Raise BusinessRuleError CASHBACK_LIMIT)).
Proof.
  intros Hc Hcls Hamt Hcode.
  rewrite (pay_dispatch _ _ _ _ _ Hc), Hcls. unfold Card.cashback_pay.
  split; [intros; wp_exact|]. intros a Hneg Hmax Ha Hs. wp_exact.
Qed.

(** X14: the rate of a SavingCard is checked when interest is accrued: a
    negative rate raises [ValidationError] and changes nothing,
    whatever the card's status; a rate that is not below
    [MAX_SAVING_INTEREST_RATE] blocks an Active card with
    [BusinessRuleError] and credits nothing. *)
Theorem interest_rate_checked w self card rate :
  card_heap w !! self = Some card →
  cls card = ClsSavingCard rate →
  ((rate <? 0)%float = true →
   Card.accrue_interest self w = (w, Raise ValidationError INTEREST_NEGATIVE))
  ∧ (∀ a,
       (rate <? 0)%float = false →
       (MAX_SAVING_INTEREST_RATE <=? rate)%float = true →
       account card = Some a →
       status card = ACTIVE →
       let w' := update_card self (set_status BLOCKED) w in
       Card.accrue_interest self w = (w', Raise BusinessRuleError SAVING_RATE_TOO_HIGH)
       ∧ account_heap w' = account_heap w).
Proof.
  intros Hc Hcls. split.
  - intros Hneg. unfold Card.accrue_interest, bind at 1, deref_card at 1.
    rewrite Hc, Hcls. wp_exact.
  - intros a Hneg Hmax Ha Hs w'. split; [|done]. subst w'.
    unfold Card.accrue_interest, bind at 1, deref_card at 1.
    rewrite Hc, Hcls. wp_exact.
Qed.

(** X15: [get_balance] and [get_card_info] change no account, no card
    and no bank record, whether they return or raise, also behind the
    decorator; on an Active card of a reachable bank [get_balance]
    returns the balance of the card's account. *)
Theorem readers_change_nothing w self :
  same_books w (perform (call_get_balance self) w)
  ∧ (∀ fields, same_books w (perform (call_get_card_info self fields) w))
  ∧ (∀ card a acc,
       reachable w →
       card_heap w !! self = Some card →
       status card = ACTIVE →
       account card = Some a →
       account_heap w !! a = Some acc →
       Card.get_balance self w = (w, Return (Account.balance acc))).
Proof.
  split; [|split].
  - cbn [perform]. apply (wp_elim _ (same_books w)), wp_try_except_dec.
    unfold Card.get_balance. wp_run; done.
  - intros fields. cbn [perform]. apply (wp_elim _ (same_books w)), wp_try_except_dec.
    unfold Card.get_card_info. wp_run; done.
  - intros card a acc _ Hc Hs Ha Hacc. unfold Card.get_balance. wp_exact.
Qed.

(** X16: on an Active card with its account and its bank
    [get_transaction_history] returns (after the header line) one line
    for each of the card's transactions in the order of their
    timestamps, with the sign [+] exactly when the card is the
    recipient; the card's list is left in that order and nothing else
    changes, so a second call returns the same lines and changes
    nothing. *)
Theorem get_transaction_history_sorts w self card a :
  card_heap w !! self = Some card →
  account card = Some a →
  bank card = Some () →
  status card = ACTIVE →
  let sorted := sort_by_timestamp (transactions card) in
  let w' := update_card self (set_transactions sorted) w in
  Card.get_transaction_history self w = (w', Return (signed (card_id card) sorted))
  ∧ sorted ≡ₚ transactions card
  ∧ chronological sorted
  ∧ (∀ trans, (true, trans) ∈ signed (card_id card) sorted ↔
              trans ∈ transactions card ∧ to_card trans = Some (card_id card))
  ∧ card_heap w' = <[self := set_transactions sorted card]> (card_heap w)
  ∧ Card.get_transaction_history self w' = (w', Return (signed (card_id card) sorted)).
Proof.
  intros Hc Ha Hb Hs sorted w'.
  assert (card_heap w' = <[self := set_transactions sorted card]> (card_heap w)) as Hh
    by by apply alter_insert.
  assert (card_heap w' !! self = Some (set_transactions sorted card)) as Hc'.
  { rewrite Hh. apply list_lookup_insert_eq. by eapply lookup_lt_Some. }
  assert (sort_by_timestamp sorted = sorted) as Hfix
    by apply sort_by_timestamp_chronological, sort_by_timestamp_sorted.
  split; [|split; [apply sort_by_timestamp_perm|split;
    [apply sort_by_timestamp_sorted|split; [|split; [done|]]]]].
  - subst w'. unfold Card.get_transaction_history. wp_exact.
    bank_linked Hb.
  - intros trans. unfold signed. rewrite list_elem_of_fmap.
    pose proof (sort_by_timestamp_perm (transactions card)) as Hperm. fold sorted in Hperm.
    split.
    + intros (t & [= Hsign ->] & Hin). symmetry in Hsign.
      apply bool_decide_eq_true_1 in Hsign.
      split; [by rewrite <- Hperm|done].
    + intros [Hin Hto]. exists trans. split.
      * by rewrite bool_decide_eq_true_2.
      * by rewrite Hperm.
  - unfold Card.get_transaction_history. apply wp_eq. wp_run; simplify_eq/=.
    all: try (by bank_linked Hb).
    all: try (by rewrite Hs in *).
    split; [|by rewrite Hfix].
    rewrite Hfix. by apply update_card_idem.
Qed.

(** X17: [close] sets the status to Closed whatever it was (a Blocked
    card too) and changes nothing else; closing again changes nothing,
    and a deposit of a valid amount on the closed card is refused. *)
Theorem close_closes w self card :
  reachable w →
  card_heap w !! self = Some card →
  let w' := update_card self (set_status CLOSED) w in
  Card.close self w = (w', Return ())
  ∧ card_heap w' = <[self := set_status CLOSED card]> (card_heap w)
  ∧ account_heap w' = account_heap w
  ∧ the_bank w' = the_bank w
  ∧ error_log w' = error_log w
  ∧ Card.close self w' = (w', Return ())
  ∧ (∀ amt, (amt <=? 0)%float = false → refused_as_closed (Card.deposit self amt) w').
Proof.
  intros Hw%reachable_wf Hc w'.
  destruct (wf_card_account w self card Hw Hc) as (a & acc & Ha & Hacc & Hb).
  assert (card_heap w' = <[self := set_status CLOSED card]> (card_heap w)) as Hh
    by by apply alter_insert.
  assert (card_heap w' !! self = Some (set_status CLOSED card)) as Hc'.
  { rewrite Hh. apply list_lookup_insert_eq. by eapply lookup_lt_Some. }
  repeat split; try done.
  - unfold Card.close. wp_exact.
  - unfold Card.close. apply wp_eq. wp_run; simplify_eq/=. split; [|done].
    by apply update_card_idem.
  - intros amt Hamt. by eapply deposit_not_active.
Qed.
End Refusals.

(** ** The refusals at work *)

Lemma arguments_validated_first_witness :
  Card.deposit 0 (-5) Demo.world = (Demo.world, Raise ValidationError DEPOSIT_AMOUNT_NEGATIVE)
  ∧ Card.pay (U := ascii_only) 0 10 (lit "54a1") Demo.world
    = (Demo.world, Raise ValidationError INVALID_MCC).
Proof.
  destruct (arguments_validated_first (U := ascii_only) Demo.world 0 _ eq_refl) as [H1 H2].
  split; [exact (proj1 (H1 (-5)%float eq_refl))|].
  exact (H2 10%float (lit "54a1") eq_refl eq_refl eq_refl).
Defined.

Lemma forbidden_mcc_rejected_witness :
  Card.pay (U := ascii_only) 0 600000 (lit "7995") Demo.world
  = (Demo.world, Raise BusinessRuleError (MCC_FORBIDDEN (lit "7995"))).
Proof.
  exact (forbidden_mcc_rejected (U := ascii_only) Demo.world 0 _ 0%nat 600000 (lit "7995")
           eq_refl eq_refl eq_refl eq_refl eq_refl eq_refl eq_refl
           ltac:(apply (bool_decide_unpack _); by vm_compute)).
Defined.

Lemma pay_over_limit_blocks_witness :
  ∃ w', Card.pay (U := ascii_only) 0 600000 (lit "5411") Demo.world
        = (w', Raise BusinessRuleError PURCHASE_LIMIT_EXCEEDED)
        ∧ status <$> card_heap w' = [BLOCKED; ACTIVE]
        ∧ account_heap w' = account_heap Demo.world.
Proof.
  destruct (pay_over_limit_blocks (U := ascii_only) Demo.world 0 _ 0%nat 600000 (lit "5411")
              eq_refl eq_refl eq_refl eq_refl eq_refl eq_refl
              ltac:(apply (bool_decide_unpack _); by vm_compute) eq_refl)
    as (Hrun & Hh & Hacc & _).
  eexists. split; [exact Hrun|]. split; [by rewrite Hh|exact Hacc].
Defined.

Lemma transfer_over_limit_blocks_witness :
  ∃ w', Card.transfer 0 (Some 1%nat) 600000 Demo.world
        = (w', Raise BusinessRuleError TRANSFER_LIMIT_EXCEEDED)
        ∧ status <$> card_heap w' = [BLOCKED; ACTIVE]
        ∧ account_heap w' = account_heap Demo.world.
Proof.
  destruct (transfer_over_limit_blocks Demo.world 0 1 _ _ 0%nat 1%nat 600000
              eq_refl eq_refl ltac:(by vm_compute) eq_refl eq_refl eq_refl eq_refl eq_refl)
    as (Hrun & Hh & Hacc & _).
  eexists. split; [exact Hrun|]. split; [by rewrite Hh|exact Hacc].
Defined.

Lemma transfer_recipient_checked_witness :
  Card.transfer 1 None 10 Branch.world = (Branch.world, Raise NotFoundError RECIPIENT_NOT_FOUND)
  ∧ Card.transfer 1 (Some 0%nat) 10 Branch.world
    = (Branch.world, Raise AccessError RECIPIENT_CARD_CLOSED).
Proof.
  destruct (transfer_recipient_checked Branch.world 1 _ 10 eq_refl eq_refl) as [H1 H2].
  split; [exact H1|].
  exact (H2 0%nat _ 1%nat 0%nat eq_refl eq_refl eq_refl eq_refl ltac:(by vm_compute)).
Defined.

Lemma inactive_card_refuses_witness :
  refused_as_closed (Card.get_balance 0) Branch.world
  ∧ refused_as_closed (Card.deposit 0 10) Branch.world
  ∧ refused_as_closed (Card.transfer 0 (Some 1%nat) 10) Branch.world
  ∧ refused_as_closed (Card.pay (U := ascii_only) 0 10 (lit "5411")) Branch.world.
Proof.
  destruct (inactive_card_refuses (U := ascii_only) Branch.world 0 _
              branch_world_reachable eq_refl ltac:(by vm_compute))
    as (Hbal & _ & _ & Hdep & Htr & Hpay & _).
  split; [exact Hbal|]. split; [exact (Hdep 10%float eq_refl)|].
  split; [exact (Htr 10%float 1%nat eq_refl (mk_is_Some _ _ eq_refl))|].
  apply (Hpay 10%float (lit "5411") eq_refl eq_refl eq_refl). intros rate Hcls.
  by vm_compute in Hcls.
Defined.

Lemma cashback_rate_checked_witness :
  ∃ w', Card.pay (U := ascii_only) 3 10 (lit "5411") Branch.world
        = (w', Raise BusinessRuleError CASHBACK_LIMIT)
        ∧ card_heap w' !! 3%nat ≫= (λ card, Some (status card)) = Some BLOCKED
  ∧ Card.pay (U := ascii_only) 5 10 (lit "5411") Branch.world
    = (Branch.world, Raise ValidationError CASHBACK_NEGATIVE).
Proof.
  destruct (cashback_rate_checked (U := ascii_only) Branch.world 3 _ _ 10 (lit "5411")
              eq_refl eq_refl eq_refl eq_refl) as [_ Hmax].
  destruct (cashback_rate_checked (U := ascii_only) Branch.world 5 _ _ 10 (lit "5411")
              eq_refl eq_refl eq_refl eq_refl) as [Hneg _].
  eexists. split; [exact (Hmax 3%nat eq_refl eq_refl eq_refl eq_refl)|].
  split; [by vm_compute|exact (Hneg eq_refl)].
Defined.

Lemma interest_rate_checked_witness :
  ∃ w', Card.accrue_interest 4 Branch.world = (w', Raise BusinessRuleError SAVING_RATE_TOO_HIGH)
        ∧ account_heap w' = account_heap Branch.world
  ∧ Card.accrue_interest 6 Branch.world
    = (Branch.world, Raise ValidationError INTEREST_NEGATIVE).
Proof.
  destruct (interest_rate_checked Branch.world 4 _ _ eq_refl eq_refl) as [_ Hmax].
  destruct (interest_rate_checked Branch.world 6 _ _ eq_refl eq_refl) as [Hneg _].
  destruct (Hmax 4%nat eq_refl eq_refl eq_refl eq_refl) as [Hrun Hacc].
  eexists. split; [exact Hrun|]. split; [exact Hacc|exact (Hneg eq_refl)].
Defined.

Lemma readers_change_nothing_witness :
  Card.get_balance 0 Demo.world = (Demo.world, Return 1000%float).
Proof.
  destruct (readers_change_nothing (U := ascii_only) Demo.world 0) as (_ & _ & Hbal).
  exact (Hbal _ 0%nat _ demo_world_reachable eq_refl eq_refl eq_refl eq_refl).
Defined.

Lemma get_transaction_history_sorts_witness :
  ∃ w' lines,
    Card.get_transaction_history 2 Branch.world = (w', Return lines)
    ∧ lines.*1 = [true; false]
    ∧ Card.get_transaction_history 2 w' = (w', Return lines).
Proof.
  destruct (get_transaction_history_sorts Branch.world 2 _ 2
              eq_refl eq_refl eq_refl eq_refl) as (Hrun & _ & _ & _ & _ & Hagain).
  eexists _, _. split; [exact Hrun|]. split; [by vm_compute|exact Hagain].
Defined.

Lemma close_closes_witness :
  ∃ w', Card.close 0 Demo.world = (w', Return ())
        ∧ status <$> card_heap w' = [CLOSED; ACTIVE]
        ∧ refused_as_closed (Card.deposit 0 10) w'.
Proof.
  destruct (close_closes (U := ascii_only) Demo.world 0 _ demo_world_reachable eq_refl)
    as (Hrun & Hh & _ & _ & _ & _ & Hdep).
  eexists. split; [exact Hrun|]. split; [by rewrite Hh|exact (Hdep 10%float eq_refl)].
Defined.

(** ** Changing the PIN *)

Lemma dict_alter_alter {V} (f g : V → V) k d :
  dict_alter g k (dict_alter f k d) = dict_alter (g ∘ f) k d.
Proof.
  induction d as [|[k' v] d IH]; [done|]. cbn.
  case_decide; cbn; [by rewrite decide_True|]. by rewrite decide_False, IH.
Qed.

Lemma dict_alter_same {V} (f : V → V) k v d :
  dict_lookup k d = Some v → f v = v → dict_alter f k d = d.
Proof.
  intros Hk Hf. induction d as [|[k' v'] d IH]; [done|]. cbn in *.
  case_decide; [by simplify_eq; rewrite Hf|]. by rewrite IH.
Qed.

Lemma set_customers_same b : set_customers (customers b) b = b.
Proof. by destruct b. Qed.

Lemma update_bank_customers_same w k f user :
  dict_lookup k (customers (the_bank w)) = Some user → f user = user →
  update_bank (λ b, set_customers (dict_alter f k (customers b)) b) w = w.
Proof.
  intros Hk Hf. unfold update_bank. rewrite (dict_alter_same f k user) by done.
  rewrite set_customers_same. by destruct w.
Qed.

Section ChangePin.
Context {U : UnicodeDB}.

Lemma change_pin_run w k user old_pin new_pin :
  dict_lookup k (customers (the_bank w)) = Some user →
  Bank.change_pin k old_pin new_pin w
  = (update_bank
       (λ b, set_customers
               (dict_alter (λ _, (User.change_pin user old_pin new_pin).1) k (customers b)) b)
       w,
     (User.change_pin user old_pin new_pin).2).
Proof.
  intros Hk. unfold Bank.change_pin, bind, gets. cbn. rewrite Hk.
  by destruct (User.change_pin user old_pin new_pin).
Qed.

(** X18: [change_pin] with the stored PIN and a new PIN of four digits
    returns and stores the new PIN for that user, leaving the other
    users, the accounts and the cards alone; changing back with the
    two PINs swapped restores the state exactly. *)
Theorem change_pin_round_trip w k user new_pin :
  dict_lookup k (customers (the_bank w)) = Some user →
  pin_ok (User.pin user) →
  pin_ok new_pin →
  ∃ w',
    Bank.change_pin k (User.pin user) new_pin w = (w', Return ())
    ∧ dict_lookup k (customers (the_bank w')) = Some (User.set_pin new_pin user)
    ∧ (∀ k', k' ≠ k →
         dict_lookup k' (customers (the_bank w')) = dict_lookup k' (customers (the_bank w)))
    ∧ card_heap w' = card_heap w
    ∧ account_heap w' = account_heap w
    ∧ Bank.change_pin k new_pin (User.pin user) w' = (w, Return ()).
Proof.
  intros Hk [Hlen Hdig] [Hlen' Hdig'].
  assert (∀ u p, User.pin u = p → pin_ok p → ∀ q, pin_ok q →
                 User.change_pin u p q = (User.set_pin q u, Return ())) as Hrun.
  { intros u p Hp [H1 H2] q [H3 H4]. unfold User.change_pin.
    rewrite H1, H2, H3, H4. cbn. by rewrite bool_decide_eq_true_2. }
  eexists. split; [|split; [|split; [|split; [|split]]]].
  - rewrite (change_pin_run _ _ _ _ _ Hk), Hrun; done.
  - cbn. by rewrite dict_lookup_alter_eq, Hk.
  - intros k' Hne. cbn. by rewrite dict_lookup_alter_ne.
  - done.
  - done.
  - erewrite change_pin_run; [|cbn; by rewrite dict_lookup_alter_eq, Hk].
    rewrite (Hrun (User.set_pin new_pin user) new_pin) by done.
    cbn. f_equal. unfold update_bank. cbn. rewrite dict_alter_alter.
    rewrite (dict_alter_same _ k user) by (done || by destruct user).
    destruct w as [? ? ? b ? ?]. by destruct b.
Qed.

(** X19: [change_pin] that is given a PIN that is not four characters,
    not all digits, or an old PIN that is not the stored one raises
    [ValidationError] (the length is checked first, then the digits,
    then the stored PIN) and leaves the whole state as it was. *)
Theorem change_pin_rejected w k user old_pin new_pin :
  dict_lookup k (customers (the_bank w)) = Some user →
  ¬ (pin_ok old_pin ∧ pin_ok new_pin ∧ old_pin = User.pin user) →
  Bank.change_pin k old_pin new_pin w
  = (w, Raise ValidationError (change_pin_error old_pin new_pin)).
Proof.
  intros Hk Hbad. rewrite (change_pin_run _ _ _ _ _ Hk).
  unfold User.change_pin, change_pin_error.
  destruct (negb (length new_pin =? 4)%nat || negb (length old_pin =? 4)%nat) eqn:E1;
    [cbn; by erewrite update_bank_customers_same|].
  destruct (negb (isdigit new_pin) || negb (isdigit old_pin)) eqn:E2;
    [cbn; by erewrite update_bank_customers_same|].
  case_bool_decide as E3; cbn; [|by erewrite update_bank_customers_same].
  exfalso. apply Hbad.
  apply orb_false_elim in E1 as [?%negb_false_iff%Nat.eqb_eq ?%negb_false_iff%Nat.eqb_eq].
  apply orb_false_elim in E2 as [?%negb_false_iff ?%negb_false_iff].
  by repeat split.
Qed.
End ChangePin.

(** ** Issuing to a new customer, and calls that stop half way *)

Section IssuingEdges.
Context {U : UnicodeDB}.

Lemma unknown_phone d phone last_name first_name :
  Forall (λ user, User.phone user ≠ phone) (dict_values d) →
  existsb (Bank.conflicts phone first_name last_name) (dict_values d) = false
  ∧ Bank.find_user phone last_name first_name d = None.
Proof.
  unfold dict_values. induction d as [|[k u] d IH]; [done|]. cbn.
  intros [Hu Hd]%Forall_cons. destruct (IH Hd) as [-> ->].
  unfold Bank.conflicts, Bank.same_user.
  rewrite (bool_decide_eq_false_2 (phone = _)) by done.
  by rewrite (bool_decide_eq_false_2 (_ = phone)) by done.
Qed.

Lemma ints_app_none_l s1 s2 : ints s1 = None → ints (s1 ++ s2) = None.
Proof.
  induction s1 as [|c s1 IH]; [done|]. cbn.
  destruct (int_char c); [|done]. destruct (ints s1); [done|]. by rewrite IH.
Qed.

Lemma next_account_number_value_error bic n :
  ints (last_chars 3 bic) = None → Ident._next_account_number bic n = Uncaught ValueError.
Proof.
  intros Hbic. unfold Ident._next_account_number, control_digit_loop. cbn [fmap list_fmap seq].
  unfold control_sum. by rewrite ints_app_none_l.
Qed.

Lemma new_card_type_error W card_class account_ cid payment_system pan_ kwargs :
  kwargs_fit card_class kwargs = false →
  Bank.new_card card_class account_ cid payment_system pan_ kwargs W
  = (W, Uncaught TypeError).
Proof.
  unfold kwargs_fit, Bank.new_card.
  by destruct card_class, (kw_cashback_rate kwargs), (kw_interest_rate kwargs).
Qed.

Lemma new_card_default W card_class account_ cid payment_system pan_ :
  can_issue W →
  Bank.new_card card_class account_ cid payment_system pan_ no_kwargs W
  = (Bank.push_card
       (mk_Card (default_class card_class) (Some account_) cid payment_system pan_
          (Z.of_N (ISSUE_DATE_GENERATOR W)) ACTIVE (Some ()) [])
       (set_ISSUE_DATE_GENERATOR (N.succ (ISSUE_DATE_GENERATOR W)) W),
     Return (length (card_heap W))).
Proof.
  intros [Hle [expiry Hexp]].
  destruct (next_issue_date_cases (ISSUE_DATE_GENERATOR W)) as [[_ Hnext] | [? _]]; [|lia].
  unfold Bank.new_card, Bank.next_issue_date.
  destruct card_class; cbn; unfold bind, Bank.lift; by rewrite Hnext, Hexp.
Qed.

(** The date is drawn, and then it has no expiry date. *)
Lemma new_card_no_expiry W card_class account_ cid payment_system pan_ :
  Z.of_N (ISSUE_DATE_GENERATOR W) ≤ LAST_DAY →
  expiry_date (Z.of_N (ISSUE_DATE_GENERATOR W)) = Uncaught ValueError →
  Bank.new_card card_class account_ cid payment_system pan_ no_kwargs W
  = (set_ISSUE_DATE_GENERATOR (N.succ (ISSUE_DATE_GENERATOR W)) W, Uncaught ValueError).
Proof.
  intros Hle Hexp.
  destruct (next_issue_date_cases (ISSUE_DATE_GENERATOR W)) as [[_ Hnext] | [? _]]; [|lia].
  unfold Bank.new_card, Bank.next_issue_date.
  destruct card_class; cbn; unfold bind, Bank.lift; by rewrite Hnext, Hexp.
Qed.

Lemma wp_exactly {A} (m : M A) w w' r (Q : World → outcome A → Prop) :
  m w = (w', r) → Q w' r → wp m Q w.
Proof. unfold wp. by intros ->. Qed.

(** X20: for a customer the bank of a reachable state does not hold yet
    (no user with that phone at all), [apply_for_card] with a PIN of
    four digits, Cyrillic names, a supported payment system, a BIC
    whose last three characters are digits and no keyword arguments
    returns the new card when the issue-date generator has a date left
    whose expiry date exists, and creates exactly one user, one account
    and one card: the user under the next user id with the card and
    the account in its lists, the account with balance zero under the
    next account number, the Active card of the class asked for with
    the next card id, the generated PAN, the next issue date and no
    transactions.  When the date that is drawn has no expiry date (a
    29 February whose fourth year after is no leap year, or a year
    above 9995) the call dies of the [ValueError] of the constructor:
    the user is registered, with no account and no card, and the date
    is used up. *)
Theorem apply_for_card_new_customer w last_name first_name pin phone system card_class :
  reachable w →
  pin_ok pin →
  Bank.fullmatch_name last_name = true →
  Bank.match_name first_name = true →
  upper system ∈ BIN_BY_SYSTEM.*1 →
  Forall (λ user, User.phone user ≠ phone) (dict_values (customers (the_bank w))) →
  is_Some (ints (last_chars 3 (bic (the_bank w)))) →
  let b := the_bank w in
  let uid := _user_seq b in
  let a := length (account_heap w) in
  let c := length (card_heap w) in
  let date := Z.of_N (ISSUE_DATE_GENERATOR w) in
  let run :=
    Bank.apply_for_card last_name first_name pin phone system card_class no_kwargs w in
  ∃ acc_id pan_,
    Ident._next_account_number (bic b) (_account_seq b) = Return (Some acc_id)
    ∧ Ident._generate_pan system (_pan_seq b) = Return pan_
    ∧ (can_issue w →
       ∃ w',
         run = (w', Return c)
         ∧ customers (the_bank w')
           = customers b ++ [(uid, User.mk last_name first_name pin phone uid [a] [c])]
         ∧ account_heap w'
           = account_heap w
             ++ [Account.mk uid (Some acc_id) DEFAULT_ACCOUNT_BALANCE
                   DEFAULT_CASHBACK_BALANCE]
         ∧ card_heap w'
           = card_heap w
             ++ [mk_Card (default_class card_class) (Some a) (_card_seq b) system pan_
                   date ACTIVE (Some ()) []]
         ∧ dict_lookup uid (cards (the_bank w')) = Some [c]
         ∧ dict_lookup uid (accounts (the_bank w')) = Some [a]
         ∧ transaction_log (the_bank w') = transaction_log b
         ∧ error_log w' = error_log w)
    ∧ (date ≤ LAST_DAY → expiry_date date = Uncaught ValueError →
       ∃ w',
         run = (w', Uncaught ValueError)
         ∧ customers (the_bank w')
           = customers b ++ [(uid, User.mk last_name first_name pin phone uid [] [])]
         ∧ card_heap w' = card_heap w
         ∧ dict_lookup uid (cards (the_bank w')) = Some []
         ∧ dict_lookup uid (accounts (the_bank w')) = Some []
         ∧ ISSUE_DATE_GENERATOR w' = N.succ (ISSUE_DATE_GENERATOR w)
         ∧ error_log w' = error_log w).
Proof.
  intros Hw%reachable_wf [H2 H1] H3 H4 H5 Hphone Hbic b uid a c date run.
  destruct (unknown_phone _ phone last_name first_name Hphone) as [H6 Hfind].
  destruct (AccountNumberFacts.next_account_number_control_digit
              (bic b) (_account_seq b) Hbic) as (d & _ & Hacc & _).
  destruct (PanFacts.generate_pan_spec system (_pan_seq b)) as (digits & _ & Hpan).
  set (acc_id := candidate_account_nuber _ _) in Hacc.
  set (pan_ := (_ ++ _)%list) in Hpan.
  pose proof (fresh_user_id w Hw) as Hfresh.
  exists acc_id, pan_. split; [done|]. split; [done|].
  assert (∀ Q : World → outcome nat → Prop,
            wp (Bank.apply_for_card last_name first_name pin phone system card_class
                  no_kwargs) Q w →
            ∃ w', run = (w', (run).2) ∧ Q w' (run).2) as Hout.
  { intros Q HQ. exists (run).1. split; [by destruct run|exact HQ]. }
  split.
  - intros Hissue.
    destruct (Hout (λ w' r, r = Return c
               ∧ customers (the_bank w')
                 = customers b ++ [(uid, User.mk last_name first_name pin phone uid [a] [c])]
               ∧ account_heap w'
                 = account_heap w
                   ++ [Account.mk uid (Some acc_id) DEFAULT_ACCOUNT_BALANCE
                         DEFAULT_CASHBACK_BALANCE]
               ∧ card_heap w'
                 = card_heap w
                   ++ [mk_Card (default_class card_class) (Some a) (_card_seq b) system pan_
                         date ACTIVE (Some ()) []]
               ∧ dict_lookup uid (cards (the_bank w')) = Some [c]
               ∧ dict_lookup uid (accounts (the_bank w')) = Some [a]
               ∧ transaction_log (the_bank w') = transaction_log b
               ∧ error_log w' = error_log w)) as (w' & Hrun & Hr & Hrest);
      [|exists w'; rewrite Hr in Hrun; by split].
    clear Hout. subst b uid a c date run.
    unfold Bank.apply_for_card, Bank._next_account_number, Bank._generate_pan,
      Bank.accounts_append, Bank.cards_append, Bank.modify_user.
    wp_run; subst.
    all: try (exfalso; rewrite ?H1, ?H2, ?H3, ?H4, ?H6, ?Hfind in *; cbn in *; congruence).
    all: try match goal with
         | H : negb (bool_decide _) = true |- _ =>
             exfalso; rewrite bool_decide_eq_true_2 in H by done; discriminate
         end.
    all: assert (∀ b', bic b' = bic (the_bank w) →
                   _account_seq b' = _account_seq (the_bank w) →
                   _next_account_number (bic b') (_account_seq b') = Return (Some acc_id))
           as Hacc' by (by intros b' -> ->).
    all: assert (∀ b', _pan_seq b' = _pan_seq (the_bank w) →
                   _generate_pan system (_pan_seq b') = Return pan_)
           as Hpan' by (by intros b' ->).
    all: repeat match goal with
         | H : _next_account_number _ _ = _ |- _ =>
             rewrite Hacc' in H by reflexivity; simplify_eq
         | H : _generate_pan _ _ = _ |- _ => rewrite Hpan' in H by reflexivity; simplify_eq
         end.
    eapply wp_exactly; [apply new_card_default; exact Hissue|]. cbn beta iota.
    wp_run; subst.
    all: try (exfalso;
              match goal with
              | H : dict_lookup _ _ = None |- _ =>
                  cbn in H; rewrite ?dict_lookup_alter_eq, dict_lookup_set_eq in H; done
              end).
    cbn. rewrite dict_set_fresh, !dict_alter_last by done.
    rewrite !dict_lookup_alter_eq, !dict_lookup_set_eq.
    by repeat split.
  - intros Hle Hexp.
    destruct (Hout (λ w' r, r = Uncaught ValueError
               ∧ customers (the_bank w')
                 = customers b ++ [(uid, User.mk last_name first_name pin phone uid [] [])]
               ∧ card_heap w' = card_heap w
               ∧ dict_lookup uid (cards (the_bank w')) = Some []
               ∧ dict_lookup uid (accounts (the_bank w')) = Some []
               ∧ ISSUE_DATE_GENERATOR w' = N.succ (ISSUE_DATE_GENERATOR w)
               ∧ error_log w' = error_log w)) as (w' & Hrun & Hr & Hrest);
      [|exists w'; rewrite Hr in Hrun; by split].
    clear Hout. subst b uid a c date run.
    unfold Bank.apply_for_card, Bank._next_account_number, Bank._generate_pan,
      Bank.accounts_append, Bank.cards_append, Bank.modify_user.
    wp_run; subst.
    all: try (exfalso; rewrite ?H1, ?H2, ?H3, ?H4, ?H6, ?Hfind in *; cbn in *; congruence).
    all: try match goal with
         | H : negb (bool_decide _) = true |- _ =>
             exfalso; rewrite bool_decide_eq_true_2 in H by done; discriminate
         end.
    all: assert (∀ b', bic b' = bic (the_bank w) →
                   _account_seq b' = _account_seq (the_bank w) →
                   _next_account_number (bic b') (_account_seq b') = Return (Some acc_id))
           as Hacc' by (by intros b' -> ->).
    all: assert (∀ b', _pan_seq b' = _pan_seq (the_bank w) →
                   _generate_pan system (_pan_seq b') = Return pan_)
           as Hpan' by (by intros b' ->).
    all: repeat match goal with
         | H : _next_account_number _ _ = _ |- _ =>
             rewrite Hacc' in H by reflexivity; simplify_eq
         | H : _generate_pan _ _ = _ |- _ => rewrite Hpan' in H by reflexivity; simplify_eq
         end.
    eapply wp_exactly; [apply new_card_no_expiry; [exact Hle|exact Hexp]|]. cbn beta iota.
    cbn. rewrite dict_set_fresh by done.
    rewrite !dict_lookup_set_eq.
    by repeat split.
Qed.

(** X21: a phone number the bank already holds under another first or
    last name is a conflict: [apply_for_card] with otherwise valid
    arguments raises [BusinessRuleError] and creates nothing. *)
Theorem apply_for_card_user_conflict w last_name first_name pin phone system card_class
    kwargs user :
  pin_ok pin →
  Bank.fullmatch_name last_name = true →
  Bank.match_name first_name = true →
  upper system ∈ BIN_BY_SYSTEM.*1 →
  user ∈ dict_values (customers (the_bank w)) →
  User.phone user = phone →
  User.first_name user ≠ first_name ∨ User.last_name user ≠ last_name →
  Bank.apply_for_card last_name first_name pin phone system card_class kwargs w
  = (w, Raise BusinessRuleError USER_CONFLICT).
Proof.
  intros [H2 H1] H3 H4 H5 Hin Hphone Hname.
  assert (existsb (Bank.conflicts phone first_name last_name)
            (dict_values (customers (the_bank w))) = true) as H6.
  { apply existsb_exists. exists user. split; [by apply list_elem_of_In|].
    unfold Bank.conflicts. rewrite bool_decide_eq_true_2 by done. cbn.
    destruct Hname; [rewrite (bool_decide_eq_false_2 (_ = first_name)) by done; done|].
    rewrite (bool_decide_eq_false_2 (_ = last_name)) by done. apply orb_true_r. }
  unfold Bank.apply_for_card, bind, when, gets, ret, raise.
  rewrite H1, H2, H3, H4. rewrite bool_decide_eq_true_2 by done.
  cbn [negb orb Nat.eqb]. cbn beta iota. by rewrite H6.
Qed.

(** X22: after the PIN, [apply_for_card] checks the names and then the
    payment system: a last name that is not all Cyrillic letters or a
    first name that does not match raises [ValidationError], and so
    does a payment system whose upper-case form is not a key of
    [BIN_BY_SYSTEM]; nothing changes.  A first name may end in one
    newline after its letters, a last name may not. *)
Theorem apply_for_card_validates_names w last_name first_name pin phone system card_class
    kwargs :
  pin_ok pin →
  let run := Bank.apply_for_card last_name first_name pin phone system card_class kwargs w in
  (Bank.fullmatch_name last_name = false ∨ Bank.match_name first_name = false →
   run = (w, Raise ValidationError NAME_INVALID))
  ∧ (Bank.fullmatch_name last_name = true → Bank.match_name first_name = true →
     upper system ∉ BIN_BY_SYSTEM.*1 →
     run = (w, Raise ValidationError (PAYMENT_SYSTEM_NOT_SUPPORTED system)))
  ∧ (∀ s, Bank.fullmatch_name s = true →
       Bank.match_name s = true
       ∧ Bank.match_name (s ++ [10%N]) = true
       ∧ Bank.fullmatch_name (s ++ [10%N]) = false).
Proof.
  intros [H2 H1] run. subst run. split; [|split].
  - intros Hname. unfold Bank.apply_for_card, bind, when, gets, ret, raise.
    rewrite H1, H2. cbn [negb orb Nat.eqb]. cbn beta iota.
    by destruct Hname as [-> | ->]; rewrite ?orb_true_r.
  - intros H3 H4 H5. unfold Bank.apply_for_card, bind, when, gets, ret, raise.
    rewrite H1, H2, H3, H4. rewrite bool_decide_eq_false_2 by done. done.
  - intros s Hs. unfold Bank.match_name, Bank.fullmatch_name in *.
    split; [by rewrite Hs|]. rewrite reverse_app, reverse_singleton. cbn [app].
    rewrite reverse_involutive, Hs. split; [apply orb_true_r|].
    unfold Bank.letters. destruct (s ++ [10%N]) as [|c l] eqn:E; [done|].
    rewrite <- E, forallb_app. cbn. apply andb_false_r.
Qed.

(** X23: with a BIC whose last three characters are not all digits the
    account number cannot be computed: [apply_for_card] for a new
    customer with valid arguments dies of a [ValueError], which the
    decorator lets through, after the user was registered; the bank is
    left with a customer who has no account and no card. *)
Theorem apply_for_card_bic_not_digits w last_name first_name pin phone system card_class
    kwargs :
  reachable w →
  pin_ok pin →
  Bank.fullmatch_name last_name = true →
  Bank.match_name first_name = true →
  upper system ∈ BIN_BY_SYSTEM.*1 →
  Forall (λ user, User.phone user ≠ phone) (dict_values (customers (the_bank w))) →
  ints (last_chars 3 (bic (the_bank w))) = None →
  let b := the_bank w in
  let uid := _user_seq b in
  ∃ w',
    Bank.apply_for_card last_name first_name pin phone system card_class kwargs w
    = (w', Uncaught ValueError)
    ∧ try_except_dec
        (Bank.apply_for_card last_name first_name pin phone system card_class kwargs) w
      = (w', Uncaught ValueError)
    ∧ customers (the_bank w')
      = customers b ++ [(uid, User.mk last_name first_name pin phone uid [] [])]
    ∧ account_heap w' = account_heap w
    ∧ card_heap w' = card_heap w
    ∧ error_log w' = error_log w.
Proof.
  intros Hw%reachable_wf [H2 H1] H3 H4 H5 Hphone Hbic b uid.
  destruct (unknown_phone _ phone last_name first_name Hphone) as [H6 Hfind].
  pose proof (fresh_user_id w Hw) as Hfresh.
  enough (wp (Bank.apply_for_card last_name first_name pin phone system card_class kwargs)
            (λ w' r, r = Uncaught ValueError
               ∧ customers (the_bank w')
                 = customers b ++ [(uid, User.mk last_name first_name pin phone uid [] [])]
               ∧ account_heap w' = account_heap w
               ∧ card_heap w' = card_heap w
               ∧ error_log w' = error_log w) w) as Hwp.
  { unfold wp in Hwp. unfold try_except_dec.
    destruct (Bank.apply_for_card _ _ _ _ _ _ _ w) as [w' r].
    cbn in Hwp. destruct Hwp as [-> Hrest]. by exists w'. }
  subst b uid.
  unfold Bank.apply_for_card, Bank._next_account_number, Bank._generate_pan,
    Bank.accounts_append, Bank.cards_append, Bank.modify_user.
  wp_run; subst.
  all: try (exfalso; rewrite ?H1, ?H2, ?H3, ?H4, ?H6, ?Hfind in *; cbn in *; congruence).
  all: try match goal with
       | H : negb (bool_decide _) = true |- _ =>
           exfalso; rewrite bool_decide_eq_true_2 in H by done; discriminate
       end.
  all: assert (∀ b', bic b' = bic (the_bank w) →
                 _next_account_number (bic b') (_account_seq b') = Uncaught ValueError)
         as Hacc' by (intros b' ->; by apply next_account_number_value_error).
  all: match goal with
       | H : _next_account_number _ _ = _ |- _ =>
           rewrite Hacc' in H by reflexivity; simplify_eq
       end.
  cbn. by rewrite dict_set_fresh.
Qed.

(** X24: keyword arguments the class does not have (a cashback rate for
    a card without cashback, an interest rate for a card that is not a
    SavingCard) stop [apply_for_card] with a [TypeError] that the
    decorator lets through, after the [Account] object was built: for
    a customer the bank holds, with otherwise valid arguments, the
    customers, the two registries and the cards are as before, the new
    account object is referred to by none of them, and the account,
    PAN and card serials are used up. *)
Theorem apply_for_card_unexpected_keyword w last_name first_name pin phone system
    card_class kwargs k user :
  pin_ok pin →
  Bank.fullmatch_name last_name = true →
  Bank.match_name first_name = true →
  upper system ∈ BIN_BY_SYSTEM.*1 →
  existsb (Bank.conflicts phone first_name last_name)
    (dict_values (customers (the_bank w))) = false →
  Bank.find_user phone last_name first_name (customers (the_bank w)) = Some (k, user) →
  (length (User.cards user) < 5)%nat →
  is_Some (ints (last_chars 3 (bic (the_bank w)))) →
  kwargs_fit card_class kwargs = false →
  let b := the_bank w in
  ∃ w' acc_id,
    Bank.apply_for_card last_name first_name pin phone system card_class kwargs w
    = (w', Uncaught TypeError)
    ∧ try_except_dec
        (Bank.apply_for_card last_name first_name pin phone system card_class kwargs) w
      = (w', Uncaught TypeError)
    ∧ account_heap w'
      = account_heap w
        ++ [Account.mk k (Some acc_id) DEFAULT_ACCOUNT_BALANCE DEFAULT_CASHBACK_BALANCE]
    ∧ card_heap w' = card_heap w
    ∧ customers (the_bank w') = customers b
    ∧ accounts (the_bank w') = accounts b
    ∧ cards (the_bank w') = cards b
    ∧ _account_seq (the_bank w') = N.succ (_account_seq b)
    ∧ _pan_seq (the_bank w') = N.succ (_pan_seq b)
    ∧ _card_seq (the_bank w') = N.succ (_card_seq b).
Proof.
  intros [H2 H1] H3 H4 H5 H6 Hfind Hfew Hbic Hfit b.
  destruct (AccountNumberFacts.next_account_number_control_digit
              (bic b) (_account_seq b) Hbic) as (d & _ & Hacc & _).
  destruct (PanFacts.generate_pan_spec system (_pan_seq b)) as (digits & _ & Hpan).
  set (acc_id := candidate_account_nuber _ _) in Hacc.
  set (pan_ := (_ ++ _)%list) in Hpan.
  enough (wp (Bank.apply_for_card last_name first_name pin phone system card_class kwargs)
            (λ w' r, r = Uncaught TypeError
               ∧ account_heap w'
                 = account_heap w
                   ++ [Account.mk k (Some acc_id) DEFAULT_ACCOUNT_BALANCE
                         DEFAULT_CASHBACK_BALANCE]
               ∧ card_heap w' = card_heap w
               ∧ customers (the_bank w') = customers b
               ∧ accounts (the_bank w') = accounts b
               ∧ cards (the_bank w') = cards b
               ∧ _account_seq (the_bank w') = N.succ (_account_seq b)
               ∧ _pan_seq (the_bank w') = N.succ (_pan_seq b)
               ∧ _card_seq (the_bank w') = N.succ (_card_seq b)) w) as Hwp.
  { unfold wp in Hwp. unfold try_except_dec.
    destruct (Bank.apply_for_card _ _ _ _ _ _ _ w) as [w' r].
    cbn in Hwp. destruct Hwp as [-> Hrest]. by exists w', acc_id. }
  subst b.
  unfold Bank.apply_for_card, Bank._next_account_number, Bank._generate_pan,
    Bank.accounts_append, Bank.cards_append, Bank.modify_user.
  wp_run; subst.
  all: try (exfalso; rewrite ?H1, ?H2, ?H3, ?H4, ?H6, ?Hfind in *; cbn in *; congruence).
  all: try match goal with
       | H : negb (bool_decide _) = true |- _ =>
           exfalso; rewrite bool_decide_eq_true_2 in H by done; discriminate
       | H : match Bank.find_user _ _ _ _ with _ => _ end = true |- _ =>
           exfalso; rewrite Hfind in H; apply Nat.leb_le in H; lia
       end.
  all: assert (∀ b', bic b' = bic (the_bank w) → _account_seq b' = _account_seq (the_bank w) →
                 _next_account_number (bic b') (_account_seq b') = Return (Some acc_id))
         as Hacc' by (by intros b' -> ->).
  all: assert (∀ b', _pan_seq b' = _pan_seq (the_bank w) →
                 _generate_pan system (_pan_seq b') = Return pan_)
         as Hpan' by (by intros b' ->).
  all: repeat match goal with
       | H : _next_account_number _ _ = _ |- _ =>
           rewrite Hacc' in H by reflexivity; simplify_eq
       | H : _generate_pan _ _ = _ |- _ => rewrite Hpan' in H by reflexivity; simplify_eq
       end.
  eapply wp_exactly; [by apply new_card_type_error|]. cbn beta iota.
  by repeat split.
Qed.
End IssuingEdges.

(** ** The PIN and the issuing edges at work *)

Lemma change_pin_round_trip_witness :
  ∃ w', Bank.change_pin (U := ascii_only) 1 (lit "1111") (lit "4321") Demo.world
        = (w', Return ())
        ∧ customer_pins (the_bank w') = [(1%N, lit "4321"); (2%N, lit "2222")]
        ∧ Bank.change_pin (U := ascii_only) 1 (lit "4321") (lit "1111") w'
          = (Demo.world, Return ()).
Proof.
  destruct (change_pin_round_trip (U := ascii_only) Demo.world 1 _ (lit "4321") eq_refl
              (conj eq_refl eq_refl) (conj eq_refl eq_refl))
    as (w' & Hrun & Hk & Hother & _ & _ & Hback).
  exists w'. split; [exact Hrun|]. split; [|exact Hback].
  apply (f_equal fst) in Hrun. cbn [fst] in Hrun. subst w'. by vm_compute.
Defined.

Lemma change_pin_rejected_witness :
  Bank.change_pin (U := ascii_only) 1 (lit "0000") (lit "4321") Demo.world
  = (Demo.world, Raise ValidationError PIN_MISMATCH)
  ∧ Bank.change_pin (U := ascii_only) 1 (lit "1111") (lit "43210") Demo.world
    = (Demo.world, Raise ValidationError PIN_INVALID).
Proof.
  split.
  - apply (change_pin_rejected (U := ascii_only) Demo.world 1 _ (lit "0000") (lit "4321")
             eq_refl).
    intros (_ & _ & Heq). by vm_compute in Heq.
  - apply (change_pin_rejected (U := ascii_only) Demo.world 1 _ (lit "1111") (lit "43210")
             eq_refl).
    intros (_ & [Hlen _] & _). by vm_compute in Hlen.
Defined.

Lemma apply_for_card_new_customer_witness :
  (∃ w', Bank.apply_for_card (U := ascii_only) Shop.ivanov Shop.ivan (lit "1234")
           (lit "+79161234567") (lit "mir") SavingCard_t no_kwargs Demo.world
         = (w', Return 2%nat)
         ∧ (customers (the_bank w')).*1 = [1%N; 2%N; 3%N]
         ∧ length (account_heap w') = 3%nat
         ∧ cls <$> card_heap w' !! 2%nat = Some (ClsSavingCard SAVING_CARD_DEFAULT_INTEREST))
  ∧ Calendar.ymd 27087 = (2096, 2, 29)
  ∧ ∃ w', Bank.apply_for_card (U := ascii_only) Shop.ivanov Shop.ivan (lit "1234")
            (lit "+79161234567") (lit "mir") SavingCard_t no_kwargs
            (Bank.new (lit "Bank") (lit "044525974") 27087 0 [])
          = (w', Uncaught ValueError)
          ∧ (customers (the_bank w')).*1 = [1%N]
          ∧ card_heap w' = []
          ∧ ISSUE_DATE_GENERATOR w' = 27088%N.
Proof.
  split; [|split; [done|]].
  2: { destruct (apply_for_card_new_customer (U := ascii_only)
                   (Bank.new (lit "Bank") (lit "044525974") 27087 0 [])
                   Shop.ivanov Shop.ivan (lit "1234") (lit "+79161234567") (lit "mir")
                   SavingCard_t (reachable_new _ _ _ _ _) (conj eq_refl eq_refl) eq_refl
                   eq_refl ltac:(apply (bool_decide_unpack _); by vm_compute)
                   ltac:(by constructor) ltac:(eexists; by vm_compute))
         as (acc_id & pan_ & _ & _ & _ & Hdies).
       destruct (Hdies ltac:(by vm_compute) eq_refl)
         as (w' & Hrun & Hcust & Hcards & _ & _ & Hgen & _).
       exists w'. split; [exact Hrun|]. by rewrite Hcust, Hcards, Hgen. }
  destruct (apply_for_card_new_customer (U := ascii_only) Demo.world Shop.ivanov Shop.ivan
              (lit "1234") (lit "+79161234567") (lit "mir") SavingCard_t
              demo_world_reachable (conj eq_refl eq_refl) eq_refl eq_refl
              ltac:(apply (bool_decide_unpack _); by vm_compute)
              ltac:(apply (bool_decide_unpack _); by vm_compute)
              ltac:(eexists; by vm_compute))
    as (acc_id & pan_ & _ & _ & Hissued & _).
  destruct (Hissued ltac:(split; [by vm_compute|eexists; by vm_compute]))
    as (w' & Hrun & Hcust & Hacc & Hcards & _).
  exists w'. split; [exact Hrun|]. rewrite Hcust, Hacc, Hcards. by vm_compute.
Defined.

Lemma apply_for_card_user_conflict_witness :
  Bank.apply_for_card (U := ascii_only) Demo.sidorova Demo.anna (lit "1234")
    (lit "+79161111111") (lit "MIR") Card_t no_kwargs Demo.world
  = (Demo.world, Raise BusinessRuleError USER_CONFLICT).
Proof.
  apply (apply_for_card_user_conflict (U := ascii_only) Demo.world Demo.sidorova Demo.anna
           (lit "1234") (lit "+79161111111") (lit "MIR") Card_t no_kwargs
           (User.mk Demo.petrov Demo.petr (lit "1111") (lit "+79161111111") 1 [0%nat] [0%nat])
           (conj eq_refl eq_refl) eq_refl eq_refl).
  - apply (bool_decide_unpack _). by vm_compute.
  - apply list_elem_of_here.
  - reflexivity.
  - left. by vm_compute.
Defined.

Lemma apply_for_card_validates_names_witness :
  Bank.apply_for_card (U := ascii_only) (lit "Smith") Demo.anna (lit "1234")
    (lit "+79160000000") (lit "MIR") Card_t no_kwargs Demo.world
  = (Demo.world, Raise ValidationError NAME_INVALID)
  ∧ Bank.apply_for_card (U := ascii_only) Demo.sidorova Demo.anna (lit "1234")
      (lit "+79160000000") (lit "AMEX") Card_t no_kwargs Demo.world
    = (Demo.world, Raise ValidationError (PAYMENT_SYSTEM_NOT_SUPPORTED (lit "AMEX"))).
Proof.
  split.
  - apply (apply_for_card_validates_names (U := ascii_only) Demo.world (lit "Smith") Demo.anna
             (lit "1234") (lit "+79160000000") (lit "MIR") Card_t no_kwargs
             (conj eq_refl eq_refl)).
    by left.
  - apply (apply_for_card_validates_names (U := ascii_only) Demo.world Demo.sidorova Demo.anna
             (lit "1234") (lit "+79160000000") (lit "AMEX") Card_t no_kwargs
             (conj eq_refl eq_refl)); [reflexivity..|].
    apply (bool_decide_unpack _). by vm_compute.
Defined.

Lemma apply_for_card_bic_not_digits_witness :
  let w := Bank.new (lit "Bank") (lit "04452597X") 0 0 [] in
  ∃ w', try_except_dec
          (Bank.apply_for_card (U := ascii_only) Demo.petrov Demo.petr (lit "1111")
             (lit "+79161111111") (lit "VISA") Card_t no_kwargs) w
        = (w', Uncaught ValueError)
        ∧ (customers (the_bank w')).*1 = [1%N]
        ∧ card_heap w' = [].
Proof.
  cbn zeta.
  destruct (apply_for_card_bic_not_digits (U := ascii_only)
              (Bank.new (lit "Bank") (lit "04452597X") 0 0 []) Demo.petrov Demo.petr
              (lit "1111") (lit "+79161111111") (lit "VISA") Card_t no_kwargs
              (reachable_new _ _ _ _ _) (conj eq_refl eq_refl) eq_refl eq_refl
              ltac:(apply (bool_decide_unpack _); by vm_compute)
              ltac:(by constructor) eq_refl)
    as (w' & _ & Hrun & Hcust & _ & Hcards & _).
  exists w'. split; [exact Hrun|]. by rewrite Hcust, Hcards.
Defined.

Lemma apply_for_card_unexpected_keyword_witness :
  ∃ w', try_except_dec
          (Bank.apply_for_card (U := ascii_only) Demo.petrov Demo.petr (lit "1111")
             (lit "+79161111111") (lit "VISA") Card_t (Branch.rate (Some 0.5%float) None))
          Demo.world
        = (w', Uncaught TypeError)
        ∧ length (account_heap w') = 3%nat
        ∧ length (card_heap w') = 2%nat.
Proof.
  destruct (apply_for_card_unexpected_keyword (U := ascii_only) Demo.world Demo.petrov
              Demo.petr (lit "1111") (lit "+79161111111") (lit "VISA") Card_t
              (Branch.rate (Some 0.5%float) None) 1 _
              (conj eq_refl eq_refl) eq_refl eq_refl
              ltac:(apply (bool_decide_unpack _); by vm_compute) eq_refl eq_refl
              ltac:(vm_compute; lia) ltac:(eexists; by vm_compute) eq_refl)
    as (w' & acc_id & _ & Hrun & Hacc & Hcards & _).
  exists w'. split; [exact Hrun|]. by rewrite Hacc, Hcards.
Defined.

(** ** Serials can be read back from the identifiers *)

Lemma digits_w_inj w n m :
  (n < 10 ^ N.of_nat w)%N → (m < 10 ^ N.of_nat w)%N → digits_w w n = digits_w w m → n = m.
Proof.
  revert n m. induction w as [|w IH]; intros n m Hn Hm Heq.
  - cbn in Hn, Hm. lia.
  - cbn [digits_w] in Heq. apply app_inj_tail in Heq as [Hdiv Hmod].
    rewrite Nat2N.inj_succ, N.pow_succ_r' in Hn, Hm.
    assert (n / 10 = m / 10)%N as Hq.
    { apply IH; [| |done].
      - apply N.Div0.div_lt_upper_bound. lia.
      - apply N.Div0.div_lt_upper_bound. lia. }
    rewrite (N.div_mod n 10), (N.div_mod m 10) by lia. by rewrite Hq, Hmod.
Qed.

Lemma dec_width_from_bound fuel k n :
  (n < 10 ^ N.of_nat (k + fuel))%N → (n < 10 ^ N.of_nat (dec_width_from fuel k n))%N.
Proof.
  revert k. induction fuel as [|fuel IH]; intros k Hn; cbn.
  - by rewrite Nat.add_0_r in Hn.
  - destruct (N.ltb_spec n (10 ^ N.of_nat k)) as [|Hge]; [done|].
    apply IH. by replace (S k + fuel)%nat with (k + S fuel)%nat by lia.
Qed.

Lemma dec_width_bound n : (n < 10 ^ N.of_nat (dec_width n))%N.
Proof.
  apply dec_width_from_bound. rewrite Nat2N.inj_add, N2Nat.id.
  destruct n as [|p]; [done|].
  pose proof (N.size_gt (N.pos p)) as Hsize.
  assert (2 ^ N.size (N.pos p) ≤ 10 ^ N.size (N.pos p))%N by (apply N.pow_le_mono_l; lia).
  assert (10 ^ N.size (N.pos p) ≤ 10 ^ (N.of_nat 1 + N.size (N.pos p)))%N
    by (apply N.pow_le_mono_r; lia).
  lia.
Qed.

Lemma format_0d_inj w n m : format_0d w n = format_0d w m → n = m.
Proof.
  unfold format_0d. intros Heq.
  assert (Inj (=) (=) digit_char) as Hinj by (intros x y; unfold digit_char; lia).
  apply (inj (fmap digit_char)) in Heq.
  pose proof (f_equal length Heq) as Hlen. rewrite !length_digits_w in Hlen.
  rewrite <- Hlen in Heq. apply digits_w_inj in Heq; [done|..].
  - eapply N.lt_le_trans; [apply dec_width_bound|]. apply N.pow_le_mono_r; lia.
  - rewrite Hlen. eapply N.lt_le_trans; [apply dec_width_bound|]. apply N.pow_le_mono_r; lia.
Qed.

Section Serials.
Context {U : UnicodeDB}.

Lemma control_digit_loop_candidate bic_tail serial ds a :
  Forall (λ d, (d < 10)%N) ds →
  control_digit_loop bic_tail serial ds = Return (Some a) →
  ∃ d, (d < 10)%N ∧ a = candidate_account_nuber serial d.
Proof.
  induction 1 as [|d ds Hd _ IH]; [done|]. cbn.
  destruct (control_sum _); [|done]. destruct (_ =? 0).
  - intros [= <-]. by exists d.
  - apply IH.
Qed.

Lemma next_account_number_candidate bic n a :
  Ident._next_account_number bic n = Return (Some a) →
  ∃ d, (d < 10)%N ∧ a = candidate_account_nuber (format_0d 7 n) d.
Proof.
  apply control_digit_loop_candidate. apply Forall_forall. intros d Hd.
  by apply range10_lt.
Qed.

Lemma candidate_serial serial d :
  (d < 10)%N → drop 13 (candidate_account_nuber serial d) = serial.
Proof.
  intros Hd. unfold candidate_account_nuber. by rewrite str_of_int_digit.
Qed.

Lemma next_account_number_inj bic1 bic2 n1 n2 a :
  Ident._next_account_number bic1 n1 = Return (Some a) →
  Ident._next_account_number bic2 n2 = Return (Some a) →
  n1 = n2.
Proof.
  intros (d1 & Hd1 & H1)%next_account_number_candidate
         (d2 & Hd2 & H2)%next_account_number_candidate.
  apply (format_0d_inj 7).
  rewrite <- (candidate_serial (format_0d 7 n1) d1 Hd1),
    <- (candidate_serial (format_0d 7 n2) d2 Hd2).
  by rewrite <- H1, <- H2.
Qed.

Lemma generate_pan_inj system1 system2 n1 n2 :
  Ident._generate_pan system1 n1 = Ident._generate_pan system2 n2 →
  n1 = n2 ∧ bin_code_of system1 = bin_code_of system2.
Proof.
  destruct (generate_pan_spec system1 n1) as (ds1 & _ & ->).
  destruct (generate_pan_spec system2 n2) as (ds2 & _ & ->).
  intros [= Heq].
  destruct (bin_code_digits system1) as [Hl1 _], (bin_code_digits system2) as [Hl2 _].
  apply app_inj_1 in Heq as [Hbin Heq]; [|by rewrite Hl1, Hl2].
  apply app_inj_tail in Heq as [Hfmt _].
  split; [by apply (format_0d_inj 9)|done].
Qed.

(** X25: the serial can be read back from an account number: the
    number ends with the value drawn from the counter, written with at
    least seven digits, and any call of [_next_account_number] that
    returns the same number drew the same value, whatever its BIC; so
    the numbers of different serials differ. *)
Theorem account_number_determines_serial bic n a :
  Ident._next_account_number bic n = Return (Some a) →
  drop 13 a = format_0d 7 n
  ∧ ∀ bic' n', Ident._next_account_number bic' n' = Return (Some a) → n' = n.
Proof.
  intros Hrun. split.
  - destruct (next_account_number_candidate _ _ _ Hrun) as (d & Hd & ->).
    by apply candidate_serial.
  - intros bic' n' Hrun'. by eapply next_account_number_inj.
Qed.

(** X26: the BIN and the serial can be read back from a PAN: the PAN
    starts with the BIN of the payment system, and any call of
    [_generate_pan] that gives the same PAN drew the same value from the
    counter and used the same BIN; so the PANs of different serials
    differ, whatever the payment systems. *)
Theorem pan_determines_serial system n p :
  Ident._generate_pan system n = Return p →
  take 6 p = bin_code_of system
  ∧ ∀ system' n',
      Ident._generate_pan system' n' = Return p →
      n' = n ∧ bin_code_of system' = bin_code_of system.
Proof.
  intros Hrun. split.
  - destruct (generate_pan_spec system n) as (ds & _ & Hp).
    rewrite Hp in Hrun. injection Hrun as <-.
    destruct (bin_code_digits system) as [Hlen _].
    by rewrite take_app_length' by done.
  - intros system' n' Hrun'. apply generate_pan_inj. by rewrite Hrun, Hrun'.
Qed.
End Serials.

Lemma account_number_determines_serial_witness :
  ∃ a, Ident._next_account_number (U := ascii_only) (lit "044525974") 1 = Return (Some a)
       ∧ drop 13 a = lit "0000001"
       ∧ ∀ n', Ident._next_account_number (U := ascii_only) (lit "044525974") n'
               = Return (Some a) → n' = 1%N.
Proof.
  eexists. split; [by vm_compute|].
  destruct (account_number_determines_serial (U := ascii_only) (lit "044525974") 1 _ eq_refl)
    as [Hdrop Hinj].
  split; [exact Hdrop|]. intros n'. apply Hinj.
Defined.

Lemma pan_determines_serial_witness :
  ∃ p, Ident._generate_pan (U := ascii_only) (lit "visa") 1 = Return p
       ∧ take 6 p = lit "400000"
       ∧ ∀ n', Ident._generate_pan (U := ascii_only) (lit "MIR") n' ≠ Return p.
Proof.
  eexists. split; [by vm_compute|].
  destruct (pan_determines_serial (U := ascii_only) (lit "visa") 1 _ eq_refl) as [Htake Hinj].
  split; [exact Htake|]. intros n' Hrun. destruct (Hinj _ _ Hrun) as [_ Hbin].
  by vm_compute in Hbin.
Defined.

(** ** Properties of every reachable state *)

(** The projections of a state that was built by the updates of the
    method bodies. *)
Ltac state_norm :=
  cbn [ISSUE_DATE_GENERATOR TIMESTAMP_GENERATOR error_log the_bank account_heap card_heap
       set_ISSUE_DATE_GENERATOR set_TIMESTAMP_GENERATOR set_error_log set_the_bank
       set_account_heap set_card_heap set_user_seq set_account_seq set_card_seq set_pan_seq
       set_customers set_accounts set_cards set_transaction_log update_card update_account
       update_bank log_error Bank.push_account Bank.push_card name bic _user_seq _account_seq
       _card_seq _pan_seq customers accounts cards transaction_log] in *.

Lemma fmap_alter_same {A B} (g : A → B) (f : A → A) (i : nat) (l : list A) :
  (∀ x, g (f x) = g x) → g <$> alter f i l = g <$> l.
Proof.
  intros Hf. revert i. induction l as [|x l IH]; intros [|i]; cbn; [done..| |].
  - by rewrite Hf.
  - f_equal. apply IH.
Qed.

Section NewCard.
Context {U : UnicodeDB}.

(** [new_card] dies at once (of a [TypeError], or of the [ValueError]
    of the expiry date of a date it was given), or dies after the draw
    of the issue date (of the draw, or of the [ValueError] of the
    expiry date), or allocates one card with the fields it was given,
    after drawing an issue date when none was passed. *)
Lemma wp_new_card card_class account_ cid payment_system pan_ kwargs Q W :
  (∀ e, Q W (Uncaught e)) →
  (∀ e gen', Q (set_ISSUE_DATE_GENERATOR gen' W) (Uncaught e)) →
  (∀ cls date status W',
     W' = W ∨ W' = set_ISSUE_DATE_GENERATOR (N.succ (ISSUE_DATE_GENERATOR W)) W →
     Q (Bank.push_card
          (mk_Card cls (Some account_) cid payment_system pan_ date status (Some ()) []) W')
       (Return (length (card_heap W)))) →
  wp (Bank.new_card card_class account_ cid payment_system pan_ kwargs) Q W.
Proof.
  intros Herr Hdraw Hok. unfold Bank.new_card. wp_run; subst; try done.
  all: first [ apply Herr | apply Hdraw | apply Hok; auto
             | by (exfalso; eapply expiry_date_not_raise) ].
Qed.
End NewCard.

(** One more step for the calls that issue a card. *)
Ltac wp_step_card :=
  lazymatch goal with
  | |- wp (Bank.new_card _ _ _ _ _ _) _ _ =>
      apply wp_new_card; [intros ?|intros ? ?|intros ? ? ? ? [-> | ->]]
  | |- _ => wp_step
  end.
Ltac wp_run_card := repeat wp_step_card.

(** Every public call, run to its final states. *)
Ltac unfold_calls :=
  unfold Card.get_balance, Card.get_card_info, Card.deposit, Card.transfer, Card.pay,
    Card.base_pay, Card.cashback_pay, Card.saving_pay, Card.accrue_interest,
    Card.get_transaction_history, Card.close, Bank.apply_for_card, Bank._next_account_number,
    Bank._generate_pan, Bank.accounts_append, Bank.cards_append, Bank.modify_user,
    Bank.get_global_history, Bank.change_pin.

Section Invariants.
Context {U : UnicodeDB}.

(** A property that holds of a new bank and that every method body,
    run in a state that satisfies [wf], and the logging of an error keep
    holds of every reachable state. *)
Lemma reachable_ind_calls (I : World → Prop) :
  (∀ name bic issue_gen ts_gen log, I (Bank.new name bic issue_gen ts_gen log)) →
  (∀ e w, I w → I (log_error e w)) →
  (∀ w last_name first_name pin phone system card_class kwargs,
     wf w →
     wp (Bank.apply_for_card last_name first_name pin phone system card_class kwargs)
       (λ w' _, I w → I w') w) →
  (∀ w, wf w → wp Bank.get_global_history (λ w' _, I w → I w') w) →
  (∀ w, wf w → wp Bank._next_account_number (λ w' _, I w → I w') w) →
  (∀ w system, wf w → wp (Bank._generate_pan system) (λ w' _, I w → I w') w) →
  (∀ w self, wf w → wp (Card.get_balance self) (λ w' _, I w → I w') w) →
  (∀ w self fields, wf w → wp (Card.get_card_info self fields) (λ w' _, I w → I w') w) →
  (∀ w self amount, wf w → wp (Card.deposit self amount) (λ w' _, I w → I w') w) →
  (∀ w self to_card amount,
     wf w → wp (Card.transfer self to_card amount) (λ w' _, I w → I w') w) →
  (∀ w self amount mcc, wf w → wp (Card.pay self amount mcc) (λ w' _, I w → I w') w) →
  (∀ w self, wf w → wp (Card.accrue_interest self) (λ w' _, I w → I w') w) →
  (∀ w self, wf w → wp (Card.get_transaction_history self) (λ w' _, I w → I w') w) →
  (∀ w self, wf w → wp (Card.close self) (λ w' _, I w → I w') w) →
  (∀ w k old_pin new_pin,
     wf w → wp (Bank.change_pin k old_pin new_pin) (λ w' _, I w → I w') w) →
  ∀ w, reachable w → I w.
Proof.
  intros Hnew Hlog H1 H2 H3 H4 H5 H6 H7 H8 H9 H10 H11 H12 H13 w.
  assert (∀ A (m : M A) w, wp m (λ w' _, I w → I w') w → I w → I (try_except_dec m w).1)
    as Hdec.
  { intros A m w0 Hm Hw0.
    apply (wp_elim (try_except_dec m) I), wp_try_except_dec.
    eapply wp_mono; [exact Hm|]. intros w' [a|c e|e] Hw'; cbn; auto. }
  induction 1 as [|w c Hreach IH]; [apply Hnew|].
  pose proof (reachable_wf w Hreach) as Hw.
  destruct c; cbn [perform].
  - by apply Hdec; [apply H1|].
  - by apply (wp_elim _ (λ w', I w → I w') _ (H2 w Hw)).
  - by apply (wp_elim _ (λ w', I w → I w') _ (H3 w Hw)).
  - by apply (wp_elim _ (λ w', I w → I w') _ (H4 w system Hw)).
  - by apply Hdec; [apply H5|].
  - by apply Hdec; [apply H6|].
  - by apply Hdec; [apply H7|].
  - by apply Hdec; [apply H8|].
  - by apply Hdec; [apply H9|].
  - by apply Hdec; [apply H10|].
  - by apply Hdec; [apply H11|].
  - by apply (wp_elim _ (λ w', I w → I w') _ (H12 w self Hw)).
  - by apply Hdec; [apply H13|].
Qed.

Lemma next_account_number_some bic_ n a :
  Ident._next_account_number bic_ n = Return a → ∃ num, a = Some num.
Proof.
  intros Hrun. destruct (ints (last_chars 3 bic_)) eqn:Hbic.
  - destruct (next_account_number_control_digit bic_ n (mk_is_Some _ _ Hbic))
      as (d & _ & Hnum & _).
    rewrite Hnum in Hrun. injection Hrun as <-. by eexists.
  - by rewrite next_account_number_value_error in Hrun.
Qed.

Lemma ids_step bic_ pans nums next_pan next_account pans' nums' next_pan' next_account' :
  ids_ok_of bic_ pans nums next_pan next_account →
  (nums' = nums ∧ (next_account ≤ next_account')%N
   ∨ ∃ a, Ident._next_account_number bic_ next_account = Return a
          ∧ nums' = nums ++ [a] ∧ next_account' = N.succ next_account) →
  (pans' = pans ∧ (next_pan ≤ next_pan')%N
   ∨ ∃ system p, Ident._generate_pan system next_pan = Return p
                 ∧ pans' = pans ++ [p] ∧ next_pan' = N.succ next_pan) →
  ids_ok_of bic_ pans' nums' next_pan' next_account'.
Proof.
  intros (Hp & Hpi & Hn & Hni) Hnums Hpans. unfold ids_ok_of.
  assert (NoDup pans'
          ∧ Forall (λ p, ∃ system n, (n < next_pan')%N
                                     ∧ Ident._generate_pan system n = Return p) pans')
    as [? ?].
  { destruct Hpans as [[-> Hle]|(system & p & Hgen & -> & ->)].
    - split; [done|]. eapply Forall_impl; [exact Hpi|].
      intros p (s & n & ? & ?). exists s, n. split; [lia|done].
    - split.
      + apply NoDup_app. split; [done|]. split; [|apply NoDup_singleton].
        intros q Hq ->%list_elem_of_singleton.
        destruct (proj1 (Forall_forall _ _) Hpi _ Hq) as (s & n & Hlt & Hgen').
        assert (n = next_pan) by (eapply generate_pan_inj; by rewrite Hgen, Hgen').
        lia.
      + apply Forall_app. split.
        * eapply Forall_impl; [exact Hpi|].
          intros q (s & n & ? & ?). exists s, n. split; [lia|done].
        * repeat constructor. exists system, next_pan. split; [lia|done]. }
  assert (NoDup nums'
          ∧ Forall (λ a, ∃ n num, (n < next_account')%N ∧ a = Some num
                     ∧ Ident._next_account_number bic_ n = Return (Some num)) nums')
    as [? ?]; [|done].
  destruct Hnums as [[-> Hle]|(a & Hgen & -> & ->)].
  - split; [done|]. eapply Forall_impl; [exact Hni|].
    intros a (n & num & ? & ? & ?). exists n, num. split; [lia|done].
  - destruct (next_account_number_some _ _ _ Hgen) as [num ->]. split.
    + apply NoDup_app. split; [done|]. split; [|apply NoDup_singleton].
      intros q Hq ->%list_elem_of_singleton.
      destruct (proj1 (Forall_forall _ _) Hni _ Hq) as (n & num' & Hlt & [= <-] & Hgen').
      assert (n = next_account)
        by (eapply next_account_number_inj; [exact Hgen'|exact Hgen]).
      lia.
    + apply Forall_app. split.
      * eapply Forall_impl; [exact Hni|].
        intros q (n & num' & ? & ? & ?). exists n, num'. split; [lia|done].
      * repeat constructor. exists next_account, num. split; [lia|done].
Qed.
End Invariants.

(** The final state of a call keeps [ids_ok]. *)
Ltac ids_side :=
  first
    [ left; split; [reflexivity|state_norm; lia]
    | right; eexists; split; [eassumption|split; reflexivity]
    | right; eexists _, _; split; [eassumption|split; reflexivity] ].
Ltac ids_close :=
  let Hi := fresh "Hi" in
  intros Hi; unfold ids_ok in *; state_norm;
  rewrite ?fmap_app, ?(fmap_alter_same pan), ?(fmap_alter_same Account.acc_id) by done;
  cbn [fmap list_fmap pan Account.acc_id];
  first [ exact Hi | eapply ids_step; [exact Hi|ids_side|ids_side] ].

Section Identifiers.
Context {U : UnicodeDB}.

Lemma reachable_ids_ok w : reachable w → ids_ok w.
Proof.
  apply reachable_ind_calls.
  - intros. unfold ids_ok, ids_ok_of. cbn. repeat split; constructor.
  - intros e w0. ids_close.
  - intros. unfold_calls. wp_run_card; subst; ids_close.
  - intros. unfold_calls. wp_run_card; subst; ids_close.
  - intros. unfold_calls. wp_run_card; subst; ids_close.
  - intros. unfold_calls. wp_run_card; subst; ids_close.
  - intros. unfold_calls. wp_run_card; subst; ids_close.
  - intros. unfold_calls. wp_run_card; subst; ids_close.
  - intros. unfold_calls. wp_run_card; subst; ids_close.
  - intros. unfold_calls. wp_run_card; subst; ids_close.
  - intros. unfold_calls. wp_run_card; subst; ids_close.
  - intros. unfold_calls. wp_run_card; subst; ids_close.
  - intros. unfold_calls. wp_run_card; subst; ids_close.
  - intros. unfold_calls. wp_run_card; subst; ids_close.
  - intros. unfold_calls. wp_run_card; subst; ids_close.
Qed.

(** X27: in every reachable state no two cards have the same card id or
    the same PAN and no two accounts have the same account number;
    every PAN was generated from a serial below the PAN counter and
    every account has a number that was generated for the bank's BIC
    from a serial below the account counter. *)
Theorem identifiers_are_unique w :
  reachable w →
  NoDup (card_id <$> card_heap w)
  ∧ NoDup (pan <$> card_heap w)
  ∧ NoDup (Account.acc_id <$> account_heap w)
  ∧ (∀ card, card ∈ card_heap w →
       ∃ system n, (n < _pan_seq (the_bank w))%N
                   ∧ Ident._generate_pan system n = Return (pan card))
  ∧ (∀ acc, acc ∈ account_heap w →
       ∃ n num, (n < _account_seq (the_bank w))%N
                ∧ Account.acc_id acc = Some num
                ∧ Ident._next_account_number (bic (the_bank w)) n = Return (Some num)).
Proof.
  intros Hreach. destruct (reachable_ids_ok w Hreach) as (Hp & Hpi & Hn & Hni).
  split; [apply (wf_card_id_nodup w (reachable_wf w Hreach))|].
  split; [done|]. split; [done|]. split.
  - intros card Hin. apply (proj1 (Forall_forall _ _) Hpi). by apply list_elem_of_fmap_2.
  - intros acc Hin. apply (proj1 (Forall_forall _ _) Hni (Account.acc_id acc)).
    by apply list_elem_of_fmap_2.
Qed.
End Identifiers.

Lemma identifiers_are_unique_witness :
  NoDup (pan <$> card_heap Branch.world)
  ∧ NoDup (Account.acc_id <$> account_heap Branch.world)
  ∧ length (card_heap Branch.world) = 7%nat.
Proof.
  destruct (identifiers_are_unique (U := ascii_only) Branch.world branch_world_reachable)
    as (_ & Hpans & Hnums & _).
  split; [exact Hpans|]. split; [exact Hnums|reflexivity].
Defined.

(** ** The ledger of a reachable state *)

Lemma earlier_date_not_later x t :
  dt_date (timestamp x) < dt_date (timestamp t) → not_later x t.
Proof.
  unfold not_later, datetime_ltb. intros Hlt.
  by destruct (Z.compare_spec (dt_date (timestamp t)) (dt_date (timestamp x))); try lia.
Qed.

Lemma not_later_refl t : not_later t t.
Proof.
  unfold not_later, datetime_ltb. rewrite !Z.compare_refl. apply Z.ltb_irrefl.
Qed.

Lemma chronological_snoc L t :
  chronological L → Forall (λ x, not_later x t) L → chronological (L ++ [t]).
Proof.
  unfold chronological. induction 1 as [|x L HL IH Hx]; intros Ht; cbn.
  - repeat constructor.
  - apply Forall_cons in Ht as [Hxt Ht]. constructor; [by apply IH|].
    apply Forall_app. split; [done|]. by repeat constructor.
Qed.

Lemma history_of_nil L : history_of L [].
Proof. split; [constructor|]. intros x Hx. by apply elem_of_nil in Hx. Qed.

Lemma history_of_mono L L' l : L ⊆ L' → history_of L l → history_of L' l.
Proof. intros HL [? Hl]. split; [done|]. by etrans. Qed.

Lemma history_of_grow L l t : history_of L l → history_of (L ++ [t]) l.
Proof. apply history_of_mono. intros x Hx. apply elem_of_app. by left. Qed.

Lemma history_of_snoc L l t :
  Forall (λ x, not_later x t) (L ++ [t]) →
  history_of (L ++ [t]) l → history_of (L ++ [t]) (l ++ [t]).
Proof.
  intros HL [Hl Hsub]. split.
  - apply chronological_snoc; [done|]. apply Forall_forall. intros x Hx.
    by apply (proj1 (Forall_forall _ _) HL), Hsub.
  - intros x [Hx| ->%list_elem_of_singleton]%elem_of_app; [by apply Hsub|].
    apply elem_of_app. right. by left.
Qed.

Lemma stamped_after L gen g t :
  Forall (λ x, dt_date (timestamp x) < Z.of_N gen) L →
  dt_date (timestamp t) = Z.of_N g →
  (gen ≤ g)%N →
  Forall (λ x, not_later x t) (L ++ [t]).
Proof.
  intros HL Ht Hg. apply Forall_app. split; [|repeat constructor; apply not_later_refl].
  eapply Forall_impl; [exact HL|]. intros x Hx. apply earlier_date_not_later.
  cbn in Hx. lia.
Qed.

Lemma stamped_after_l L gen g t :
  Forall (λ x, dt_date (timestamp x) < Z.of_N gen) L →
  dt_date (timestamp t) = Z.of_N g →
  (gen ≤ g)%N →
  Forall (λ x, not_later x t) L.
Proof.
  intros HL Ht Hg. by apply (Forall_app _ L [t]), (stamped_after L gen g).
Qed.

Lemma bound_mono L gen gen' :
  Forall (λ x, dt_date (timestamp x) < Z.of_N gen) L →
  (gen ≤ gen')%N →
  Forall (λ x, dt_date (timestamp x) < Z.of_N gen') L.
Proof. intros HL Hg. eapply Forall_impl; [exact HL|]. intros x Hx. cbn in *. lia. Qed.

Lemma bound_snoc L gen g t :
  Forall (λ x, dt_date (timestamp x) < Z.of_N gen) L →
  dt_date (timestamp t) = Z.of_N g →
  (gen ≤ g)%N →
  Forall (λ x, dt_date (timestamp x) < Z.of_N (N.succ g)) (L ++ [t]).
Proof.
  intros HL Ht Hg. apply Forall_app. split; [apply (bound_mono L gen); [done|lia]|].
  repeat constructor. cbn. lia.
Qed.

Lemma first_later_ge gen issue_date : (gen ≤ first_later gen issue_date)%N.
Proof. unfold first_later. lia. Qed.

Lemma first_later_succ_ge gen issue_date : (gen ≤ N.succ (first_later gen issue_date))%N.
Proof. unfold first_later. lia. Qed.

(** The final state of a call keeps [ledger_ok]. *)
Ltac stamp_facts :=
  first [ apply first_later_ge | apply first_later_succ_ge | reflexivity | lia ].
Ltac card_side HB HC :=
  cbn [transactions set_status set_transactions];
  first
    [ eassumption
    | apply history_of_snoc;
      [eapply stamped_after; [exact HB|stamp_facts..]|eassumption]
    | match goal with
      | Hc : card_heap _ !! _ = Some ?c |- history_of _ (transactions ?c) =>
          exact (Forall_lookup_1 _ _ _ _ HC Hc)
      end ].
Ltac cards_close HB HC :=
  lazymatch goal with
  | |- Forall _ (alter _ _ _) =>
      apply Forall_alter; [cards_close HB HC|intros ? ? ?; card_side HB HC]
  | |- Forall _ (_ ++ [_]) =>
      apply Forall_app; split; [cards_close HB HC|repeat constructor; apply history_of_nil]
  | |- Forall _ _ =>
      first
        [ exact HC
        | eapply Forall_impl; [exact HC|intros ? ?; by apply history_of_grow] ]
  end.
Ltac sorted_known HA HC :=
  rewrite ?(sort_by_timestamp_chronological _ HA) in *;
  repeat match goal with
  | Hc : card_heap _ !! _ = Some ?card |- context [sort_by_timestamp (transactions ?card)] =>
      rewrite (sort_by_timestamp_chronological (transactions card)
                 (proj1 (Forall_lookup_1 _ _ _ _ HC Hc)))
  end.
Ltac ledger_close :=
  let HA := fresh "HA" in
  let HB := fresh "HB" in
  let HC := fresh "HC" in
  intros (HA & HB & HC); unfold ledger_ok in *; stamp_known; sorted_known HA HC; state_norm;
  split;
  [ first [ exact HA
          | apply chronological_snoc;
            [exact HA|eapply stamped_after_l; [exact HB|stamp_facts..]] ]
  | split;
    [ first [ exact HB
            | eapply bound_snoc; [exact HB|stamp_facts..]
            | eapply bound_mono; [exact HB|stamp_facts] ]
    | cards_close HB HC ] ].

Section Ledger.
Context {U : UnicodeDB}.

Lemma reachable_ledger_ok w : reachable w → ledger_ok w.
Proof.
  apply reachable_ind_calls.
  - intros. unfold ledger_ok. cbn. repeat split; constructor.
  - intros e w0. ledger_close.
  - intros. unfold_calls. wp_run_card; subst; ledger_close.
  - intros. unfold_calls. wp_run_card; subst; ledger_close.
  - intros. unfold_calls. wp_run_card; subst; ledger_close.
  - intros. unfold_calls. wp_run_card; subst; ledger_close.
  - intros. unfold_calls. wp_run_card; subst; ledger_close.
  - intros. unfold_calls. wp_run_card; subst; ledger_close.
  - intros. unfold_calls. wp_run_card; subst; ledger_close.
  - intros. unfold_calls. wp_run_card; subst; ledger_close.
  - intros. unfold_calls. wp_run_card; subst; ledger_close.
  - intros. unfold_calls. wp_run_card; subst; ledger_close.
  - intros. unfold_calls. wp_run_card; subst; ledger_close.
  - intros. unfold_calls. wp_run_card; subst; ledger_close.
  - intros. unfold_calls. wp_run_card; subst; ledger_close.
Qed.

Lemma update_card_same w c f card :
  card_heap w !! c = Some card → f card = card → update_card c f w = w.
Proof.
  intros Hc Hf. unfold update_card.
  replace (alter f c (card_heap w)) with (card_heap w); [by destruct w|].
  apply list_eq. intros i. destruct (decide (c = i)) as [->|Hne].
  - rewrite list_lookup_alter_eq, Hc. cbn. by rewrite Hf.
  - by rewrite list_lookup_alter_ne.
Qed.

(** X28: in every reachable state the ledger is in the order of its
    timestamps, every entry is dated before the day the timestamp
    generator has reached, and each card's list is in that order too
    and holds only entries of the ledger.  So the sort of the two
    history calls moves nothing: after the header line
    [get_global_history] returns the ledger as it stands and
    [get_transaction_history] on an Active card the lines of the card's
    list as it stands, and neither changes the state. *)
Theorem ledger_in_order w :
  reachable w →
  let L := transaction_log (the_bank w) in
  chronological L
  ∧ Forall (λ t, dt_date (timestamp t) < Z.of_N (TIMESTAMP_GENERATOR w)) L
  ∧ (∀ card, card ∈ card_heap w → history_of L (transactions card))
  ∧ Bank.get_global_history w = (w, Return L)
  ∧ (∀ self card,
       card_heap w !! self = Some card →
       status card = ACTIVE →
       Card.get_transaction_history self w
       = (w, Return (signed (card_id card) (transactions card)))).
Proof.
  intros Hreach L. destruct (reachable_ledger_ok w Hreach) as (HA & HB & HC).
  pose proof (reachable_wf w Hreach) as Hw.
  split; [done|]. split; [done|]. split; [by apply Forall_forall|]. split.
  - unfold Bank.get_global_history. apply wp_eq. wp_run; subst.
    rewrite (sort_by_timestamp_chronological _ HA). split; [|done].
    unfold update_bank. rewrite set_transaction_log_same. by destruct w.
  - intros self card Hc Hs.
    destruct (wf_card_account w self card Hw Hc) as (a & acc & Ha & Hacc & Hb).
    pose proof (proj1 (Forall_lookup_1 _ _ _ _ HC Hc)) as Hsorted.
    unfold Card.get_transaction_history. apply wp_eq. wp_run; simplify_eq/=.
    all: try (exfalso;
              match goal with
              | H : negb (bool_decide (is_Some (bank _))) = true |- _ =>
                  rewrite Hb, bool_decide_eq_true_2 in H by done; done
              end).
    all: try (by rewrite Hs in *).
    rewrite (sort_by_timestamp_chronological _ Hsorted). split; [|done].
    apply (update_card_same w self _ card Hc). by destruct card.
Qed.
End Ledger.

Lemma ledger_in_order_witness :
  Bank.get_global_history Branch.world
  = (Branch.world, Return (transaction_log (the_bank Branch.world)))
  ∧ length (transaction_log (the_bank Branch.world)) = 4%nat.
Proof.
  destruct (ledger_in_order (U := ascii_only) Branch.world branch_world_reachable)
    as (_ & _ & _ & Hrun & _).
  split; [exact Hrun|reflexivity].
Defined.

(** ** The customers of a reachable state *)




Section Customers.
Context {U : UnicodeDB}.











End Customers.


Section CustomersInvariant.
Context {U : UnicodeDB}.


End CustomersInvariant.


(** ** The history of a card *)

Lemma lookup_alter_identity (f : Card → Card) (i j : nat) (l : list Card) x :
  (∀ y, same_identity y (f y)) →
  alter f i l !! j = Some x →
  ∃ y, l !! j = Some y ∧ same_identity y x.
Proof.
  intros Hf. rewrite list_lookup_alter. case_decide as Hij.
  - subst. destruct (l !! j) as [y|]; [|done]. cbn. intros [= <-]. by exists y.
  - intros Hx. by exists x.
Qed.

Lemma Forall_sorted (P : Transaction → Prop) l : Forall P l → Forall P (sort_by_timestamp l).
Proof. by rewrite sort_by_timestamp_perm. Qed.

Lemma first_later_after gen issue_date : issue_date < Z.of_N (first_later gen issue_date).
Proof. unfold first_later. lia. Qed.

Lemma first_later_after_l gen d1 d2 : d1 < Z.of_N (first_later gen (d1 `max` d2)).
Proof. unfold first_later. lia. Qed.

Lemma first_later_after_r gen d1 d2 : d2 < Z.of_N (first_later gen (d1 `max` d2)).
Proof. unfold first_later. lia. Qed.

(** The final state of a call keeps [histories_ok]. *)
Ltac identity_known :=
  repeat match goal with
  | Hx : alter _ _ _ !! _ = Some _ |- _ =>
      apply lookup_alter_identity in Hx as (? & Hx & [? ?]); [|by intros []]
  end;
  simplify_eq/=.
Ltac entry_side :=
  unfold entry_of;
  cbn [timestamp from_card to_card dt_date timestamp_generator issue_date card_id
       set_transactions set_status];
  split;
  [ repeat match goal with
           | H : issue_date ?x = _ |- context [issue_date ?x] => rewrite H
           end;
    first [ apply first_later_after | apply first_later_after_l | apply first_later_after_r ]
  | first [ by left | by right | left; congruence | right; congruence ] ].
Ltac history_side HC :=
  cbn [transactions set_status set_transactions issue_date card_id];
  first
    [ eassumption
    | apply Forall_app; split;
      [ eassumption | constructor; [identity_known; entry_side|constructor] ]
    | match goal with
      | Hc : card_heap _ !! _ = Some ?c |- Forall _ (sort_by_timestamp (transactions ?c)) =>
          apply Forall_sorted; identity_known;
          exact (Forall_lookup_1 _ _ _ _ HC Hc)
      end ].
Ltac histories_peel HC :=
  lazymatch goal with
  | |- Forall _ (alter _ _ _) =>
      apply Forall_alter; [histories_peel HC|intros ? ? ?; history_side HC]
  | |- Forall _ (_ ++ [_]) =>
      apply Forall_app; split; [histories_peel HC|repeat constructor]
  | |- Forall _ _ => exact HC
  end.
Ltac histories_close :=
  let HC := fresh "HC" in
  intros HC; unfold histories_ok in *; stamp_known; state_norm; histories_peel HC.

Section CardHistories.
Context {U : UnicodeDB}.

Lemma reachable_histories_ok w : reachable w → histories_ok w.
Proof.
  apply reachable_ind_calls.
  - intros. unfold histories_ok. cbn. constructor.
  - intros e w0. histories_close.
  - intros. unfold_calls. wp_run_card; subst; histories_close.
  - intros. unfold_calls. wp_run_card; subst; histories_close.
  - intros. unfold_calls. wp_run_card; subst; histories_close.
  - intros. unfold_calls. wp_run_card; subst; histories_close.
  - intros. unfold_calls. wp_run_card; subst; histories_close.
  - intros. unfold_calls. wp_run_card; subst; histories_close.
  - intros. unfold_calls. wp_run_card; subst; histories_close.
  - intros. unfold_calls. wp_run_card; subst; histories_close.
  - intros. unfold_calls. wp_run_card; subst; histories_close.
  - intros. unfold_calls. wp_run_card; subst; histories_close.
  - intros. unfold_calls. wp_run_card; subst; histories_close.
  - intros. unfold_calls. wp_run_card; subst; histories_close.
  - intros. unfold_calls. wp_run_card; subst; histories_close.
Qed.

(** X30: in every reachable state each entry of a card's transaction
    list is dated after the card's issue date and names the card as its
    sender or as its recipient. *)
Theorem card_history_is_its_own w self card t :
  reachable w →
  card_heap w !! self = Some card →
  t ∈ transactions card →
  issue_date card < dt_date (timestamp t)
  ∧ (from_card t = Some (card_id card) ∨ to_card t = Some (card_id card)).
Proof.
  intros Hreach Hc Ht.
  pose proof (Forall_lookup_1 _ _ _ _ (reachable_histories_ok w Hreach) Hc) as Hcard.
  by apply (proj1 (Forall_forall _ _) Hcard).
Qed.
End CardHistories.

Lemma card_history_is_its_own_witness :
  ∃ card,
    card_heap Branch.world !! 2%nat = Some card
    ∧ length (transactions card) = 2%nat
    ∧ Forall (λ t, issue_date card < dt_date (timestamp t)) (transactions card).
Proof.
  eexists. split; [reflexivity|]. split; [reflexivity|].
  apply Forall_forall. intros t Ht.
  by destruct (card_history_is_its_own (U := ascii_only) Branch.world 2 _ t
                 branch_world_reachable eq_refl Ht).
Defined.
